(** * busqueitor: DNI / NIE / NIF validation and text scanning

    A shallow embedding of [src/busqueitor.py]: the class
    [DocumentValidator] ([clean_document], [validate_dni], [validate_nie],
    [validate_nif], [process_pdf], [save_results]) and the functions
    [sanitize_path] and [analizar_multiples_archivos].

    Modelling choices.
    - A Python [str] is a list of code points, each an [N].  The classes
      [\s], [\d] and [\w] of [re] (which on a [str] pattern are the
      Unicode ones) and the case mapping of [str.upper] are tables taken
      from the Unicode Character Database 14.0.0, the one of CPython
      3.11: [SPACES], [DECIMAL_ZEROS], [WORDS], [UPPER].  The classes
      written out in a pattern, [[A-Z]] or [[0-9A-Z]], are the ASCII ranges
      they name.
    - A Python [int] is a [Z]; [%] with a positive divisor is [Z.modulo].
    - Exceptions are explicit: an operation that can raise returns a
      [result], and [try ... except] is [try_except].
    - [self.stats] and the local list [resultados] are mutated in place;
      they are threaded through a state-and-exception monad.
    - The download, the PDF readers and the file system are outside the
      program; what they deliver is given by a [World]. *)

From Stdlib Require Import Ascii String List ZArith NArith Bool Lia Sorted.
From Stdlib Require Import Znumtheory.
Import ListNotations.

Local Open Scope Z_scope.

(** ** Text *)

Definition char := N.
Definition str := list char.

(** The code point of an ASCII character, and string literals as the
    list of their code points. *)
Definition ch (a : ascii) : char := N_of_ascii a.
Arguments ch a%_char.
Definition lit (s : string) : str := map ch (list_ascii_of_string s).
Coercion lit : string >-> str.

(** *** The Unicode tables *)

Local Open Scope N_scope.

(** The code points that [\s] matches and [str.strip] removes, as
    ranges. *)
Definition SPACES : list (N * N) :=
  [
   (9, 13); (28, 32); (133, 133); (160, 160); (5760, 5760); (8192, 8202);
   (8232, 8233); (8239, 8239); (8287, 8287); (12288, 12288) ].

(** The zero of each run of ten decimal digits: [\d] matches the ten code
    points from a zero on, and [int] reads them as 0 to 9. *)
Definition DECIMAL_ZEROS : list N :=
  [
   48; 1632; 1776; 1984; 2406; 2534; 2662; 2790; 2918; 3046; 3174; 3302;
   3430; 3558; 3664; 3792; 3872; 4160; 4240; 6112; 6160; 6470; 6608; 6784;
   6800; 6992; 7088; 7232; 7248; 42528; 43216; 43264; 43472; 43504; 43600;
   44016; 65296; 66720; 68912; 69734; 69872; 69942; 70096; 70384; 70736;
   70864; 71248; 71360; 71472; 71904; 72016; 72784; 73040; 73120; 92768;
   92864; 93008; 120782; 120792; 120802; 120812; 120822; 123200; 123632;
   125264; 130032 ].

(** The code points that [\w] matches, as ranges. *)
Definition WORDS : list (N * N) :=
  [
   (48, 57); (65, 90); (95, 95); (97, 122); (170, 170); (178, 179); (181,
   181); (185, 186); (188, 190); (192, 214); (216, 246); (248, 705); (710,
   721); (736, 740); (748, 748); (750, 750); (880, 884); (886, 887); (890,
   893); (895, 895); (902, 902); (904, 906); (908, 908); (910, 929); (931,
   1013); (1015, 1153); (1162, 1327); (1329, 1366); (1369, 1369); (1376,
   1416); (1488, 1514); (1519, 1522); (1568, 1610); (1632, 1641); (1646,
   1647); (1649, 1747); (1749, 1749); (1765, 1766); (1774, 1788); (1791,
   1791); (1808, 1808); (1810, 1839); (1869, 1957); (1969, 1969); (1984,
   2026); (2036, 2037); (2042, 2042); (2048, 2069); (2074, 2074); (2084,
   2084); (2088, 2088); (2112, 2136); (2144, 2154); (2160, 2183); (2185,
   2190); (2208, 2249); (2308, 2361); (2365, 2365); (2384, 2384); (2392,
   2401); (2406, 2415); (2417, 2432); (2437, 2444); (2447, 2448); (2451,
   2472); (2474, 2480); (2482, 2482); (2486, 2489); (2493, 2493); (2510,
   2510); (2524, 2525); (2527, 2529); (2534, 2545); (2548, 2553); (2556,
   2556); (2565, 2570); (2575, 2576); (2579, 2600); (2602, 2608); (2610,
   2611); (2613, 2614); (2616, 2617); (2649, 2652); (2654, 2654); (2662,
   2671); (2674, 2676); (2693, 2701); (2703, 2705); (2707, 2728); (2730,
   2736); (2738, 2739); (2741, 2745); (2749, 2749); (2768, 2768); (2784,
   2785); (2790, 2799); (2809, 2809); (2821, 2828); (2831, 2832); (2835,
   2856); (2858, 2864); (2866, 2867); (2869, 2873); (2877, 2877); (2908,
   2909); (2911, 2913); (2918, 2927); (2929, 2935); (2947, 2947); (2949,
   2954); (2958, 2960); (2962, 2965); (2969, 2970); (2972, 2972); (2974,
   2975); (2979, 2980); (2984, 2986); (2990, 3001); (3024, 3024); (3046,
   3058); (3077, 3084); (3086, 3088); (3090, 3112); (3114, 3129); (3133,
   3133); (3160, 3162); (3165, 3165); (3168, 3169); (3174, 3183); (3192,
   3198); (3200, 3200); (3205, 3212); (3214, 3216); (3218, 3240); (3242,
   3251); (3253, 3257); (3261, 3261); (3293, 3294); (3296, 3297); (3302,
   3311); (3313, 3314); (3332, 3340); (3342, 3344); (3346, 3386); (3389,
   3389); (3406, 3406); (3412, 3414); (3416, 3425); (3430, 3448); (3450,
   3455); (3461, 3478); (3482, 3505); (3507, 3515); (3517, 3517); (3520,
   3526); (3558, 3567); (3585, 3632); (3634, 3635); (3648, 3654); (3664,
   3673); (3713, 3714); (3716, 3716); (3718, 3722); (3724, 3747); (3749,
   3749); (3751, 3760); (3762, 3763); (3773, 3773); (3776, 3780); (3782,
   3782); (3792, 3801); (3804, 3807); (3840, 3840); (3872, 3891); (3904,
   3911); (3913, 3948); (3976, 3980); (4096, 4138); (4159, 4169); (4176,
   4181); (4186, 4189); (4193, 4193); (4197, 4198); (4206, 4208); (4213,
   4225); (4238, 4238); (4240, 4249); (4256, 4293); (4295, 4295); (4301,
   4301); (4304, 4346); (4348, 4680); (4682, 4685); (4688, 4694); (4696,
   4696); (4698, 4701); (4704, 4744); (4746, 4749); (4752, 4784); (4786,
   4789); (4792, 4798); (4800, 4800); (4802, 4805); (4808, 4822); (4824,
   4880); (4882, 4885); (4888, 4954); (4969, 4988); (4992, 5007); (5024,
   5109); (5112, 5117); (5121, 5740); (5743, 5759); (5761, 5786); (5792,
   5866); (5870, 5880); (5888, 5905); (5919, 5937); (5952, 5969); (5984,
   5996); (5998, 6000); (6016, 6067); (6103, 6103); (6108, 6108); (6112,
   6121); (6128, 6137); (6160, 6169); (6176, 6264); (6272, 6276); (6279,
   6312); (6314, 6314); (6320, 6389); (6400, 6430); (6470, 6509); (6512,
   6516); (6528, 6571); (6576, 6601); (6608, 6618); (6656, 6678); (6688,
   6740); (6784, 6793); (6800, 6809); (6823, 6823); (6917, 6963); (6981,
   6988); (6992, 7001); (7043, 7072); (7086, 7141); (7168, 7203); (7232,
   7241); (7245, 7293); (7296, 7304); (7312, 7354); (7357, 7359); (7401,
   7404); (7406, 7411); (7413, 7414); (7418, 7418); (7424, 7615); (7680,
   7957); (7960, 7965); (7968, 8005); (8008, 8013); (8016, 8023); (8025,
   8025); (8027, 8027); (8029, 8029); (8031, 8061); (8064, 8116); (8118,
   8124); (8126, 8126); (8130, 8132); (8134, 8140); (8144, 8147); (8150,
   8155); (8160, 8172); (8178, 8180); (8182, 8188); (8304, 8305); (8308,
   8313); (8319, 8329); (8336, 8348); (8450, 8450); (8455, 8455); (8458,
   8467); (8469, 8469); (8473, 8477); (8484, 8484); (8486, 8486); (8488,
   8488); (8490, 8493); (8495, 8505); (8508, 8511); (8517, 8521); (8526,
   8526); (8528, 8585); (9312, 9371); (9450, 9471); (10102, 10131); (11264,
   11492); (11499, 11502); (11506, 11507); (11517, 11517); (11520, 11557);
   (11559, 11559); (11565, 11565); (11568, 11623); (11631, 11631); (11648,
   11670); (11680, 11686); (11688, 11694); (11696, 11702); (11704, 11710);
   (11712, 11718); (11720, 11726); (11728, 11734); (11736, 11742); (11823,
   11823); (12293, 12295); (12321, 12329); (12337, 12341); (12344, 12348);
   (12353, 12438); (12445, 12447); (12449, 12538); (12540, 12543); (12549,
   12591); (12593, 12686); (12690, 12693); (12704, 12735); (12784, 12799);
   (12832, 12841); (12872, 12879); (12881, 12895); (12928, 12937); (12977,
   12991); (13312, 19903); (19968, 42124); (42192, 42237); (42240, 42508);
   (42512, 42539); (42560, 42606); (42623, 42653); (42656, 42735); (42775,
   42783); (42786, 42888); (42891, 42954); (42960, 42961); (42963, 42963);
   (42965, 42969); (42994, 43009); (43011, 43013); (43015, 43018); (43020,
   43042); (43056, 43061); (43072, 43123); (43138, 43187); (43216, 43225);
   (43250, 43255); (43259, 43259); (43261, 43262); (43264, 43301); (43312,
   43334); (43360, 43388); (43396, 43442); (43471, 43481); (43488, 43492);
   (43494, 43518); (43520, 43560); (43584, 43586); (43588, 43595); (43600,
   43609); (43616, 43638); (43642, 43642); (43646, 43695); (43697, 43697);
   (43701, 43702); (43705, 43709); (43712, 43712); (43714, 43714); (43739,
   43741); (43744, 43754); (43762, 43764); (43777, 43782); (43785, 43790);
   (43793, 43798); (43808, 43814); (43816, 43822); (43824, 43866); (43868,
   43881); (43888, 44002); (44016, 44025); (44032, 55203); (55216, 55238);
   (55243, 55291); (63744, 64109); (64112, 64217); (64256, 64262); (64275,
   64279); (64285, 64285); (64287, 64296); (64298, 64310); (64312, 64316);
   (64318, 64318); (64320, 64321); (64323, 64324); (64326, 64433); (64467,
   64829); (64848, 64911); (64914, 64967); (65008, 65019); (65136, 65140);
   (65142, 65276); (65296, 65305); (65313, 65338); (65345, 65370); (65382,
   65470); (65474, 65479); (65482, 65487); (65490, 65495); (65498, 65500);
   (65536, 65547); (65549, 65574); (65576, 65594); (65596, 65597); (65599,
   65613); (65616, 65629); (65664, 65786); (65799, 65843); (65856, 65912);
   (65930, 65931); (66176, 66204); (66208, 66256); (66273, 66299); (66304,
   66339); (66349, 66378); (66384, 66421); (66432, 66461); (66464, 66499);
   (66504, 66511); (66513, 66517); (66560, 66717); (66720, 66729); (66736,
   66771); (66776, 66811); (66816, 66855); (66864, 66915); (66928, 66938);
   (66940, 66954); (66956, 66962); (66964, 66965); (66967, 66977); (66979,
   66993); (66995, 67001); (67003, 67004); (67072, 67382); (67392, 67413);
   (67424, 67431); (67456, 67461); (67463, 67504); (67506, 67514); (67584,
   67589); (67592, 67592); (67594, 67637); (67639, 67640); (67644, 67644);
   (67647, 67669); (67672, 67702); (67705, 67742); (67751, 67759); (67808,
   67826); (67828, 67829); (67835, 67867); (67872, 67897); (67968, 68023);
   (68028, 68047); (68050, 68096); (68112, 68115); (68117, 68119); (68121,
   68149); (68160, 68168); (68192, 68222); (68224, 68255); (68288, 68295);
   (68297, 68324); (68331, 68335); (68352, 68405); (68416, 68437); (68440,
   68466); (68472, 68497); (68521, 68527); (68608, 68680); (68736, 68786);
   (68800, 68850); (68858, 68899); (68912, 68921); (69216, 69246); (69248,
   69289); (69296, 69297); (69376, 69415); (69424, 69445); (69457, 69460);
   (69488, 69505); (69552, 69579); (69600, 69622); (69635, 69687); (69714,
   69743); (69745, 69746); (69749, 69749); (69763, 69807); (69840, 69864);
   (69872, 69881); (69891, 69926); (69942, 69951); (69956, 69956); (69959,
   69959); (69968, 70002); (70006, 70006); (70019, 70066); (70081, 70084);
   (70096, 70106); (70108, 70108); (70113, 70132); (70144, 70161); (70163,
   70187); (70272, 70278); (70280, 70280); (70282, 70285); (70287, 70301);
   (70303, 70312); (70320, 70366); (70384, 70393); (70405, 70412); (70415,
   70416); (70419, 70440); (70442, 70448); (70450, 70451); (70453, 70457);
   (70461, 70461); (70480, 70480); (70493, 70497); (70656, 70708); (70727,
   70730); (70736, 70745); (70751, 70753); (70784, 70831); (70852, 70853);
   (70855, 70855); (70864, 70873); (71040, 71086); (71128, 71131); (71168,
   71215); (71236, 71236); (71248, 71257); (71296, 71338); (71352, 71352);
   (71360, 71369); (71424, 71450); (71472, 71483); (71488, 71494); (71680,
   71723); (71840, 71922); (71935, 71942); (71945, 71945); (71948, 71955);
   (71957, 71958); (71960, 71983); (71999, 71999); (72001, 72001); (72016,
   72025); (72096, 72103); (72106, 72144); (72161, 72161); (72163, 72163);
   (72192, 72192); (72203, 72242); (72250, 72250); (72272, 72272); (72284,
   72329); (72349, 72349); (72368, 72440); (72704, 72712); (72714, 72750);
   (72768, 72768); (72784, 72812); (72818, 72847); (72960, 72966); (72968,
   72969); (72971, 73008); (73030, 73030); (73040, 73049); (73056, 73061);
   (73063, 73064); (73066, 73097); (73112, 73112); (73120, 73129); (73440,
   73458); (73648, 73648); (73664, 73684); (73728, 74649); (74752, 74862);
   (74880, 75075); (77712, 77808); (77824, 78894); (82944, 83526); (92160,
   92728); (92736, 92766); (92768, 92777); (92784, 92862); (92864, 92873);
   (92880, 92909); (92928, 92975); (92992, 92995); (93008, 93017); (93019,
   93025); (93027, 93047); (93053, 93071); (93760, 93846); (93952, 94026);
   (94032, 94032); (94099, 94111); (94176, 94177); (94179, 94179); (94208,
   100343); (100352, 101589); (101632, 101640); (110576, 110579); (110581,
   110587); (110589, 110590); (110592, 110882); (110928, 110930); (110948,
   110951); (110960, 111355); (113664, 113770); (113776, 113788); (113792,
   113800); (113808, 113817); (119520, 119539); (119648, 119672); (119808,
   119892); (119894, 119964); (119966, 119967); (119970, 119970); (119973,
   119974); (119977, 119980); (119982, 119993); (119995, 119995); (119997,
   120003); (120005, 120069); (120071, 120074); (120077, 120084); (120086,
   120092); (120094, 120121); (120123, 120126); (120128, 120132); (120134,
   120134); (120138, 120144); (120146, 120485); (120488, 120512); (120514,
   120538); (120540, 120570); (120572, 120596); (120598, 120628); (120630,
   120654); (120656, 120686); (120688, 120712); (120714, 120744); (120746,
   120770); (120772, 120779); (120782, 120831); (122624, 122654); (123136,
   123180); (123191, 123197); (123200, 123209); (123214, 123214); (123536,
   123565); (123584, 123627); (123632, 123641); (124896, 124902); (124904,
   124907); (124909, 124910); (124912, 124926); (124928, 125124); (125127,
   125135); (125184, 125251); (125259, 125259); (125264, 125273); (126065,
   126123); (126125, 126127); (126129, 126132); (126209, 126253); (126255,
   126269); (126464, 126467); (126469, 126495); (126497, 126498); (126500,
   126500); (126503, 126503); (126505, 126514); (126516, 126519); (126521,
   126521); (126523, 126523); (126530, 126530); (126535, 126535); (126537,
   126537); (126539, 126539); (126541, 126543); (126545, 126546); (126548,
   126548); (126551, 126551); (126553, 126553); (126555, 126555); (126557,
   126557); (126559, 126559); (126561, 126562); (126564, 126564); (126567,
   126570); (126572, 126578); (126580, 126583); (126585, 126588); (126590,
   126590); (126592, 126601); (126603, 126619); (126625, 126627); (126629,
   126633); (126635, 126651); (127232, 127244); (130032, 130041); (131072,
   173791); (173824, 177976); (177984, 178205); (178208, 183969); (183984,
   191456); (194560, 195101); (196608, 201546) ].

(** [str.upper] on the code points it changes. *)
Definition UPPER : list (N * list N) :=
  [
   (97, [65]); (98, [66]); (99, [67]); (100, [68]); (101, [69]); (102,
   [70]); (103, [71]); (104, [72]); (105, [73]); (106, [74]); (107, [75]);
   (108, [76]); (109, [77]); (110, [78]); (111, [79]); (112, [80]); (113,
   [81]); (114, [82]); (115, [83]); (116, [84]); (117, [85]); (118, [86]);
   (119, [87]); (120, [88]); (121, [89]); (122, [90]); (181, [924]); (223,
   [83; 83]); (224, [192]); (225, [193]); (226, [194]); (227, [195]); (228,
   [196]); (229, [197]); (230, [198]); (231, [199]); (232, [200]); (233,
   [201]); (234, [202]); (235, [203]); (236, [204]); (237, [205]); (238,
   [206]); (239, [207]); (240, [208]); (241, [209]); (242, [210]); (243,
   [211]); (244, [212]); (245, [213]); (246, [214]); (248, [216]); (249,
   [217]); (250, [218]); (251, [219]); (252, [220]); (253, [221]); (254,
   [222]); (255, [376]); (257, [256]); (259, [258]); (261, [260]); (263,
   [262]); (265, [264]); (267, [266]); (269, [268]); (271, [270]); (273,
   [272]); (275, [274]); (277, [276]); (279, [278]); (281, [280]); (283,
   [282]); (285, [284]); (287, [286]); (289, [288]); (291, [290]); (293,
   [292]); (295, [294]); (297, [296]); (299, [298]); (301, [300]); (303,
   [302]); (305, [73]); (307, [306]); (309, [308]); (311, [310]); (314,
   [313]); (316, [315]); (318, [317]); (320, [319]); (322, [321]); (324,
   [323]); (326, [325]); (328, [327]); (329, [700; 78]); (331, [330]); (333,
   [332]); (335, [334]); (337, [336]); (339, [338]); (341, [340]); (343,
   [342]); (345, [344]); (347, [346]); (349, [348]); (351, [350]); (353,
   [352]); (355, [354]); (357, [356]); (359, [358]); (361, [360]); (363,
   [362]); (365, [364]); (367, [366]); (369, [368]); (371, [370]); (373,
   [372]); (375, [374]); (378, [377]); (380, [379]); (382, [381]); (383,
   [83]); (384, [579]); (387, [386]); (389, [388]); (392, [391]); (396,
   [395]); (402, [401]); (405, [502]); (409, [408]); (410, [573]); (414,
   [544]); (417, [416]); (419, [418]); (421, [420]); (424, [423]); (429,
   [428]); (432, [431]); (436, [435]); (438, [437]); (441, [440]); (445,
   [444]); (447, [503]); (453, [452]); (454, [452]); (456, [455]); (457,
   [455]); (459, [458]); (460, [458]); (462, [461]); (464, [463]); (466,
   [465]); (468, [467]); (470, [469]); (472, [471]); (474, [473]); (476,
   [475]); (477, [398]); (479, [478]); (481, [480]); (483, [482]); (485,
   [484]); (487, [486]); (489, [488]); (491, [490]); (493, [492]); (495,
   [494]); (496, [74; 780]); (498, [497]); (499, [497]); (501, [500]); (505,
   [504]); (507, [506]); (509, [508]); (511, [510]); (513, [512]); (515,
   [514]); (517, [516]); (519, [518]); (521, [520]); (523, [522]); (525,
   [524]); (527, [526]); (529, [528]); (531, [530]); (533, [532]); (535,
   [534]); (537, [536]); (539, [538]); (541, [540]); (543, [542]); (547,
   [546]); (549, [548]); (551, [550]); (553, [552]); (555, [554]); (557,
   [556]); (559, [558]); (561, [560]); (563, [562]); (572, [571]); (575,
   [11390]); (576, [11391]); (578, [577]); (583, [582]); (585, [584]); (587,
   [586]); (589, [588]); (591, [590]); (592, [11375]); (593, [11373]); (594,
   [11376]); (595, [385]); (596, [390]); (598, [393]); (599, [394]); (601,
   [399]); (603, [400]); (604, [42923]); (608, [403]); (609, [42924]); (611,
   [404]); (613, [42893]); (614, [42922]); (616, [407]); (617, [406]); (618,
   [42926]); (619, [11362]); (620, [42925]); (623, [412]); (625, [11374]);
   (626, [413]); (629, [415]); (637, [11364]); (640, [422]); (642, [42949]);
   (643, [425]); (647, [42929]); (648, [430]); (649, [580]); (650, [433]);
   (651, [434]); (652, [581]); (658, [439]); (669, [42930]); (670, [42928]);
   (837, [921]); (881, [880]); (883, [882]); (887, [886]); (891, [1021]);
   (892, [1022]); (893, [1023]); (912, [921; 776; 769]); (940, [902]); (941,
   [904]); (942, [905]); (943, [906]); (944, [933; 776; 769]); (945, [913]);
   (946, [914]); (947, [915]); (948, [916]); (949, [917]); (950, [918]);
   (951, [919]); (952, [920]); (953, [921]); (954, [922]); (955, [923]);
   (956, [924]); (957, [925]); (958, [926]); (959, [927]); (960, [928]);
   (961, [929]); (962, [931]); (963, [931]); (964, [932]); (965, [933]);
   (966, [934]); (967, [935]); (968, [936]); (969, [937]); (970, [938]);
   (971, [939]); (972, [908]); (973, [910]); (974, [911]); (976, [914]);
   (977, [920]); (981, [934]); (982, [928]); (983, [975]); (985, [984]);
   (987, [986]); (989, [988]); (991, [990]); (993, [992]); (995, [994]);
   (997, [996]); (999, [998]); (1001, [1000]); (1003, [1002]); (1005,
   [1004]); (1007, [1006]); (1008, [922]); (1009, [929]); (1010, [1017]);
   (1011, [895]); (1013, [917]); (1016, [1015]); (1019, [1018]); (1072,
   [1040]); (1073, [1041]); (1074, [1042]); (1075, [1043]); (1076, [1044]);
   (1077, [1045]); (1078, [1046]); (1079, [1047]); (1080, [1048]); (1081,
   [1049]); (1082, [1050]); (1083, [1051]); (1084, [1052]); (1085, [1053]);
   (1086, [1054]); (1087, [1055]); (1088, [1056]); (1089, [1057]); (1090,
   [1058]); (1091, [1059]); (1092, [1060]); (1093, [1061]); (1094, [1062]);
   (1095, [1063]); (1096, [1064]); (1097, [1065]); (1098, [1066]); (1099,
   [1067]); (1100, [1068]); (1101, [1069]); (1102, [1070]); (1103, [1071]);
   (1104, [1024]); (1105, [1025]); (1106, [1026]); (1107, [1027]); (1108,
   [1028]); (1109, [1029]); (1110, [1030]); (1111, [1031]); (1112, [1032]);
   (1113, [1033]); (1114, [1034]); (1115, [1035]); (1116, [1036]); (1117,
   [1037]); (1118, [1038]); (1119, [1039]); (1121, [1120]); (1123, [1122]);
   (1125, [1124]); (1127, [1126]); (1129, [1128]); (1131, [1130]); (1133,
   [1132]); (1135, [1134]); (1137, [1136]); (1139, [1138]); (1141, [1140]);
   (1143, [1142]); (1145, [1144]); (1147, [1146]); (1149, [1148]); (1151,
   [1150]); (1153, [1152]); (1163, [1162]); (1165, [1164]); (1167, [1166]);
   (1169, [1168]); (1171, [1170]); (1173, [1172]); (1175, [1174]); (1177,
   [1176]); (1179, [1178]); (1181, [1180]); (1183, [1182]); (1185, [1184]);
   (1187, [1186]); (1189, [1188]); (1191, [1190]); (1193, [1192]); (1195,
   [1194]); (1197, [1196]); (1199, [1198]); (1201, [1200]); (1203, [1202]);
   (1205, [1204]); (1207, [1206]); (1209, [1208]); (1211, [1210]); (1213,
   [1212]); (1215, [1214]); (1218, [1217]); (1220, [1219]); (1222, [1221]);
   (1224, [1223]); (1226, [1225]); (1228, [1227]); (1230, [1229]); (1231,
   [1216]); (1233, [1232]); (1235, [1234]); (1237, [1236]); (1239, [1238]);
   (1241, [1240]); (1243, [1242]); (1245, [1244]); (1247, [1246]); (1249,
   [1248]); (1251, [1250]); (1253, [1252]); (1255, [1254]); (1257, [1256]);
   (1259, [1258]); (1261, [1260]); (1263, [1262]); (1265, [1264]); (1267,
   [1266]); (1269, [1268]); (1271, [1270]); (1273, [1272]); (1275, [1274]);
   (1277, [1276]); (1279, [1278]); (1281, [1280]); (1283, [1282]); (1285,
   [1284]); (1287, [1286]); (1289, [1288]); (1291, [1290]); (1293, [1292]);
   (1295, [1294]); (1297, [1296]); (1299, [1298]); (1301, [1300]); (1303,
   [1302]); (1305, [1304]); (1307, [1306]); (1309, [1308]); (1311, [1310]);
   (1313, [1312]); (1315, [1314]); (1317, [1316]); (1319, [1318]); (1321,
   [1320]); (1323, [1322]); (1325, [1324]); (1327, [1326]); (1377, [1329]);
   (1378, [1330]); (1379, [1331]); (1380, [1332]); (1381, [1333]); (1382,
   [1334]); (1383, [1335]); (1384, [1336]); (1385, [1337]); (1386, [1338]);
   (1387, [1339]); (1388, [1340]); (1389, [1341]); (1390, [1342]); (1391,
   [1343]); (1392, [1344]); (1393, [1345]); (1394, [1346]); (1395, [1347]);
   (1396, [1348]); (1397, [1349]); (1398, [1350]); (1399, [1351]); (1400,
   [1352]); (1401, [1353]); (1402, [1354]); (1403, [1355]); (1404, [1356]);
   (1405, [1357]); (1406, [1358]); (1407, [1359]); (1408, [1360]); (1409,
   [1361]); (1410, [1362]); (1411, [1363]); (1412, [1364]); (1413, [1365]);
   (1414, [1366]); (1415, [1333; 1362]); (4304, [7312]); (4305, [7313]);
   (4306, [7314]); (4307, [7315]); (4308, [7316]); (4309, [7317]); (4310,
   [7318]); (4311, [7319]); (4312, [7320]); (4313, [7321]); (4314, [7322]);
   (4315, [7323]); (4316, [7324]); (4317, [7325]); (4318, [7326]); (4319,
   [7327]); (4320, [7328]); (4321, [7329]); (4322, [7330]); (4323, [7331]);
   (4324, [7332]); (4325, [7333]); (4326, [7334]); (4327, [7335]); (4328,
   [7336]); (4329, [7337]); (4330, [7338]); (4331, [7339]); (4332, [7340]);
   (4333, [7341]); (4334, [7342]); (4335, [7343]); (4336, [7344]); (4337,
   [7345]); (4338, [7346]); (4339, [7347]); (4340, [7348]); (4341, [7349]);
   (4342, [7350]); (4343, [7351]); (4344, [7352]); (4345, [7353]); (4346,
   [7354]); (4349, [7357]); (4350, [7358]); (4351, [7359]); (5112, [5104]);
   (5113, [5105]); (5114, [5106]); (5115, [5107]); (5116, [5108]); (5117,
   [5109]); (7296, [1042]); (7297, [1044]); (7298, [1054]); (7299, [1057]);
   (7300, [1058]); (7301, [1058]); (7302, [1066]); (7303, [1122]); (7304,
   [42570]); (7545, [42877]); (7549, [11363]); (7566, [42950]); (7681,
   [7680]); (7683, [7682]); (7685, [7684]); (7687, [7686]); (7689, [7688]);
   (7691, [7690]); (7693, [7692]); (7695, [7694]); (7697, [7696]); (7699,
   [7698]); (7701, [7700]); (7703, [7702]); (7705, [7704]); (7707, [7706]);
   (7709, [7708]); (7711, [7710]); (7713, [7712]); (7715, [7714]); (7717,
   [7716]); (7719, [7718]); (7721, [7720]); (7723, [7722]); (7725, [7724]);
   (7727, [7726]); (7729, [7728]); (7731, [7730]); (7733, [7732]); (7735,
   [7734]); (7737, [7736]); (7739, [7738]); (7741, [7740]); (7743, [7742]);
   (7745, [7744]); (7747, [7746]); (7749, [7748]); (7751, [7750]); (7753,
   [7752]); (7755, [7754]); (7757, [7756]); (7759, [7758]); (7761, [7760]);
   (7763, [7762]); (7765, [7764]); (7767, [7766]); (7769, [7768]); (7771,
   [7770]); (7773, [7772]); (7775, [7774]); (7777, [7776]); (7779, [7778]);
   (7781, [7780]); (7783, [7782]); (7785, [7784]); (7787, [7786]); (7789,
   [7788]); (7791, [7790]); (7793, [7792]); (7795, [7794]); (7797, [7796]);
   (7799, [7798]); (7801, [7800]); (7803, [7802]); (7805, [7804]); (7807,
   [7806]); (7809, [7808]); (7811, [7810]); (7813, [7812]); (7815, [7814]);
   (7817, [7816]); (7819, [7818]); (7821, [7820]); (7823, [7822]); (7825,
   [7824]); (7827, [7826]); (7829, [7828]); (7830, [72; 817]); (7831,
   [84; 776]); (7832, [87; 778]); (7833, [89; 778]); (7834, [65; 702]); (7835,
   [7776]); (7841, [7840]); (7843, [7842]); (7845, [7844]); (7847, [7846]);
   (7849, [7848]); (7851, [7850]); (7853, [7852]); (7855, [7854]); (7857,
   [7856]); (7859, [7858]); (7861, [7860]); (7863, [7862]); (7865, [7864]);
   (7867, [7866]); (7869, [7868]); (7871, [7870]); (7873, [7872]); (7875,
   [7874]); (7877, [7876]); (7879, [7878]); (7881, [7880]); (7883, [7882]);
   (7885, [7884]); (7887, [7886]); (7889, [7888]); (7891, [7890]); (7893,
   [7892]); (7895, [7894]); (7897, [7896]); (7899, [7898]); (7901, [7900]);
   (7903, [7902]); (7905, [7904]); (7907, [7906]); (7909, [7908]); (7911,
   [7910]); (7913, [7912]); (7915, [7914]); (7917, [7916]); (7919, [7918]);
   (7921, [7920]); (7923, [7922]); (7925, [7924]); (7927, [7926]); (7929,
   [7928]); (7931, [7930]); (7933, [7932]); (7935, [7934]); (7936, [7944]);
   (7937, [7945]); (7938, [7946]); (7939, [7947]); (7940, [7948]); (7941,
   [7949]); (7942, [7950]); (7943, [7951]); (7952, [7960]); (7953, [7961]);
   (7954, [7962]); (7955, [7963]); (7956, [7964]); (7957, [7965]); (7968,
   [7976]); (7969, [7977]); (7970, [7978]); (7971, [7979]); (7972, [7980]);
   (7973, [7981]); (7974, [7982]); (7975, [7983]); (7984, [7992]); (7985,
   [7993]); (7986, [7994]); (7987, [7995]); (7988, [7996]); (7989, [7997]);
   (7990, [7998]); (7991, [7999]); (8000, [8008]); (8001, [8009]); (8002,
   [8010]); (8003, [8011]); (8004, [8012]); (8005, [8013]); (8016,
   [933; 787]); (8017, [8025]); (8018, [933; 787; 768]); (8019, [8027]); (8020,
   [933; 787; 769]); (8021, [8029]); (8022, [933; 787; 834]); (8023, [8031]);
   (8032, [8040]); (8033, [8041]); (8034, [8042]); (8035, [8043]); (8036,
   [8044]); (8037, [8045]); (8038, [8046]); (8039, [8047]); (8048, [8122]);
   (8049, [8123]); (8050, [8136]); (8051, [8137]); (8052, [8138]); (8053,
   [8139]); (8054, [8154]); (8055, [8155]); (8056, [8184]); (8057, [8185]);
   (8058, [8170]); (8059, [8171]); (8060, [8186]); (8061, [8187]); (8064,
   [7944; 921]); (8065, [7945; 921]); (8066, [7946; 921]); (8067, [7947; 921]);
   (8068, [7948; 921]); (8069, [7949; 921]); (8070, [7950; 921]); (8071,
   [7951; 921]); (8072, [7944; 921]); (8073, [7945; 921]); (8074, [7946; 921]);
   (8075, [7947; 921]); (8076, [7948; 921]); (8077, [7949; 921]); (8078,
   [7950; 921]); (8079, [7951; 921]); (8080, [7976; 921]); (8081, [7977; 921]);
   (8082, [7978; 921]); (8083, [7979; 921]); (8084, [7980; 921]); (8085,
   [7981; 921]); (8086, [7982; 921]); (8087, [7983; 921]); (8088, [7976; 921]);
   (8089, [7977; 921]); (8090, [7978; 921]); (8091, [7979; 921]); (8092,
   [7980; 921]); (8093, [7981; 921]); (8094, [7982; 921]); (8095, [7983; 921]);
   (8096, [8040; 921]); (8097, [8041; 921]); (8098, [8042; 921]); (8099,
   [8043; 921]); (8100, [8044; 921]); (8101, [8045; 921]); (8102, [8046; 921]);
   (8103, [8047; 921]); (8104, [8040; 921]); (8105, [8041; 921]); (8106,
   [8042; 921]); (8107, [8043; 921]); (8108, [8044; 921]); (8109, [8045; 921]);
   (8110, [8046; 921]); (8111, [8047; 921]); (8112, [8120]); (8113, [8121]);
   (8114, [8122; 921]); (8115, [913; 921]); (8116, [902; 921]); (8118,
   [913; 834]); (8119, [913; 834; 921]); (8124, [913; 921]); (8126, [921]);
   (8130, [8138; 921]); (8131, [919; 921]); (8132, [905; 921]); (8134,
   [919; 834]); (8135, [919; 834; 921]); (8140, [919; 921]); (8144, [8152]);
   (8145, [8153]); (8146, [921; 776; 768]); (8147, [921; 776; 769]); (8150,
   [921; 834]); (8151, [921; 776; 834]); (8160, [8168]); (8161, [8169]); (8162,
   [933; 776; 768]); (8163, [933; 776; 769]); (8164, [929; 787]); (8165, [8172]);
   (8166, [933; 834]); (8167, [933; 776; 834]); (8178, [8186; 921]); (8179,
   [937; 921]); (8180, [911; 921]); (8182, [937; 834]); (8183, [937; 834; 921]);
   (8188, [937; 921]); (8526, [8498]); (8560, [8544]); (8561, [8545]); (8562,
   [8546]); (8563, [8547]); (8564, [8548]); (8565, [8549]); (8566, [8550]);
   (8567, [8551]); (8568, [8552]); (8569, [8553]); (8570, [8554]); (8571,
   [8555]); (8572, [8556]); (8573, [8557]); (8574, [8558]); (8575, [8559]);
   (8580, [8579]); (9424, [9398]); (9425, [9399]); (9426, [9400]); (9427,
   [9401]); (9428, [9402]); (9429, [9403]); (9430, [9404]); (9431, [9405]);
   (9432, [9406]); (9433, [9407]); (9434, [9408]); (9435, [9409]); (9436,
   [9410]); (9437, [9411]); (9438, [9412]); (9439, [9413]); (9440, [9414]);
   (9441, [9415]); (9442, [9416]); (9443, [9417]); (9444, [9418]); (9445,
   [9419]); (9446, [9420]); (9447, [9421]); (9448, [9422]); (9449, [9423]);
   (11312, [11264]); (11313, [11265]); (11314, [11266]); (11315, [11267]);
   (11316, [11268]); (11317, [11269]); (11318, [11270]); (11319, [11271]);
   (11320, [11272]); (11321, [11273]); (11322, [11274]); (11323, [11275]);
   (11324, [11276]); (11325, [11277]); (11326, [11278]); (11327, [11279]);
   (11328, [11280]); (11329, [11281]); (11330, [11282]); (11331, [11283]);
   (11332, [11284]); (11333, [11285]); (11334, [11286]); (11335, [11287]);
   (11336, [11288]); (11337, [11289]); (11338, [11290]); (11339, [11291]);
   (11340, [11292]); (11341, [11293]); (11342, [11294]); (11343, [11295]);
   (11344, [11296]); (11345, [11297]); (11346, [11298]); (11347, [11299]);
   (11348, [11300]); (11349, [11301]); (11350, [11302]); (11351, [11303]);
   (11352, [11304]); (11353, [11305]); (11354, [11306]); (11355, [11307]);
   (11356, [11308]); (11357, [11309]); (11358, [11310]); (11359, [11311]);
   (11361, [11360]); (11365, [570]); (11366, [574]); (11368, [11367]);
   (11370, [11369]); (11372, [11371]); (11379, [11378]); (11382, [11381]);
   (11393, [11392]); (11395, [11394]); (11397, [11396]); (11399, [11398]);
   (11401, [11400]); (11403, [11402]); (11405, [11404]); (11407, [11406]);
   (11409, [11408]); (11411, [11410]); (11413, [11412]); (11415, [11414]);
   (11417, [11416]); (11419, [11418]); (11421, [11420]); (11423, [11422]);
   (11425, [11424]); (11427, [11426]); (11429, [11428]); (11431, [11430]);
   (11433, [11432]); (11435, [11434]); (11437, [11436]); (11439, [11438]);
   (11441, [11440]); (11443, [11442]); (11445, [11444]); (11447, [11446]);
   (11449, [11448]); (11451, [11450]); (11453, [11452]); (11455, [11454]);
   (11457, [11456]); (11459, [11458]); (11461, [11460]); (11463, [11462]);
   (11465, [11464]); (11467, [11466]); (11469, [11468]); (11471, [11470]);
   (11473, [11472]); (11475, [11474]); (11477, [11476]); (11479, [11478]);
   (11481, [11480]); (11483, [11482]); (11485, [11484]); (11487, [11486]);
   (11489, [11488]); (11491, [11490]); (11500, [11499]); (11502, [11501]);
   (11507, [11506]); (11520, [4256]); (11521, [4257]); (11522, [4258]);
   (11523, [4259]); (11524, [4260]); (11525, [4261]); (11526, [4262]);
   (11527, [4263]); (11528, [4264]); (11529, [4265]); (11530, [4266]);
   (11531, [4267]); (11532, [4268]); (11533, [4269]); (11534, [4270]);
   (11535, [4271]); (11536, [4272]); (11537, [4273]); (11538, [4274]);
   (11539, [4275]); (11540, [4276]); (11541, [4277]); (11542, [4278]);
   (11543, [4279]); (11544, [4280]); (11545, [4281]); (11546, [4282]);
   (11547, [4283]); (11548, [4284]); (11549, [4285]); (11550, [4286]);
   (11551, [4287]); (11552, [4288]); (11553, [4289]); (11554, [4290]);
   (11555, [4291]); (11556, [4292]); (11557, [4293]); (11559, [4295]);
   (11565, [4301]); (42561, [42560]); (42563, [42562]); (42565, [42564]);
   (42567, [42566]); (42569, [42568]); (42571, [42570]); (42573, [42572]);
   (42575, [42574]); (42577, [42576]); (42579, [42578]); (42581, [42580]);
   (42583, [42582]); (42585, [42584]); (42587, [42586]); (42589, [42588]);
   (42591, [42590]); (42593, [42592]); (42595, [42594]); (42597, [42596]);
   (42599, [42598]); (42601, [42600]); (42603, [42602]); (42605, [42604]);
   (42625, [42624]); (42627, [42626]); (42629, [42628]); (42631, [42630]);
   (42633, [42632]); (42635, [42634]); (42637, [42636]); (42639, [42638]);
   (42641, [42640]); (42643, [42642]); (42645, [42644]); (42647, [42646]);
   (42649, [42648]); (42651, [42650]); (42787, [42786]); (42789, [42788]);
   (42791, [42790]); (42793, [42792]); (42795, [42794]); (42797, [42796]);
   (42799, [42798]); (42803, [42802]); (42805, [42804]); (42807, [42806]);
   (42809, [42808]); (42811, [42810]); (42813, [42812]); (42815, [42814]);
   (42817, [42816]); (42819, [42818]); (42821, [42820]); (42823, [42822]);
   (42825, [42824]); (42827, [42826]); (42829, [42828]); (42831, [42830]);
   (42833, [42832]); (42835, [42834]); (42837, [42836]); (42839, [42838]);
   (42841, [42840]); (42843, [42842]); (42845, [42844]); (42847, [42846]);
   (42849, [42848]); (42851, [42850]); (42853, [42852]); (42855, [42854]);
   (42857, [42856]); (42859, [42858]); (42861, [42860]); (42863, [42862]);
   (42874, [42873]); (42876, [42875]); (42879, [42878]); (42881, [42880]);
   (42883, [42882]); (42885, [42884]); (42887, [42886]); (42892, [42891]);
   (42897, [42896]); (42899, [42898]); (42900, [42948]); (42903, [42902]);
   (42905, [42904]); (42907, [42906]); (42909, [42908]); (42911, [42910]);
   (42913, [42912]); (42915, [42914]); (42917, [42916]); (42919, [42918]);
   (42921, [42920]); (42933, [42932]); (42935, [42934]); (42937, [42936]);
   (42939, [42938]); (42941, [42940]); (42943, [42942]); (42945, [42944]);
   (42947, [42946]); (42952, [42951]); (42954, [42953]); (42961, [42960]);
   (42967, [42966]); (42969, [42968]); (42998, [42997]); (43859, [42931]);
   (43888, [5024]); (43889, [5025]); (43890, [5026]); (43891, [5027]);
   (43892, [5028]); (43893, [5029]); (43894, [5030]); (43895, [5031]);
   (43896, [5032]); (43897, [5033]); (43898, [5034]); (43899, [5035]);
   (43900, [5036]); (43901, [5037]); (43902, [5038]); (43903, [5039]);
   (43904, [5040]); (43905, [5041]); (43906, [5042]); (43907, [5043]);
   (43908, [5044]); (43909, [5045]); (43910, [5046]); (43911, [5047]);
   (43912, [5048]); (43913, [5049]); (43914, [5050]); (43915, [5051]);
   (43916, [5052]); (43917, [5053]); (43918, [5054]); (43919, [5055]);
   (43920, [5056]); (43921, [5057]); (43922, [5058]); (43923, [5059]);
   (43924, [5060]); (43925, [5061]); (43926, [5062]); (43927, [5063]);
   (43928, [5064]); (43929, [5065]); (43930, [5066]); (43931, [5067]);
   (43932, [5068]); (43933, [5069]); (43934, [5070]); (43935, [5071]);
   (43936, [5072]); (43937, [5073]); (43938, [5074]); (43939, [5075]);
   (43940, [5076]); (43941, [5077]); (43942, [5078]); (43943, [5079]);
   (43944, [5080]); (43945, [5081]); (43946, [5082]); (43947, [5083]);
   (43948, [5084]); (43949, [5085]); (43950, [5086]); (43951, [5087]);
   (43952, [5088]); (43953, [5089]); (43954, [5090]); (43955, [5091]);
   (43956, [5092]); (43957, [5093]); (43958, [5094]); (43959, [5095]);
   (43960, [5096]); (43961, [5097]); (43962, [5098]); (43963, [5099]);
   (43964, [5100]); (43965, [5101]); (43966, [5102]); (43967, [5103]);
   (64256, [70; 70]); (64257, [70; 73]); (64258, [70; 76]); (64259,
   [70; 70; 73]); (64260, [70; 70; 76]); (64261, [83; 84]); (64262, [83; 84]);
   (64275, [1348; 1350]); (64276, [1348; 1333]); (64277, [1348; 1339]); (64278,
   [1358; 1350]); (64279, [1348; 1341]); (65345, [65313]); (65346, [65314]);
   (65347, [65315]); (65348, [65316]); (65349, [65317]); (65350, [65318]);
   (65351, [65319]); (65352, [65320]); (65353, [65321]); (65354, [65322]);
   (65355, [65323]); (65356, [65324]); (65357, [65325]); (65358, [65326]);
   (65359, [65327]); (65360, [65328]); (65361, [65329]); (65362, [65330]);
   (65363, [65331]); (65364, [65332]); (65365, [65333]); (65366, [65334]);
   (65367, [65335]); (65368, [65336]); (65369, [65337]); (65370, [65338]);
   (66600, [66560]); (66601, [66561]); (66602, [66562]); (66603, [66563]);
   (66604, [66564]); (66605, [66565]); (66606, [66566]); (66607, [66567]);
   (66608, [66568]); (66609, [66569]); (66610, [66570]); (66611, [66571]);
   (66612, [66572]); (66613, [66573]); (66614, [66574]); (66615, [66575]);
   (66616, [66576]); (66617, [66577]); (66618, [66578]); (66619, [66579]);
   (66620, [66580]); (66621, [66581]); (66622, [66582]); (66623, [66583]);
   (66624, [66584]); (66625, [66585]); (66626, [66586]); (66627, [66587]);
   (66628, [66588]); (66629, [66589]); (66630, [66590]); (66631, [66591]);
   (66632, [66592]); (66633, [66593]); (66634, [66594]); (66635, [66595]);
   (66636, [66596]); (66637, [66597]); (66638, [66598]); (66639, [66599]);
   (66776, [66736]); (66777, [66737]); (66778, [66738]); (66779, [66739]);
   (66780, [66740]); (66781, [66741]); (66782, [66742]); (66783, [66743]);
   (66784, [66744]); (66785, [66745]); (66786, [66746]); (66787, [66747]);
   (66788, [66748]); (66789, [66749]); (66790, [66750]); (66791, [66751]);
   (66792, [66752]); (66793, [66753]); (66794, [66754]); (66795, [66755]);
   (66796, [66756]); (66797, [66757]); (66798, [66758]); (66799, [66759]);
   (66800, [66760]); (66801, [66761]); (66802, [66762]); (66803, [66763]);
   (66804, [66764]); (66805, [66765]); (66806, [66766]); (66807, [66767]);
   (66808, [66768]); (66809, [66769]); (66810, [66770]); (66811, [66771]);
   (66967, [66928]); (66968, [66929]); (66969, [66930]); (66970, [66931]);
   (66971, [66932]); (66972, [66933]); (66973, [66934]); (66974, [66935]);
   (66975, [66936]); (66976, [66937]); (66977, [66938]); (66979, [66940]);
   (66980, [66941]); (66981, [66942]); (66982, [66943]); (66983, [66944]);
   (66984, [66945]); (66985, [66946]); (66986, [66947]); (66987, [66948]);
   (66988, [66949]); (66989, [66950]); (66990, [66951]); (66991, [66952]);
   (66992, [66953]); (66993, [66954]); (66995, [66956]); (66996, [66957]);
   (66997, [66958]); (66998, [66959]); (66999, [66960]); (67000, [66961]);
   (67001, [66962]); (67003, [66964]); (67004, [66965]); (68800, [68736]);
   (68801, [68737]); (68802, [68738]); (68803, [68739]); (68804, [68740]);
   (68805, [68741]); (68806, [68742]); (68807, [68743]); (68808, [68744]);
   (68809, [68745]); (68810, [68746]); (68811, [68747]); (68812, [68748]);
   (68813, [68749]); (68814, [68750]); (68815, [68751]); (68816, [68752]);
   (68817, [68753]); (68818, [68754]); (68819, [68755]); (68820, [68756]);
   (68821, [68757]); (68822, [68758]); (68823, [68759]); (68824, [68760]);
   (68825, [68761]); (68826, [68762]); (68827, [68763]); (68828, [68764]);
   (68829, [68765]); (68830, [68766]); (68831, [68767]); (68832, [68768]);
   (68833, [68769]); (68834, [68770]); (68835, [68771]); (68836, [68772]);
   (68837, [68773]); (68838, [68774]); (68839, [68775]); (68840, [68776]);
   (68841, [68777]); (68842, [68778]); (68843, [68779]); (68844, [68780]);
   (68845, [68781]); (68846, [68782]); (68847, [68783]); (68848, [68784]);
   (68849, [68785]); (68850, [68786]); (71872, [71840]); (71873, [71841]);
   (71874, [71842]); (71875, [71843]); (71876, [71844]); (71877, [71845]);
   (71878, [71846]); (71879, [71847]); (71880, [71848]); (71881, [71849]);
   (71882, [71850]); (71883, [71851]); (71884, [71852]); (71885, [71853]);
   (71886, [71854]); (71887, [71855]); (71888, [71856]); (71889, [71857]);
   (71890, [71858]); (71891, [71859]); (71892, [71860]); (71893, [71861]);
   (71894, [71862]); (71895, [71863]); (71896, [71864]); (71897, [71865]);
   (71898, [71866]); (71899, [71867]); (71900, [71868]); (71901, [71869]);
   (71902, [71870]); (71903, [71871]); (93792, [93760]); (93793, [93761]);
   (93794, [93762]); (93795, [93763]); (93796, [93764]); (93797, [93765]);
   (93798, [93766]); (93799, [93767]); (93800, [93768]); (93801, [93769]);
   (93802, [93770]); (93803, [93771]); (93804, [93772]); (93805, [93773]);
   (93806, [93774]); (93807, [93775]); (93808, [93776]); (93809, [93777]);
   (93810, [93778]); (93811, [93779]); (93812, [93780]); (93813, [93781]);
   (93814, [93782]); (93815, [93783]); (93816, [93784]); (93817, [93785]);
   (93818, [93786]); (93819, [93787]); (93820, [93788]); (93821, [93789]);
   (93822, [93790]); (93823, [93791]); (125218, [125184]); (125219,
   [125185]); (125220, [125186]); (125221, [125187]); (125222, [125188]);
   (125223, [125189]); (125224, [125190]); (125225, [125191]); (125226,
   [125192]); (125227, [125193]); (125228, [125194]); (125229, [125195]);
   (125230, [125196]); (125231, [125197]); (125232, [125198]); (125233,
   [125199]); (125234, [125200]); (125235, [125201]); (125236, [125202]);
   (125237, [125203]); (125238, [125204]); (125239, [125205]); (125240,
   [125206]); (125241, [125207]); (125242, [125208]); (125243, [125209]);
   (125244, [125210]); (125245, [125211]); (125246, [125212]); (125247,
   [125213]); (125248, [125214]); (125249, [125215]); (125250, [125216]);
   (125251, [125217]) ].

Local Close Scope N_scope.

(** *** Character classes *)

(** [lo <= c <= hi], a range [lo-hi] of a character class. *)
Definition between (lo hi c : char) : bool := (lo <=? c)%N && (c <=? hi)%N.

Definition is_char (a c : char) : bool := N.eqb a c.

Definition in_ranges (t : list (N * N)) (c : char) : bool :=
  existsb (fun r => between (fst r) (snd r) c) t.

(** The zero of the run of digits that [c] belongs to. *)
Definition zero_of (c : char) : option N :=
  find (fun z => between z (z + 9)%N c) DECIMAL_ZEROS.

(** [\d] *)
Definition is_digit (c : char) : bool :=
  match zero_of c with Some _ => true | None => false end.
(** [[0-9]] *)
Definition is_09 (c : char) : bool := between (ch "0") (ch "9") c.
(** [[A-Z]] *)
Definition is_AZ (c : char) : bool := between (ch "A") (ch "Z") c.
(** [\s] *)
Definition is_space (c : char) : bool := in_ranges SPACES c.
(** [\w] *)
Definition is_word (c : char) : bool := in_ranges WORDS c.

Fixpoint lookup {V} (t : list (N * V)) (c : N) : option V :=
  match t with
  | [] => None
  | (k, v) :: t' => if N.eqb k c then Some v else lookup t' c
  end.

(** [str.upper] on one character (which can give up to three), and on a
    string. *)
Definition upper_char (c : char) : str :=
  match lookup UPPER c with Some u => u | None => [c] end.
Definition upper (s : str) : str := flat_map upper_char s.

(** ** Exceptions *)

Inductive exn := IndexError | ValueError | KeyError.

Definition exn_eqb (a b : exn) : bool :=
  match a, b with
  | IndexError, IndexError | ValueError, ValueError | KeyError, KeyError => true
  | _, _ => false
  end.

Inductive result (A : Type) : Type :=
| Return (a : A)
| Raise (e : exn).
Arguments Return {A} a.
Arguments Raise {A} e.

Definition rbind {A B} (m : result A) (k : A -> result B) : result B :=
  match m with
  | Return a => k a
  | Raise e => Raise e
  end.

Declare Scope result_scope.
Delimit Scope result_scope with result.
Notation "x <- m ;; k" := (rbind m (fun x => k))
  (at level 61, m at next level, right associativity) : result_scope.

(** [try: body  except (handled...): handler]; an exception that is not
    listed propagates. *)
Definition try_except {A} (body : result A) (handled : list exn)
    (handler : result A) : result A :=
  match body with
  | Return a => Return a
  | Raise e => if existsb (exn_eqb e) handled then handler else Raise e
  end.

(** ** Built-in operations on [str] and [int] *)

Definition len (s : str) : Z := Z.of_nat (length s).

(** [s[i]]: a negative index counts from the end; out of range raises
    [IndexError]. *)
Definition index (s : str) (i : Z) : result char :=
  let j := if i <? 0 then i + len s else i in
  if (j <? 0) || (len s <=? j) then Raise IndexError
  else match nth_error s (Z.to_nat j) with
       | Some c => Return c
       | None => Raise IndexError
       end.

(** A slice bound: negative counts from the end, then clamped to
    [0..len]. *)
Definition clamp (s : str) (i : Z) : nat :=
  let j := if i <? 0 then i + len s else i in
  Z.to_nat (Z.min (Z.max j 0) (len s)).

(** [s[lo:hi]]; slicing never raises. *)
Definition slice (s : str) (lo hi : Z) : str :=
  skipn (clamp s lo) (firstn (clamp s hi) s).

(** The value of a decimal digit: its distance from the zero of its
    run. *)
Definition digit_value (c : char) : Z :=
  match zero_of c with Some z => Z.of_N (c - z) | None => 0 end.

Fixpoint int_digits (acc : Z) (s : str) : result Z :=
  match s with
  | [] => Return acc
  | c :: s' =>
      if is_digit c then int_digits (acc * 10 + digit_value c) s'
      else Raise ValueError
  end.

(** [int(s)] on a string of decimal digits; the empty string and any
    other character raise [ValueError].  (The signed, padded and
    underscored literals that [int] also accepts are not modelled: the
    callers pass only what [\d{n}] has matched.) *)
Definition int (s : str) : result Z :=
  match s with
  | [] => Raise ValueError
  | _ => int_digits 0 s
  end.

(** A [dict] literal with [str] keys of one character; a missing key
    raises [KeyError]. *)
Fixpoint getitem {V} (d : list (char * V)) (k : char) : result V :=
  match d with
  | [] => Raise KeyError
  | (k', v) :: d' => if N.eqb k' k then Return v else getitem d' k
  end.

(** ** Regular expressions

    The patterns of the program are sequences of anchors and character
    classes; [\d{n}] is [n] copies of [\d]. *)

Inductive atom :=
| Bol                          (* ^  *)
| Eol                          (* $  *)
| WordB                        (* \b *)
| Cls (p : char -> bool).     (* one character of a class *)

Definition regex := list atom.

Definition times (n : nat) (a : atom) : regex := repeat a n.

Definition word_opt (c : option char) : bool :=
  match c with Some x => is_word x | None => false end.

(** Match [re] at the current position: [prev] is the character before it
    ([None] at the start of the text), [s] the text from it.  Returns the
    matched text.  [$] matches at the end and before a final line feed. *)
Fixpoint match_here (re : regex) (prev : option char) (s : str) : option str :=
  match re with
  | [] => Some []
  | Bol :: re' =>
      match prev with None => match_here re' prev s | Some _ => None end
  | Eol :: re' =>
      match s with
      | [] => match_here re' prev s
      | [c] => if is_char (ch "010") c then match_here re' prev s else None
      | _ => None
      end
  | WordB :: re' =>
      if xorb (word_opt prev) (word_opt (hd_error s))
      then match_here re' prev s else None
  | Cls p :: re' =>
      match s with
      | c :: s' =>
          if p c then option_map (cons c) (match_here re' (Some c) s')
          else None
      | [] => None
      end
  end.

(** [re.match(re, s)]: a match at the start of [s], or [None]. *)
Definition re_match (re : regex) (s : str) : option str := match_here re None s.

(** [bool(m)] / [not m] of a match object or [None]. *)
Definition truthy {A} (m : option A) : bool :=
  match m with Some _ => true | None => false end.

(** [re.sub(cls, '', s)] for a one-character class: drop its characters. *)
Definition re_sub_empty (p : char -> bool) (s : str) : str :=
  filter (fun c => negb (p c)) s.

Record Match := { start : nat; group : str }.

(** [re.finditer]: leftmost matches, left to right, not overlapping.
    [skip] counts the characters still covered by the last match. *)
Fixpoint finditer_from (re : regex) (prev : option char) (pos skip : nat)
    (s : str) : list Match :=
  match s with
  | [] =>
      match skip, match_here re prev [] with
      | O, Some m => [{| start := pos; group := m |}]
      | _, _ => []
      end
  | c :: s' =>
      match skip with
      | S k => finditer_from re (Some c) (S pos) k s'
      | O =>
          match match_here re prev s with
          | Some m =>
              {| start := pos; group := m |}
              :: finditer_from re (Some c) (S pos) (Nat.pred (length m)) s'
          | None => finditer_from re (Some c) (S pos) 0 s'
          end
      end
  end.

Definition finditer (re : regex) (s : str) : list Match :=
  finditer_from re None 0 0 s.

(** ** class DocumentValidator *)

Definition LETRAS_VALIDACION : str := "TRWAGMYFPDXBNJZSQVHLCKET"%string.

(** [[XYZ]] *)
Definition is_XYZ (c : char) : bool :=
  is_char (ch "X") c || is_char (ch "Y") c || is_char (ch "Z") c.
(** [[A-HJNP-SUVW]] *)
Definition is_nif_letter (c : char) : bool :=
  between (ch "A") (ch "H") c || is_char (ch "J") c || is_char (ch "N") c || between (ch "P") (ch "S") c
  || is_char (ch "U") c || is_char (ch "V") c || is_char (ch "W") c.
(** [[0-9A-Z]] *)
Definition is_09AZ (c : char) : bool := is_09 c || is_AZ c.
(** [[\s.-]] *)
Definition is_sep (c : char) : bool :=
  is_space c || is_char (ch ".") c || is_char (ch "-") c.

(** [\b\d{8}[A-Z]\b] *)
Definition PATRON_DNI : regex :=
  [WordB] ++ times 8 (Cls is_digit) ++ [Cls is_AZ; WordB].
(** [\b[XYZ]\d{7}[A-Z]\b] *)
Definition PATRON_NIE : regex :=
  [WordB; Cls is_XYZ] ++ times 7 (Cls is_digit) ++ [Cls is_AZ; WordB].
(** [\b[A-HJNP-SUVW]\d{7}[0-9A-Z]\b] *)
Definition PATRON_NIF : regex :=
  [WordB; Cls is_nif_letter] ++ times 7 (Cls is_digit) ++ [Cls is_09AZ; WordB].

Definition clean_document (doc : str) : str :=
  upper (re_sub_empty is_sep doc).

Local Open Scope result_scope.

Definition validate_dni_try (dni : str) : result bool :=
  if negb (truthy (re_match ([Bol] ++ times 8 (Cls is_digit) ++ [Cls is_AZ; Eol]) dni))
  then Return false
  else
    let numbers := slice dni 0 (-1) in
    letter <- index dni (-1) ;;
    n <- int numbers ;;
    l <- index LETRAS_VALIDACION (n mod 23) ;;
    Return (N.eqb letter l).

Definition validate_dni (dni : str) : result bool :=
  let dni := clean_document dni in
  try_except (validate_dni_try dni) [IndexError; ValueError] (Return false).

Definition nie_prefix : list (char * str) :=
  [(ch "X", lit "0"); (ch "Y", lit "1"); (ch "Z", lit "2")].

Definition validate_nie_try (nie : str) : result bool :=
  if negb (truthy (re_match ([Bol; Cls is_XYZ] ++ times 7 (Cls is_digit) ++ [Cls is_AZ; Eol]) nie))
  then Return false
  else
    let prefix := nie_prefix in
    c0 <- index nie 0 ;;
    p <- getitem prefix c0 ;;
    let numbers := (p ++ slice nie 1 (-1))%list in
    last <- index nie (-1) ;;
    n <- int numbers ;;
    l <- index LETRAS_VALIDACION (n mod 23) ;;
    Return (N.eqb last l).

Definition validate_nie (nie : str) : result bool :=
  let nie := clean_document nie in
  try_except (validate_nie_try nie) [IndexError; ValueError; KeyError]
    (Return false).

Definition validate_nif (nif : str) : result bool :=
  let nif := clean_document nif in
  Return (truthy (re_match
    ([Bol; Cls is_nif_letter] ++ times 7 (Cls is_digit) ++ [Cls is_09AZ; Eol]) nif)).

Local Close Scope result_scope.

(** *** Statistics and results *)

(** [self.stats]: a dict with five fixed keys. *)
Record Stats := {
  archivos_procesados : Z;
  dni_validos : Z;
  nie_validos : Z;
  nif_validos : Z;
  docs_invalidos : Z
}.

(** [__init__] *)
Definition init_stats : Stats :=
  {| archivos_procesados := 0; dni_validos := 0; nie_validos := 0;
     nif_validos := 0; docs_invalidos := 0 |}.

(** One entry of [resultados]. *)
Record Resultado := {
  tipo : str;
  documento : str;
  documento_limpio : str;
  valido : bool
}.

(** What [process_pdf] mutates: [self.stats] and the list [resultados]. *)
Record Env := { stats : Stats; resultados : list Resultado }.

Definition M (A : Type) : Type := Env -> result A * Env.

Definition mret {A} (a : A) : M A := fun e => (Return a, e).
Definition mbind {A B} (m : M A) (k : A -> M B) : M B :=
  fun e => match m e with
           | (Return a, e') => k a e'
           | (Raise x, e') => (Raise x, e')
           end.
Definition lift {A} (r : result A) : M A := fun e => (r, e).
Definition update_stats (f : Stats -> Stats) : M unit :=
  fun e => (Return tt, {| stats := f (stats e); resultados := resultados e |}).
(** [resultados.append(r)] *)
Definition append (r : Resultado) : M unit :=
  fun e => (Return tt, {| stats := stats e; resultados := resultados e ++ [r] |}).
Definition when (b : bool) (m : M unit) : M unit := if b then m else mret tt.

Declare Scope M_scope.
Delimit Scope M_scope with M.
Notation "x <- m ;; k" := (mbind m (fun x => k))
  (at level 61, m at next level, right associativity) : M_scope.
Notation "m ;; k" := (mbind m (fun _ => k))
  (at level 61, right associativity) : M_scope.

(** [for x in l: body] *)
Fixpoint for_each {X} (l : list X) (body : X -> M unit) : M unit :=
  match l with
  | [] => mret tt
  | x :: l' => mbind (body x) (fun _ => for_each l' body)
  end.

(** [self.stats[k] += 1], one definition per key. *)
Definition incr_archivos (s : Stats) : Stats :=
  {| archivos_procesados := archivos_procesados s + 1;
     dni_validos := dni_validos s; nie_validos := nie_validos s;
     nif_validos := nif_validos s; docs_invalidos := docs_invalidos s |}.
Definition incr_dni (s : Stats) : Stats :=
  {| archivos_procesados := archivos_procesados s;
     dni_validos := dni_validos s + 1; nie_validos := nie_validos s;
     nif_validos := nif_validos s; docs_invalidos := docs_invalidos s |}.
Definition incr_nie (s : Stats) : Stats :=
  {| archivos_procesados := archivos_procesados s;
     dni_validos := dni_validos s; nie_validos := nie_validos s + 1;
     nif_validos := nif_validos s; docs_invalidos := docs_invalidos s |}.
Definition incr_nif (s : Stats) : Stats :=
  {| archivos_procesados := archivos_procesados s;
     dni_validos := dni_validos s; nie_validos := nie_validos s;
     nif_validos := nif_validos s + 1; docs_invalidos := docs_invalidos s |}.
Definition incr_invalidos (s : Stats) : Stats :=
  {| archivos_procesados := archivos_procesados s;
     dni_validos := dni_validos s; nie_validos := nie_validos s;
     nif_validos := nif_validos s; docs_invalidos := docs_invalidos s + 1 |}.

Fixpoint str_eqb (a b : str) : bool :=
  match a, b with
  | [], [] => true
  | x :: a', y :: b' => N.eqb x y && str_eqb a' b'
  | _, _ => false
  end.

Local Open Scope M_scope.

(** The body of [for match in coincidencias]. *)
Definition process_match (tipo : str) (m : Match) : M unit :=
  let doc := group m in
  let doc_limpio := clean_document doc in
  es_valido <-
    (if str_eqb tipo "DNI"%string then
       v <- lift (validate_dni doc_limpio) ;;
       when v (update_stats incr_dni) ;;
       mret v
     else if str_eqb tipo "NIE"%string then
       v <- lift (validate_nie doc_limpio) ;;
       when v (update_stats incr_nie) ;;
       mret v
     else if str_eqb tipo "NIF"%string then
       v <- lift (validate_nif doc_limpio) ;;
       when v (update_stats incr_nif) ;;
       mret v
     else mret false) ;;
  when (negb es_valido) (update_stats incr_invalidos) ;;
  append {| tipo := tipo; documento := doc;
            documento_limpio := doc_limpio; valido := es_valido |}.

Definition PATRONES : list (regex * str) :=
  [(PATRON_DNI, lit "DNI"); (PATRON_NIE, lit "NIE"); (PATRON_NIF, lit "NIF")].

(** The [try] block of [process_pdf] from the pattern loop on. *)
Definition buscar_documentos (texto : str) : M (list Resultado) :=
  for_each PATRONES (fun pt =>
    let coincidencias := finditer (fst pt) texto in
    for_each coincidencias (process_match (snd pt))) ;;
  update_stats incr_archivos ;;
  (fun e => (Return (resultados e), e)).

Local Close Scope M_scope.

(** [process_pdf] on the extracted text: [resultados] starts empty; the
    [except Exception] clause returns the list as it is at that point.
    The result is the returned list and the statistics afterwards. *)
Definition process_pdf (self : Stats) (texto : str) : list Resultado * Stats :=
  let e0 := {| stats := self; resultados := [] |} in
  match buscar_documentos texto e0 with
  | (Return rs, e) => (rs, stats e)
  | (Raise _, e) => (resultados e, stats e)
  end.

(** * The rest of the program *)

(** ** [process_pdf] with its collaborators

    The download and the two PDF readers are outside the program; what
    they deliver is given by a [World]. *)

(** [pagina.extract_text()] on one page: text, [None], or an exception. *)
Inductive page := Text (s : str) | NoText | PageError.

(** What a reader finds in a file; [None] when opening the file raises. *)
Definition reader := option (list page).

(** [for pagina in pages: texto += pagina.extract_text() or ''], from the
    [texto] so far; [None] when a page raises. *)
Fixpoint extract_pages (pages : list page) (texto : str) : option str :=
  match pages with
  | [] => Some texto
  | Text s :: ps => extract_pages ps (texto ++ s)
  | NoText :: ps => extract_pages ps (texto ++ [])
  | PageError :: _ => None
  end.

(** One [with ...:] block: [texto] starts empty. *)
Definition read_with (r : reader) : option str :=
  match r with
  | Some pages => extract_pages pages []
  | None => None
  end.

Record Pdf := { pdfplumber : reader; PyPDF2 : reader }.

Record World := {
  (* [download_pdf(url, temp)]: the file saved, [None] when it returns
     [False] *)
  download : str -> option Pdf;
  (* the file at a local path, as the readers see it *)
  file : str -> Pdf;
  (* [Path(p).is_file()] *)
  is_file : str -> bool;
  (* [Path(p).suffix.lower()]: the extension of the path, lower-cased *)
  suffix_lower : str -> str;
  (* [os.path.expanduser], [os.path.abspath] *)
  expanduser : str -> str;
  abspath : str -> str
}.

(** [process_pdf(source, is_url)]: the list returned and the statistics
    afterwards.  When the download fails, or both readers raise, the
    list is returned as it is, empty. *)
Definition process_pdf_source (w : World) (self : Stats) (source : str)
    (is_url : bool) : list Resultado * Stats :=
  let resultados : list Resultado := [] in
  match (if is_url then download w source else Some (file w source)) with
  | None => (resultados, self)
  | Some pdf =>
      match read_with (pdfplumber pdf) with
      | Some texto => process_pdf self texto
      | None =>
          match read_with (PyPDF2 pdf) with
          | Some texto => process_pdf self texto
          | None => (resultados, self)
          end
      end
  end.

(** ** [analizar_multiples_archivos], from [rutas_archivos] on *)

(** [bool(l)] of a list. *)
Definition nonempty {A} (l : list A) : bool :=
  match l with [] => false | _ => true end.

(** One turn of [for ruta_archivo in rutas_archivos]. *)
Definition analizar_ruta (w : World) (acc : list Resultado * Stats)
    (ruta_archivo : str) : list Resultado * Stats :=
  let '(resultados_totales, self) := acc in
  if negb (is_file w ruta_archivo) then (resultados_totales, self)
  else
    let ext := suffix_lower w ruta_archivo in
    if str_eqb ext ".pdf"%string then
      let '(resultados, self') := process_pdf_source w self ruta_archivo false in
      if nonempty resultados
      then ((resultados_totales ++ resultados)%list, self')
      else (resultados_totales, self')
    else (resultados_totales, self).

Definition analizar_rutas (w : World) (self : Stats) (rutas_archivos : list str)
    : list Resultado * Stats :=
  fold_left (analizar_ruta w) rutas_archivos ([], self).

(** ** [sanitize_path] *)

Fixpoint lstrip (p : char -> bool) (s : str) : str :=
  match s with
  | c :: s' => if p c then lstrip p s' else s
  | [] => []
  end.
Definition rstrip (p : char -> bool) (s : str) : str := rev (lstrip p (rev s)).
(** [s.strip()] and [s.strip(chars)] *)
Definition strip_by (p : char -> bool) (s : str) : str := rstrip p (lstrip p s).
Definition strip (s : str) : str := strip_by is_space s.
Definition strip_chars (chars : str) (s : str) : str :=
  strip_by (fun c => existsb (N.eqb c) chars) s.

(** The characters that [[^\w\s/\\\.\_\-\:\~\(\)áéíóúÁÉÍÓÚ]] leaves out of
    the class, so that [re.sub] keeps them; the accented vowels by their
    code points. *)
Definition is_path_char (c : char) : bool :=
  is_word c || is_space c
  || existsb (N.eqb c) (lit "/\._-:~()")
  || existsb (N.eqb c) [225; 233; 237; 243; 250; 193; 201; 205; 211; 218]%N.

Definition sanitize_path (w : World) (path : str) : str :=
  let path := strip_chars [ch "'"; 34%N] (strip path) in
  let path := re_sub_empty (fun c => negb (is_path_char c)) path in
  let path := expanduser w path in
  let path := abspath w path in
  path.

(** ** [save_results]: the rows handed to the CSV writer *)

(** A value in a row: a string, or a number that the writer formats. *)
Inductive cell := CStr (s : str) | CInt (n : Z).

Fixpoint dict_get {V} (d : list (str * V)) (k : str) (default : V) : V :=
  match d with
  | [] => default
  | (k', v) :: d' => if str_eqb k' k then v else dict_get d' k default
  end.

(** [DictWriter._dict_to_list]: a key that is no field raises
    [ValueError]; a field that is no key gives the empty string. *)
Definition dict_to_list (fieldnames : list str) (rowdict : list (str * cell))
    : result (list cell) :=
  if forallb (fun kv => existsb (str_eqb (fst kv)) fieldnames) rowdict
  then Return (map (fun k => dict_get rowdict k (CStr [])) fieldnames)
  else Raise ValueError.

(** [for d in dicts: writer.writerow(d)]: the rows written, or the first
    exception. *)
Fixpoint writerows (fieldnames : list str) (dicts : list (list (str * cell)))
    : result (list (list cell)) :=
  match dicts with
  | [] => Return []
  | d :: ds =>
      rbind (dict_to_list fieldnames d) (fun row =>
      rbind (writerows fieldnames ds) (fun rows => Return (row :: rows)))
  end.

Definition fieldnames : list str :=
  [lit "Tipo"; lit "Documento"; lit "Documento Limpio"; lit "Valido"].

Section Symbols.

(** The check mark and the warning sign (U+2713 and U+26A0 in the
    source); what follows holds whatever the two characters are. *)
Variables CHECK_MARK WARNING_SIGN : char.

(** [f"{simbolo} {valido}"]; the accented i by its code point. *)
Definition valido_cell (v : bool) : str :=
  if v then CHECK_MARK :: lit " S" ++ [237%N]
  else WARNING_SIGN :: lit " No".

Definition resultado_row (r : Resultado) : list (str * cell) :=
  [(lit "Tipo", CStr (tipo r));
   (lit "Documento", CStr (documento r));
   (lit "Documento Limpio", CStr (documento_limpio r));
   (lit "Valido", CStr (valido_cell (valido r)))].

(** [save_results]: the header, one row for each result, and the
    summary; the rows written when nothing raises. *)
Definition save_results (self : Stats) (resultados : list Resultado)
    : result (list (list cell)) :=
  writerows fieldnames
    ([map (fun k => (k, CStr k)) fieldnames]
     ++ map resultado_row resultados
     ++ [ [];
          [(lit "Tipo", CStr (lit "Resumen"))];
          [(lit "Tipo", CStr (lit "Total DNI"));
           (lit "Documento", CInt (dni_validos self))];
          [(lit "Tipo", CStr (lit "Total NIE"));
           (lit "Documento", CInt (nie_validos self))];
          [(lit "Tipo", CStr (lit "Total NIF"));
           (lit "Documento", CInt (nif_validos self))];
          [(lit "Tipo", CStr (lit "Total Documentos"));
           (lit "Documento", CInt (Z.of_nat (length resultados)))] ]).

End Symbols.

(** * Vocabulary of the properties *)

(** A string consists of one character per class, in order. *)
Fixpoint fits (ps : list (char -> bool)) (s : str) : bool :=
  match ps, s with
  | [], [] => true
  | p :: ps', c :: s' => p c && fits ps' s'
  | _, _ => false
  end.

(** The same, followed by one line feed. *)
Fixpoint fits_nl (ps : list (char -> bool)) (s : str) : bool :=
  match ps, s with
  | [], [c] => is_char (ch "010") c
  | p :: ps', c :: s' => p c && fits_nl ps' s'
  | _, _ => false
  end.

Definition DNI_CLASSES : list (char -> bool) := repeat is_digit 8 ++ [is_AZ].
Definition NIE_CLASSES : list (char -> bool) :=
  [is_XYZ] ++ repeat is_digit 7 ++ [is_AZ].
Definition NIF_CLASSES : list (char -> bool) :=
  [is_nif_letter] ++ repeat is_digit 7 ++ [is_09AZ].

(** The number a string of decimal digits denotes. *)
Definition decimal (ds : str) : Z :=
  fold_left (fun acc c => acc * 10 + digit_value c) ds 0.

(** The decimal representation of [n] zero-padded to [w] digits. *)
Definition digit_char (d : Z) : char := (ch "0" + Z.to_N d)%N.
Fixpoint zfill (w : nat) (n : Z) : str :=
  match w with
  | O => []
  | S w' => zfill w' (n / 10) ++ [digit_char (n mod 10)]
  end.

(** The shapes, in the words of the specification. *)
Definition DIGITS : str := "0123456789"%string.
Definition UPPERCASE : str := "ABCDEFGHIJKLMNOPQRSTUVWXYZ"%string.
Definition NIF_LETTERS : str := "ABCDEFGHJNPQRSUVW"%string.

Definition decimal_digits (n : nat) (ds : str) : Prop :=
  length ds = n /\ Forall (fun d => In d DIGITS) ds.

Definition dni_shape (s : str) : Prop :=
  exists ds c, s = ds ++ [c] /\ decimal_digits 8 ds /\ In c UPPERCASE.

Definition nie_shape (s : str) : Prop :=
  exists l ds c,
    s = l :: ds ++ [c]
    /\ In l (lit "XYZ") /\ decimal_digits 7 ds /\ In c UPPERCASE.

Definition nif_shape (s : str) : Prop :=
  exists l ds c,
    s = l :: ds ++ [c]
    /\ In l NIF_LETTERS /\ decimal_digits 7 ds /\ In c (DIGITS ++ UPPERCASE).

(** X to 0, Y to 1, Z to 2. *)
Definition prefix_digit (l : char) : char :=
  if is_char (ch "X") l then ch "0"
  else if is_char (ch "Y") l then ch "1"
  else ch "2".

(** The flag a result carries when a validator has returned. *)
Definition verdict (r : result bool) : bool :=
  match r with Return b => b | Raise _ => false end.

Definition es_valido (tipo doc_limpio : str) : bool :=
  if str_eqb tipo "DNI"%string then verdict (validate_dni doc_limpio)
  else if str_eqb tipo "NIE"%string then verdict (validate_nie doc_limpio)
  else if str_eqb tipo "NIF"%string then verdict (validate_nif doc_limpio)
  else false.

(** The entry of [resultados] that one match gives. *)
Definition resultado_de (tipo : str) (m : Match) : Resultado :=
  {| tipo := tipo; documento := group m;
     documento_limpio := clean_document (group m);
     valido := es_valido tipo (clean_document (group m)) |}.

(** The results of one pass: one entry per match, in the order found. *)
Definition block (tipo : str) (patron : regex) (texto : str) : list Resultado :=
  map (resultado_de tipo) (finditer patron texto).

Definition count (p : Resultado -> bool) (rs : list Resultado) : Z :=
  Z.of_nat (length (filter p rs)).

Definition valid_of (t : str) (r : Resultado) : bool :=
  str_eqb (tipo r) t && valido r.

Definition invalid (r : Resultado) : bool := negb (valido r).

(** The counters after the results [rs] have been counted. *)
Definition tally (s : Stats) (rs : list Resultado) : Stats :=
  {| archivos_procesados := archivos_procesados s;
     dni_validos := dni_validos s + count (valid_of "DNI"%string) rs;
     nie_validos := nie_validos s + count (valid_of "NIE"%string) rs;
     nif_validos := nif_validos s + count (valid_of "NIF"%string) rs;
     docs_invalidos := docs_invalidos s + count invalid rs |}.

(** No counter of [b] is below its value in [a]. *)
Definition stats_le (a b : Stats) : Prop :=
  archivos_procesados a <= archivos_procesados b
  /\ dni_validos a <= dni_validos b
  /\ nie_validos a <= nie_validos b
  /\ nif_validos a <= nif_validos b
  /\ docs_invalidos a <= docs_invalidos b.

(** Matches at strictly ascending offsets. *)
Definition ascending (ms : list Match) : Prop :=
  StronglySorted (fun a b => (start a < start b)%nat) ms.

(** The match is the text found at its offset. *)
Definition occurs_in (texto : str) (m : Match) : Prop :=
  firstn (length (group m)) (skipn (start m) texto) = group m.

(** The character classes a pattern consumes. *)
Fixpoint classes_of (re : regex) : list (char -> bool) :=
  match re with
  | [] => []
  | Cls p :: re' => p :: classes_of re'
  | _ :: re' => classes_of re'
  end.

(** A match that [finditer_from] yields from position [pos] on: it starts
    at or after [pos], is the text at its offset, and fits the classes of
    the pattern. *)
Definition found (re : regex) (pos : nat) (s : str) (m : Match) : Prop :=
  (pos <= start m)%nat
  /\ firstn (length (group m)) (skipn (start m - pos) s) = group m
  /\ fits (classes_of re) (group m) = true.

(** The character before offset [i] of a text, if any. *)
Definition char_before (texto : str) (i : nat) : option char :=
  match i with O => None | S k => nth_error texto k end.

(** The character before offset [k] of [s], where [prev] stands before
    [s]. *)
Definition prev_at (prev : option char) (s : str) (k : nat) : option char :=
  match k with O => prev | S k' => nth_error s k' end.

(** The character that stands last once [m] has been read after [prev]. *)
Fixpoint last_prev (prev : option char) (m : str) : option char :=
  match m with
  | [] => prev
  | c :: m' => last_prev (Some c) m'
  end.

(** The end of [a] is at or before the start of [b], which comes later. *)
Definition apart (a b : Match) : Prop :=
  (start a + length (group a) <= start b)%nat /\ (start a < start b)%nat.

(** The counters of [b] are those of [a] with the results [rs] counted;
    [archivos_procesados] is left aside. *)
Definition counted (a : Stats) (rs : list Resultado) (b : Stats) : Prop :=
  dni_validos b = dni_validos a + count (valid_of (lit "DNI")) rs
  /\ nie_validos b = nie_validos a + count (valid_of (lit "NIE")) rs
  /\ nif_validos b = nif_validos a + count (valid_of (lit "NIF")) rs
  /\ docs_invalidos b = docs_invalidos a + count invalid rs.

(** The rows of a CSV file written by [save_results]. *)
Definition blank : cell := CStr [].
Definition header_row : list cell := map CStr fieldnames.
Definition data_row (CHECK_MARK WARNING_SIGN : char) (r : Resultado) : list cell :=
  [CStr (tipo r); CStr (documento r); CStr (documento_limpio r);
   CStr (valido_cell CHECK_MARK WARNING_SIGN (valido r))].
Definition summary_rows (dni nie nif total : Z) : list (list cell) :=
  [ [blank; blank; blank; blank];
    [CStr (lit "Resumen"); blank; blank; blank];
    [CStr (lit "Total DNI"); CInt dni; blank; blank];
    [CStr (lit "Total NIE"); CInt nie; blank; blank];
    [CStr (lit "Total NIF"); CInt nif; blank; blank];
    [CStr (lit "Total Documentos"); CInt total; blank; blank] ].

(** The text of a page, and the text of a file whose pages all could be
    read: the page texts joined with nothing between them. *)
Definition page_text (p : page) : str :=
  match p with Text s => s | NoText => [] | PageError => [] end.
Definition page_ok (p : page) : bool :=
  match p with PageError => false | _ => true end.
Definition joined_text (r : reader) : option str :=
  match r with
  | Some pages =>
      if forallb page_ok pages then Some (concat (map page_text pages))
      else None
  | None => None
  end.

(** A token has the shape that goes with a type of document. *)
Definition shape_of (t : str) (token : str) : Prop :=
  (t = lit "DNI" /\ dni_shape token)
  \/ (t = lit "NIE" /\ nie_shape token)
  \/ (t = lit "NIF" /\ nif_shape token).


(** A decimal digit of Unicode: one of the ten code points from the zero
    of a run on. *)
Definition unicode_digit (d : char) : Prop :=
  exists z, In z DECIMAL_ZEROS /\ (z <= d <= z + 9)%N.

Definition unicode_digits (n : nat) (ds : str) : Prop :=
  length ds = n /\ Forall unicode_digit ds.

(** The shapes with any decimal digit of Unicode where the pattern has
    [\d]. *)
Definition nie_shape_unicode (s : str) : Prop :=
  exists l ds c,
    s = l :: ds ++ [c]
    /\ In l (lit "XYZ") /\ unicode_digits 7 ds /\ In c UPPERCASE.

Definition nif_shape_unicode (s : str) : Prop :=
  exists l ds c,
    s = l :: ds ++ [c]
    /\ In l NIF_LETTERS /\ unicode_digits 7 ds /\ In c (DIGITS ++ UPPERCASE).

(** Some characters outside ASCII: the no-break space (U+00A0), the
    masculine ordinal indicator (U+00BA), the small sharp s (U+00DF) and
    the small n with tilde (U+00F1) with its capital (U+00D1). *)
Definition NBSP : char := 160%N.
Definition ORDINAL : char := 186%N.
Definition SHARP_S : char := 223%N.
Definition N_TILDE : char := 241%N.
Definition CAPITAL_N_TILDE : char := 209%N.

(** The Arabic-Indic digits 1 to 7 (U+0661 to U+0667), and 8 (U+0668). *)
Definition ARABIC_INDIC_1234567 : str :=
  [1633; 1634; 1635; 1636; 1637; 1638; 1639]%N.
Definition ARABIC_INDIC_8 : char := 1640%N.


(** The code points from [lo] on, [n] of them. *)
Definition enum (lo : N) (n : nat) : list N :=
  map (fun i => (lo + N.of_nat i)%N) (seq 0 n).

(** All decimal digits, and all characters of [[\s.-]]. *)
Definition DIGIT_POINTS : list N := flat_map (fun z => enum z 10) DECIMAL_ZEROS.
Definition SEP_POINTS : list N :=
  flat_map (fun r => enum (fst r) (S (N.to_nat (snd r - fst r)))) SPACES
  ++ [ch "."; ch "-"].


(** The characters [str.upper] leaves alone, and those [clean_document]
    leaves alone. *)
Definition unchanged (c : char) : bool :=
  match lookup UPPER c with None => true | Some _ => false end.

Definition is_stable (c : char) : bool := negb (is_sep c) && unchanged c.

(** * Properties *)

(** ** Characters *)

Lemma between_spec lo hi c : between lo hi c = true <-> (lo <= c <= hi)%N.
Proof. unfold between; rewrite andb_true_iff, !N.leb_le; tauto. Qed.

Lemma enum_In lo n c : (lo <= c < lo + N.of_nat n)%N -> In c (enum lo n).
Proof.
  intros H; unfold enum; apply in_map_iff.
  exists (N.to_nat (c - lo)); split; [lia|].
  apply in_seq; lia.
Qed.

(** Facts about ASCII classes: the classes unfold to bounds. *)
Ltac char_values :=
  repeat match goal with
         | |- context [ch ?a] =>
             let v := eval vm_compute in (ch a) in change (ch a) with v
         | H : context [ch ?a] |- _ =>
             let v := eval vm_compute in (ch a) in change (ch a) with v in H
         end.
Ltac chars_lia :=
  unfold is_09AZ, is_XYZ, is_nif_letter, is_AZ, is_09, is_char, between in *;
  char_values;
  rewrite ?orb_true_iff, ?andb_true_iff, ?orb_false_iff, ?andb_false_iff,
    ?N.leb_le, ?N.eqb_eq, ?N.leb_gt, ?N.eqb_neq in *;
  lia.

Lemma is_XYZ_AZ c : is_XYZ c = true -> is_AZ c = true.
Proof. intros H; chars_lia. Qed.

Lemma is_nif_letter_AZ c : is_nif_letter c = true -> is_AZ c = true.
Proof. intros H; chars_lia. Qed.

Lemma is_09AZ_of_09 c : is_09 c = true -> is_09AZ c = true.
Proof. unfold is_09AZ; now intros ->. Qed.

Lemma is_09AZ_of_AZ c : is_AZ c = true -> is_09AZ c = true.
Proof. unfold is_09AZ; intros ->; apply orb_true_r. Qed.

Lemma is_09AZ_ascii c : is_09AZ c = true -> In c (enum 0 128).
Proof. intros H; apply enum_In; chars_lia. Qed.

(** A fact checked on every ASCII character holds of a class of ASCII
    characters. *)
Lemma ascii_class (p q : char -> bool) :
  (forall c, p c = true -> In c (enum 0 128)) ->
  forallb (fun c => implb (p c) (q c)) (enum 0 128) = true ->
  forall c, p c = true -> q c = true.
Proof.
  intros Hp H c Hc; rewrite forallb_forall in H.
  specialize (H c (Hp c Hc)); now rewrite Hc in H.
Qed.

Lemma zero_of_spec c z :
  zero_of c = Some z -> In z DECIMAL_ZEROS /\ (z <= c <= z + 9)%N.
Proof.
  unfold zero_of; intros H; apply find_some in H as [Hin H].
  now apply between_spec in H.
Qed.

Lemma is_digit_points c : is_digit c = true -> In c DIGIT_POINTS.
Proof.
  unfold is_digit; destruct (zero_of c) as [z|] eqn:E; [intros _|discriminate].
  apply zero_of_spec in E as [Hin Hb].
  unfold DIGIT_POINTS; apply in_flat_map; exists z; split; [assumption|].
  apply enum_In; simpl; lia.
Qed.

(** A fact checked on every decimal digit holds of [\d]. *)
Lemma digit_class (q : char -> bool) :
  forallb q DIGIT_POINTS = true -> forall c, is_digit c = true -> q c = true.
Proof.
  intros H c Hc; rewrite forallb_forall in H; now apply H, is_digit_points.
Qed.

Lemma is_09_digit c : is_09 c = true -> is_digit c = true.
Proof.
  apply (ascii_class is_09 is_digit); [|vm_compute; reflexivity].
  intros x H; apply enum_In; chars_lia.
Qed.

Lemma is_09_value c : is_09 c = true -> digit_value c = Z.of_N (c - ch "0").
Proof.
  intros H.
  assert (E : (digit_value c =? Z.of_N (c - ch "0")) = true);
    [|now apply Z.eqb_eq].
  revert c H.
  apply (ascii_class is_09 (fun c => digit_value c =? Z.of_N (c - ch "0")));
    [|vm_compute; reflexivity].
  intros x H; apply enum_In; chars_lia.
Qed.

Lemma in_ranges_spec t c :
  in_ranges t c = true -> exists r, In r t /\ (fst r <= c <= snd r)%N.
Proof.
  unfold in_ranges; rewrite existsb_exists; intros (r & Hr & H).
  exists r; split; [assumption|now apply between_spec].
Qed.

Lemma is_sep_points c : is_sep c = true -> In c SEP_POINTS.
Proof.
  unfold is_sep, SEP_POINTS; rewrite !orb_true_iff, in_app_iff.
  intros [[H|H]|H].
  - left; apply in_ranges_spec in H as (r & Hr & Hb).
    apply in_flat_map; exists r; split; [assumption|apply enum_In; lia].
  - right; left; now apply N.eqb_eq in H.
  - right; right; left; now apply N.eqb_eq in H.
Qed.

(** A fact checked on every character of [[\s.-]] holds of the class. *)
Lemma sep_class (q : char -> bool) :
  forallb q SEP_POINTS = true -> forall c, is_sep c = true -> q c = true.
Proof.
  intros H c Hc; rewrite forallb_forall in H; now apply H, is_sep_points.
Qed.

Lemma lookup_In {V} (t : list (N * V)) c v : lookup t c = Some v -> In (c, v) t.
Proof.
  induction t as [|[k x] t IH]; simpl; [discriminate|].
  destruct (N.eqb k c) eqn:E; [|auto].
  apply N.eqb_eq in E; intros [= <-]; left; now subst.
Qed.

(** A fact checked on every entry of [UPPER] holds wherever [str.upper]
    changes a character. *)
Lemma upper_entry (q : N * list N -> bool) :
  forallb q UPPER = true ->
  forall c u, lookup UPPER c = Some u -> q (c, u) = true.
Proof.
  intros H c u Hc; rewrite forallb_forall in H; now apply H, lookup_In.
Qed.

Lemma unchanged_upper c : unchanged c = true -> upper_char c = [c].
Proof. unfold unchanged, upper_char; now destruct (lookup UPPER c). Qed.

(** What [str.upper] gives, it leaves alone. *)
Lemma upper_char_fixed c u : In u (upper_char c) -> upper_char u = [u].
Proof.
  unfold upper_char at 1; destruct (lookup UPPER c) as [us|] eqn:E.
  - intros Hu; apply unchanged_upper.
    pose proof (upper_entry (fun kv => forallb unchanged (snd kv))
                  ltac:(vm_compute; reflexivity) c us E) as H.
    cbn [snd] in H; rewrite forallb_forall in H; auto.
  - intros [<-|[]]; unfold upper_char; now rewrite E.
Qed.

Lemma flat_map_fixed (f : char -> str) (l : str) :
  (forall x, In x l -> f x = [x]) -> flat_map f l = l.
Proof.
  induction l as [|x l IH]; intros H; simpl; [reflexivity|].
  rewrite (H x) by (now left); simpl; f_equal; apply IH; intros; apply H.
  now right.
Qed.

Lemma upper_char_idem c : flat_map upper_char (upper_char c) = upper_char c.
Proof. apply flat_map_fixed; intros u; apply upper_char_fixed. Qed.

(** [str.upper] keeps the characters of [[\s.-]] and makes no new one. *)
Lemma is_sep_upper c : is_sep c = true -> upper_char c = [c].
Proof.
  intros H; apply unchanged_upper; revert c H.
  apply sep_class; vm_compute; reflexivity.
Qed.

Lemma is_sep_upper_char c u : In u (upper_char c) -> is_sep u = is_sep c.
Proof.
  destruct (is_sep c) eqn:Hs.
  - rewrite (is_sep_upper c Hs); now intros [<-|[]].
  - unfold upper_char; destruct (lookup UPPER c) as [us|] eqn:E;
      [|now intros [<-|[]]].
    intros Hu.
    pose proof (upper_entry
                  (fun kv => forallb (fun x => negb (is_sep x)) (snd kv))
                  ltac:(vm_compute; reflexivity) c us E) as H.
    cbn [snd] in H; rewrite forallb_forall in H.
    now apply negb_true_iff, H.
Qed.

Lemma is_digit_not_sep c : is_digit c = true -> is_sep c = false.
Proof.
  intros H; apply negb_true_iff; revert c H.
  apply digit_class; vm_compute; reflexivity.
Qed.

Lemma is_digit_upper c : is_digit c = true -> upper_char c = [c].
Proof.
  intros H; apply unchanged_upper; revert c H.
  apply digit_class; vm_compute; reflexivity.
Qed.

Lemma is_digit_word c : is_digit c = true -> is_word c = true.
Proof. apply digit_class; vm_compute; reflexivity. Qed.

Lemma is_digit_not_AZ c : is_digit c = true -> is_AZ c = false.
Proof.
  intros H; apply negb_true_iff; revert c H.
  apply digit_class; vm_compute; reflexivity.
Qed.

Lemma is_09AZ_not_sep c : is_09AZ c = true -> is_sep c = false.
Proof.
  intros H; apply negb_true_iff; revert c H.
  apply (ascii_class is_09AZ); [apply is_09AZ_ascii|vm_compute; reflexivity].
Qed.

Lemma is_09AZ_upper c : is_09AZ c = true -> upper_char c = [c].
Proof.
  intros H; apply unchanged_upper; revert c H.
  apply (ascii_class is_09AZ); [apply is_09AZ_ascii|vm_compute; reflexivity].
Qed.

Lemma is_09AZ_word c : is_09AZ c = true -> is_word c = true.
Proof.
  apply (ascii_class is_09AZ); [apply is_09AZ_ascii|vm_compute; reflexivity].
Qed.

Lemma is_AZ_not_sep c : is_AZ c = true -> is_sep c = false.
Proof. intros H; now apply is_09AZ_not_sep, is_09AZ_of_AZ. Qed.

Lemma is_AZ_upper c : is_AZ c = true -> upper_char c = [c].
Proof. intros H; now apply is_09AZ_upper, is_09AZ_of_AZ. Qed.

Lemma newline_is_sep c : is_char (ch "010") c = true -> is_sep c = true.
Proof. intros H; apply N.eqb_eq in H; now subst c. Qed.


Example validate_dni_ex : validate_dni "12345678Z"%string = Return true.
Proof. reflexivity. Qed.
Example validate_dni_ex2 : validate_dni "12.345.678-z"%string = Return true.
Proof. reflexivity. Qed.
Example validate_nie_ex : validate_nie "X1234567L"%string = Return true.
Proof. reflexivity. Qed.
Example validate_nif_ex : validate_nif "B12345678"%string = Return true.
Proof. reflexivity. Qed.
Example process_pdf_ex :
  process_pdf init_stats "X1234567L no coincide"%string
  = ([{| tipo := lit "NIE"; documento := lit "X1234567L";
         documento_limpio := lit "X1234567L"; valido := true |}],
     {| archivos_procesados := 1; dni_validos := 0; nie_validos := 1;
        nif_validos := 0; docs_invalidos := 0 |}).
Proof. vm_compute. reflexivity. Qed.
Example finditer_ex :
  map (fun m => (start m, group m))
    (finditer PATRON_DNI
       "12345678Z12345678Z 12345678Z_ x12345678Z .12345678Z-12345678A"%string)
  = [(42%nat, lit "12345678Z"); (52%nat, lit "12345678A")].
Proof. vm_compute. reflexivity. Qed.
Example process_pdf_ex2 :
  map (fun r => (tipo r, documento r, valido r))
    (fst (process_pdf init_stats
            "B1234567 Y7654321A, B12345678 y 12345678Z. 12345678A"%string))
  = [(lit "DNI", lit "12345678Z", true); (lit "DNI", lit "12345678A", false);
     (lit "NIE", lit "Y7654321A", false); (lit "NIF", lit "B12345678", true)].
Proof. vm_compute. reflexivity. Qed.
(** The body of the [try] can raise on text that was not cleaned: [$]
    accepts a final line feed, which then reaches [int]. *)
Example validate_dni_try_line_feed :
  validate_dni_try (lit "12345678Z" ++ [ch "010"]) = Raise ValueError.
Proof. reflexivity. Qed.

(** Outside ASCII.  The no-break space is whitespace, so cleaning removes
    it; the Arabic-Indic digits are decimal digits, for [\d] and for
    [int]; [str.upper] gives the capital of the small n with tilde and SS
    for the sharp s; the ordinal indicator is a word character, so no
    word begins after it, while one begins after a no-break space. *)
Example clean_document_nbsp :
  clean_document (lit "x1234567" ++ [NBSP] ++ lit "l") = lit "X1234567L".
Proof. vm_compute; reflexivity. Qed.
Example validate_nie_nbsp :
  validate_nie (lit "X1234567" ++ [NBSP] ++ lit "L") = Return true.
Proof. vm_compute; reflexivity. Qed.
Example validate_nif_nbsp :
  validate_nif (lit "B1234567" ++ [NBSP] ++ lit "8") = Return true.
Proof. vm_compute; reflexivity. Qed.
Example validate_nie_arabic_indic :
  validate_nie (ch "X" :: ARABIC_INDIC_1234567 ++ [ch "L"]) = Return true.
Proof. vm_compute; reflexivity. Qed.
Example validate_nif_arabic_indic :
  validate_nif (ch "B" :: ARABIC_INDIC_1234567 ++ [ch "8"]) = Return true
  /\ validate_nif (lit "B1234567" ++ [ARABIC_INDIC_8]) = Return false.
Proof. split; vm_compute; reflexivity. Qed.
Example upper_ex :
  upper (lit "a" ++ [N_TILDE; SHARP_S])
  = (lit "A" ++ [CAPITAL_N_TILDE] ++ lit "SS")%list.
Proof. vm_compute; reflexivity. Qed.
Example finditer_after_ordinal :
  finditer PATRON_DNI (lit "n" ++ [ORDINAL] ++ lit "12345678Z") = []
  /\ finditer PATRON_DNI (lit "DNI" ++ [NBSP] ++ lit "12345678Z")
     = [{| start := 4; group := lit "12345678Z" |}].
Proof. split; vm_compute; reflexivity. Qed.


(** ** [clean_document] *)

Lemma filter_map_commute {A B} (f : A -> B) (p : B -> bool) (l : list A) :
  filter p (map f l) = map f (filter (fun x => p (f x)) l).
Proof.
  induction l as [|x l IH]; simpl; [reflexivity|].
  destruct (p (f x)); simpl; now rewrite IH.
Qed.

Lemma filter_idem {A} (p : A -> bool) (l : list A) :
  filter p (filter p l) = filter p l.
Proof.
  induction l as [|x l IH]; simpl; [reflexivity|].
  destruct (p x) eqn:E; simpl; [rewrite E, IH|]; auto.
Qed.

Lemma clean_document_chars s c :
  In c (clean_document s) -> is_sep c = false /\ upper_char c = [c].
Proof.
  unfold clean_document, re_sub_empty, upper.
  rewrite in_flat_map; intros (x & Hx & Hc).
  apply filter_In in Hx as [_ Hx].
  split; [|eapply upper_char_fixed; eassumption].
  rewrite (is_sep_upper_char x c Hc); now destruct (is_sep x).
Qed.

(** A string of such characters is left alone. *)
Lemma clean_document_fixed s :
  Forall (fun c => is_sep c = false /\ upper_char c = [c]) s ->
  clean_document s = s.
Proof.
  unfold clean_document, re_sub_empty, upper.
  induction 1 as [|c s [Hs Hu] _ IH]; simpl; [reflexivity|].
  rewrite Hs; simpl; now rewrite Hu, IH.
Qed.

Lemma clean_document_idem s :
  clean_document (clean_document s) = clean_document s.
Proof.
  apply clean_document_fixed, Forall_forall; intros c.
  apply clean_document_chars.
Qed.

(** C8. [clean_document] is idempotent: cleaning a cleaned string changes
    nothing, where cleaning removes every character of [[\s.-]] (the
    whitespace characters, the period and the hyphen) and upper-cases
    what is left. *)
Theorem C8_clean_idempotent :
  forall s : str,
    clean_document (clean_document s) = clean_document s
    /\ Forall (fun c => c <> ch " " /\ c <> ch "." /\ c <> ch "-"
                       /\ upper_char c = [c]) (clean_document s).
Proof.
  intros s; split; [apply clean_document_idem|].
  apply Forall_forall; intros c Hc.
  apply clean_document_chars in Hc as [Hs Hu].
  repeat split; trivial; intros ->; vm_compute in Hs; discriminate.
Qed.


(** ** Built-ins *)

Lemma len_app (a b : str) : len (a ++ b) = len a + len b.
Proof. unfold len; rewrite length_app; lia. Qed.

Lemma index_last ds c : index (ds ++ [c]) (-1) = Return c.
Proof.
  unfold index; change (-1 <? 0) with true; cbv iota.
  rewrite len_app; change (len [c]) with 1; unfold len.
  replace (-1 + (Z.of_nat (length ds) + 1)) with (Z.of_nat (length ds)) by lia.
  destruct (_ || _) eqn:E.
  - apply orb_true_iff in E as [E|E]; [apply Z.ltb_lt in E|apply Z.leb_le in E]; lia.
  - rewrite Nat2Z.id, nth_error_app2, Nat.sub_diag by lia; reflexivity.
Qed.

Lemma index_first c s : index (c :: s) 0 = Return c.
Proof.
  unfold index, len; change (0 <? 0) with false; cbv iota.
  destruct (_ || _) eqn:E; [|reflexivity].
  apply orb_true_iff in E as [E|E]; [discriminate|apply Z.leb_le in E].
  simpl length in E; lia.
Qed.

Lemma clamp_minus_one ds c : clamp (ds ++ [c]) (-1) = length ds.
Proof.
  unfold clamp; change (-1 <? 0) with true; cbv iota.
  rewrite len_app; change (len [c]) with 1; unfold len.
  rewrite Z.max_l, Z.min_l by lia; lia.
Qed.

Lemma clamp_zero s : clamp s 0 = 0%nat.
Proof.
  unfold clamp; change (0 <? 0) with false; cbv iota.
  rewrite Z.max_l, Z.min_l by (unfold len; lia); reflexivity.
Qed.

Lemma slice_init ds c : slice (ds ++ [c]) 0 (-1) = ds.
Proof.
  unfold slice; rewrite clamp_minus_one, clamp_zero.
  rewrite firstn_app, Nat.sub_diag, firstn_all; simpl.
  now rewrite app_nil_r.
Qed.

Lemma slice_middle l ds c : slice (l :: ds ++ [c]) 1 (-1) = ds.
Proof.
  unfold slice.
  change (l :: ds ++ [c]) with ((l :: ds) ++ [c]).
  rewrite clamp_minus_one.
  rewrite firstn_app, Nat.sub_diag, firstn_all; simpl firstn.
  rewrite app_nil_r; unfold clamp; change (1 <? 0) with false; cbv iota.
  rewrite Z.max_l, Z.min_l by (unfold len; simpl length; lia).
  reflexivity.
Qed.

Lemma int_digits_decimal ds :
  forallb is_digit ds = true ->
  forall acc,
    int_digits acc ds
    = Return (fold_left (fun a c => a * 10 + digit_value c) ds acc).
Proof.
  induction ds as [|d ds IH]; simpl; intros H acc; [reflexivity|].
  apply andb_true_iff in H as [Hd Hds].
  rewrite Hd; now apply IH.
Qed.

Lemma int_decimal ds :
  ds <> [] -> forallb is_digit ds = true -> int ds = Return (decimal ds).
Proof.
  intros Hne H; unfold int, decimal.
  destruct ds; [congruence|now apply int_digits_decimal].
Qed.

Lemma digit_value_bounds c : is_digit c = true -> 0 <= digit_value c <= 9.
Proof.
  unfold is_digit, digit_value; destruct (zero_of c) as [z|] eqn:E;
    [intros _|discriminate].
  apply zero_of_spec in E as [_ Hb]; lia.
Qed.

Lemma index_in_range (s : str) k :
  0 <= k < len s ->
  exists c, index s k = Return c /\ nth_error s (Z.to_nat k) = Some c.
Proof.
  intros Hk; unfold index.
  replace (k <? 0) with false by (symmetry; apply Z.ltb_ge; lia).
  replace ((k <? 0) || (len s <=? k)) with false.
  2:{ symmetry; apply orb_false_iff; split;
      [apply Z.ltb_ge|apply Z.leb_gt]; lia. }
  destruct (nth_error s (Z.to_nat k)) as [c|] eqn:E; [now exists c|].
  apply nth_error_None in E; unfold len in Hk; lia.
Qed.

Lemma LETRAS_lookup n :
  exists l, index LETRAS_VALIDACION (n mod 23) = Return l
            /\ In l LETRAS_VALIDACION.
Proof.
  destruct (index_in_range LETRAS_VALIDACION (n mod 23)) as (l & Hl & Hn).
  - pose proof (Z.mod_pos_bound n 23 ltac:(lia)).
    change (len LETRAS_VALIDACION) with 24; lia.
  - exists l; split; [assumption|]. eapply nth_error_In; eassumption.
Qed.

(** ** Shapes and patterns *)

Lemma fits_app ps qs s1 s2 :
  fits ps s1 = true -> fits qs s2 = true -> fits (ps ++ qs) (s1 ++ s2) = true.
Proof.
  revert s1; induction ps as [|p ps IH]; intros [|c s1]; simpl;
    try discriminate; [trivial|].
  intros H Hq; apply andb_true_iff in H as [-> H]; simpl; auto.
Qed.

Lemma fits_app_inv ps qs s :
  fits (ps ++ qs) s = true ->
  exists s1 s2, s = s1 ++ s2 /\ fits ps s1 = true /\ fits qs s2 = true.
Proof.
  revert s; induction ps as [|p ps IH]; simpl; intros s H.
  - now exists [], s.
  - destruct s as [|c s]; [discriminate|].
    apply andb_true_iff in H as [Hp H].
    destruct (IH _ H) as (s1 & s2 & -> & H1 & H2).
    exists (c :: s1), s2; simpl; rewrite Hp; auto.
Qed.

Lemma fits_repeat p n s :
  fits (repeat p n) s = true <-> length s = n /\ forallb p s = true.
Proof.
  revert s; induction n as [|n IH]; intros [|c s]; simpl;
    try (split; [discriminate|intros [? _]; discriminate]); [tauto|].
  rewrite !andb_true_iff, IH; split;
    [intros (? & ? & ?)|intros ([= ?] & ? & ?)]; auto.
Qed.

Lemma fits_single q s : fits [q] s = true <-> exists c, s = [c] /\ q c = true.
Proof.
  destruct s as [|c [|c' s]]; simpl.
  - split; [discriminate|intros (? & ? & _); discriminate].
  - rewrite andb_true_r; split; [intros H; now exists c|].
    now intros (? & [= <-] & H).
  - rewrite andb_false_r; split; [discriminate|intros (? & ? & _); discriminate].
Qed.

(** [n] characters of class [d], then one of class [q]. *)
Lemma fits_body d q n s :
  fits (repeat d n ++ [q]) s = true <->
  exists ds c, s = ds ++ [c] /\ length ds = n /\ forallb d ds = true /\ q c = true.
Proof.
  split.
  - intros H; apply fits_app_inv in H as (ds & s2 & -> & Hd & Hq).
    apply fits_repeat in Hd as [Hl Hd]; apply fits_single in Hq as (c & -> & Hq).
    now exists ds, c.
  - intros (ds & c & -> & Hl & Hd & Hq); apply fits_app.
    + now apply fits_repeat.
    + apply fits_single; now exists c.
Qed.

Lemma fits_headed p d q n s :
  fits ([p] ++ repeat d n ++ [q]) s = true <->
  exists l ds c,
    s = l :: ds ++ [c]
    /\ p l = true /\ length ds = n /\ forallb d ds = true /\ q c = true.
Proof.
  simpl; destruct s as [|l s].
  - split; [discriminate|intros (? & ? & ? & ? & _); discriminate].
  - rewrite andb_true_iff, fits_body; split.
    + intros (Hp & ds & c & -> & H); now exists l, ds, c.
    + intros (l' & ds & c & [= <- ->] & Hp & H); split; [assumption|].
      now exists ds, c.
Qed.

Lemma fits_nl_nil ps : fits_nl ps [] = false.
Proof. now destruct ps. Qed.

Lemma fits_nl_newline ps s :
  fits_nl ps s = true -> exists c, In c s /\ is_char (ch "010") c = true.
Proof.
  revert s; induction ps as [|p ps IH]; intros [|c s]; simpl; try discriminate.
  - destruct s; [|discriminate]. intros H; exists c; simpl; auto.
  - intros H; apply andb_true_iff in H as [_ H].
    destruct (IH _ H) as (x & Hx & Hn); exists x; simpl; auto.
Qed.

(** A sequence of classes closed by [$]: the whole text fits, or all of
    it but a final line feed. *)
Lemma match_here_classes_eol ps :
  forall prev s,
    match_here (map Cls ps ++ [Eol]) prev s
    = if fits ps s then Some s
      else if fits_nl ps s then Some (removelast s) else None.
Proof.
  induction ps as [|p ps IH]; intros prev s.
  - destruct s as [|c [|c' s]]; reflexivity.
  - destruct s as [|c s]; simpl; [reflexivity|].
    destruct (p c); simpl; [|reflexivity].
    rewrite IH; destruct (fits ps s); simpl; [reflexivity|].
    destruct (fits_nl ps s) eqn:E; simpl; [|reflexivity].
    destruct s; [now rewrite fits_nl_nil in E|reflexivity].
Qed.

Lemma fits_nl_clean ps s : fits_nl ps (clean_document s) = false.
Proof.
  destruct (fits_nl ps (clean_document s)) eqn:E; [|reflexivity].
  apply fits_nl_newline in E as (c & Hc & Hn).
  apply clean_document_chars in Hc as [Hc _].
  apply newline_is_sep in Hn; congruence.
Qed.

Lemma re_match_anchored ps s :
  fits_nl ps s = false ->
  re_match (Bol :: map Cls ps ++ [Eol]) s = if fits ps s then Some s else None.
Proof.
  intros H; unfold re_match; simpl; rewrite match_here_classes_eol, H.
  reflexivity.
Qed.

Lemma fits_not_nl ps s : fits ps s = true -> fits_nl ps s = false.
Proof.
  revert s; induction ps as [|p ps IH]; intros [|c s]; simpl; try discriminate;
    trivial.
  intros H; apply andb_true_iff in H as [-> H]; simpl; auto.
Qed.

(** ** The validators on each shape *)

Lemma rbind_return {A B} (a : A) (k : A -> result B) : rbind (Return a) k = k a.
Proof. reflexivity. Qed.

Lemma Return_inj {A} (a b : A) : Return a = Return b <-> a = b.
Proof. split; [now intros [= ->]|now intros ->]. Qed.

Lemma is_XYZ_cases l :
  is_XYZ l = true -> l = ch "X" \/ l = ch "Y" \/ l = ch "Z".
Proof. intros H; chars_lia. Qed.

Lemma nie_prefix_lookup l :
  is_XYZ l = true ->
  getitem nie_prefix l = Return [prefix_digit l]
  /\ is_digit (prefix_digit l) = true.
Proof.
  intros H; apply is_XYZ_cases in H as [ -> | [ -> | -> ] ]; split;
    vm_compute; reflexivity.
Qed.

Lemma validate_dni_try_shape ds c :
  length ds = 8%nat -> forallb is_digit ds = true -> is_AZ c = true ->
  validate_dni_try (ds ++ [c])
  = rbind (index LETRAS_VALIDACION (decimal ds mod 23))
          (fun l => Return (N.eqb c l)).
Proof.
  intros Hl Hd Hc; unfold validate_dni_try.
  assert (Hf : fits DNI_CLASSES (ds ++ [c]) = true)
    by (apply fits_body; now exists ds, c).
  change ([Bol] ++ times 8 (Cls is_digit) ++ [Cls is_AZ; Eol])
    with (Bol :: map Cls DNI_CLASSES ++ [Eol]).
  rewrite re_match_anchored, Hf by now apply fits_not_nl.
  simpl negb; cbv iota zeta.
  rewrite slice_init, index_last, rbind_return.
  rewrite int_decimal; [reflexivity|intros ->; discriminate|assumption].
Qed.

Lemma validate_nie_try_shape l ds c :
  is_XYZ l = true -> length ds = 7%nat -> forallb is_digit ds = true ->
  is_AZ c = true ->
  validate_nie_try (l :: ds ++ [c])
  = rbind (index LETRAS_VALIDACION (decimal (prefix_digit l :: ds) mod 23))
          (fun x => Return (N.eqb c x)).
Proof.
  intros Hx Hl Hd Hc; unfold validate_nie_try.
  assert (Hf : fits NIE_CLASSES (l :: ds ++ [c]) = true)
    by (apply fits_headed; now exists l, ds, c).
  change ([Bol; Cls is_XYZ] ++ times 7 (Cls is_digit) ++ [Cls is_AZ; Eol])
    with (Bol :: map Cls NIE_CLASSES ++ [Eol]).
  rewrite re_match_anchored, Hf by now apply fits_not_nl.
  simpl negb; cbv iota zeta.
  destruct (nie_prefix_lookup l Hx) as [Hp Hpd].
  rewrite index_first, rbind_return, Hp, rbind_return, slice_middle.
  change (l :: ds ++ [c]) with ((l :: ds) ++ [c]); rewrite index_last.
  rewrite rbind_return.
  change ([prefix_digit l] ++ ds)%list with (prefix_digit l :: ds).
  rewrite int_decimal; [reflexivity|discriminate|].
  simpl; now rewrite Hpd, Hd.
Qed.

Lemma re_match_clean ps s :
  re_match (Bol :: map Cls ps ++ [Eol]) (clean_document s)
  = if fits ps (clean_document s) then Some (clean_document s) else None.
Proof. apply re_match_anchored, fits_nl_clean. Qed.

Lemma validate_dni_unfit s :
  fits DNI_CLASSES (clean_document s) = false -> validate_dni s = Return false.
Proof.
  intros H; unfold validate_dni, validate_dni_try.
  change ([Bol] ++ times 8 (Cls is_digit) ++ [Cls is_AZ; Eol])
    with (Bol :: map Cls DNI_CLASSES ++ [Eol]).
  now rewrite re_match_clean, H.
Qed.

Lemma validate_dni_fit s ds c :
  clean_document s = ds ++ [c] ->
  length ds = 8%nat -> forallb is_digit ds = true -> is_AZ c = true ->
  exists l, index LETRAS_VALIDACION (decimal ds mod 23) = Return l
            /\ validate_dni s = Return (N.eqb c l).
Proof.
  intros E Hl Hd Hc; unfold validate_dni.
  rewrite E, validate_dni_try_shape by assumption.
  destruct (LETRAS_lookup (decimal ds)) as (l & Hi & _).
  exists l; now rewrite Hi.
Qed.

Lemma validate_nie_unfit s :
  fits NIE_CLASSES (clean_document s) = false -> validate_nie s = Return false.
Proof.
  intros H; unfold validate_nie, validate_nie_try.
  change ([Bol; Cls is_XYZ] ++ times 7 (Cls is_digit) ++ [Cls is_AZ; Eol])
    with (Bol :: map Cls NIE_CLASSES ++ [Eol]).
  now rewrite re_match_clean, H.
Qed.

Lemma validate_nie_fit s l ds c :
  clean_document s = l :: ds ++ [c] ->
  is_XYZ l = true -> length ds = 7%nat -> forallb is_digit ds = true ->
  is_AZ c = true ->
  exists x,
    index LETRAS_VALIDACION (decimal (prefix_digit l :: ds) mod 23) = Return x
    /\ validate_nie s = Return (N.eqb c x).
Proof.
  intros E Hx Hl Hd Hc; unfold validate_nie.
  rewrite E, validate_nie_try_shape by assumption.
  destruct (LETRAS_lookup (decimal (prefix_digit l :: ds))) as (x & Hi & _).
  exists x; now rewrite Hi.
Qed.

Lemma validate_nif_fits s :
  validate_nif s = Return (fits NIF_CLASSES (clean_document s)).
Proof.
  unfold validate_nif.
  change ([Bol; Cls is_nif_letter] ++ times 7 (Cls is_digit) ++ [Cls is_09AZ; Eol])
    with (Bol :: map Cls NIF_CLASSES ++ [Eol]).
  rewrite re_match_clean; now destruct (fits _ _).
Qed.

(** None of the three ever raises. *)
Lemma validate_dni_total s : exists b, validate_dni s = Return b.
Proof.
  destruct (fits DNI_CLASSES (clean_document s)) eqn:E.
  - apply fits_body in E as (ds & c & E & Hl & Hd & Hc).
    destruct (validate_dni_fit s ds c E Hl Hd Hc) as (l & _ & H); eauto.
  - exists false; now apply validate_dni_unfit.
Qed.

Lemma validate_nie_total s : exists b, validate_nie s = Return b.
Proof.
  destruct (fits NIE_CLASSES (clean_document s)) eqn:E.
  - apply fits_headed in E as (l & ds & c & E & Hx & Hl & Hd & Hc).
    destruct (validate_nie_fit s l ds c E Hx Hl Hd Hc) as (x & _ & H); eauto.
  - exists false; now apply validate_nie_unfit.
Qed.

(** The body of each [try] raises nothing that its [except] misses. *)
Lemma validate_dni_try_raises d e :
  validate_dni_try d = Raise e -> e = IndexError \/ e = ValueError.
Proof.
  unfold validate_dni_try.
  destruct (negb _); [discriminate|]; cbv zeta.
  destruct (index d (-1)) as [x|e1] eqn:E1.
  2:{ unfold index in E1; intros [= <-].
      destruct (_ || _); [injection E1 as <-; auto|].
      destruct (nth_error _ _); [discriminate|injection E1 as <-; auto]. }
  rewrite rbind_return.
  destruct (int (slice d 0 (-1))) as [n|e2] eqn:E2.
  2:{ intros [= <-]; right. unfold int in E2.
      destruct (slice d 0 (-1)) as [|c0 r]; [now injection E2|].
      revert E2; generalize 0; generalize (c0 :: r); clear.
      induction l as [|c l IH]; simpl; intros z; [discriminate|].
      destruct (is_digit c); [apply IH|now intros [= <-]]. }
  rewrite rbind_return.
  destruct (LETRAS_lookup n) as (l & -> & _); discriminate.
Qed.

(** C7. The three validators are total: on every string each returns
    [Return true] or [Return false] and never raises.  Whatever the body
    of a [try] raises (it can, on text that was not cleaned) is caught
    and gives [False]. *)
Theorem C7_validators_total :
  forall s : str,
    (exists b, validate_dni s = Return b)
    /\ (exists b, validate_nie s = Return b)
    /\ (exists b, validate_nif s = Return b)
    /\ (forall e, validate_dni_try s = Raise e ->
          try_except (validate_dni_try s) [IndexError; ValueError] (Return false)
          = Return false)
    /\ (forall e, validate_nie_try s = Raise e ->
          try_except (validate_nie_try s) [IndexError; ValueError; KeyError]
            (Return false)
          = Return false).
Proof.
  intros s; repeat split.
  - apply validate_dni_total.
  - apply validate_nie_total.
  - rewrite validate_nif_fits; eauto.
  - intros e H; rewrite H.
    apply validate_dni_try_raises in H as [-> | ->]; reflexivity.
  - intros e H; rewrite H; destruct e; reflexivity.
Qed.

Lemma C7_validators_total_witness :
  (exists b, validate_dni (lit "12345678z") = Return b)
  /\ try_except (validate_dni_try (lit "12345678Z" ++ [ch "010"]))
       [IndexError; ValueError] (Return false)
     = Return false.
Proof.
  pose proof (C7_validators_total (lit "12345678z")) as (H & _).
  pose proof (C7_validators_total (lit "12345678Z" ++ [ch "010"]))
    as (_ & _ & _ & H' & _).
  split; [exact H|apply (H' ValueError); reflexivity].
Defined.

(** ** The shapes in the words of the specification *)

Lemma In_existsb (l : str) c : In c l <-> existsb (N.eqb c) l = true.
Proof.
  rewrite existsb_exists; split.
  - intros H; exists c; split; [assumption|apply N.eqb_refl].
  - intros (x & Hx & E); apply N.eqb_eq in E; now subst.
Qed.

(** A class of ASCII characters and the string of its members. *)
Lemma class_set (p : char -> bool) (L : str) :
  (forall c, p c = true -> In c (enum 0 128)) ->
  forallb (fun c => implb (p c) (existsb (N.eqb c) L)) (enum 0 128) = true ->
  forallb p L = true ->
  forall c, p c = true <-> In c L.
Proof.
  intros Hp H1 H2 c; split.
  - intros H; apply In_existsb; revert c H.
    exact (ascii_class p (fun c => existsb (N.eqb c) L) Hp H1).
  - rewrite forallb_forall in H2; apply H2.
Qed.

Lemma is_09_DIGITS c : is_09 c = true <-> In c DIGITS.
Proof.
  apply class_set; [|vm_compute; reflexivity..].
  intros x H; apply enum_In; chars_lia.
Qed.

Lemma is_AZ_UPPERCASE c : is_AZ c = true <-> In c UPPERCASE.
Proof.
  apply class_set; [|vm_compute; reflexivity..].
  intros x H; apply enum_In; chars_lia.
Qed.

Lemma is_XYZ_set c : is_XYZ c = true <-> In c (lit "XYZ").
Proof.
  apply class_set; [|vm_compute; reflexivity..].
  intros x H; apply enum_In; chars_lia.
Qed.

Lemma is_nif_letter_set c : is_nif_letter c = true <-> In c NIF_LETTERS.
Proof.
  apply class_set; [|vm_compute; reflexivity..].
  intros x H; apply enum_In; chars_lia.
Qed.

Lemma is_09AZ_set c : is_09AZ c = true <-> In c (DIGITS ++ UPPERCASE).
Proof.
  apply class_set; [apply is_09AZ_ascii|vm_compute; reflexivity..].
Qed.

(** The digits 0 to 9 are decimal digits; [\d] matches every decimal
    digit of Unicode. *)
Lemma is_digit_DIGITS c : In c DIGITS -> is_digit c = true.
Proof. intros H; now apply is_09_digit, is_09_DIGITS. Qed.

Lemma is_digit_unicode c : is_digit c = true <-> unicode_digit c.
Proof.
  unfold is_digit, unicode_digit; split.
  - destruct (zero_of c) as [z|] eqn:E; [intros _|discriminate].
    apply zero_of_spec in E; eauto.
  - intros (z & Hz & Hb); destruct (zero_of c) eqn:E; [reflexivity|].
    unfold zero_of in E; apply (find_none _ _ E) in Hz.
    apply between_spec in Hb; congruence.
Qed.

Lemma decimal_digits_iff n ds :
  decimal_digits n ds <-> length ds = n /\ forallb is_09 ds = true.
Proof.
  unfold decimal_digits; rewrite forallb_forall, Forall_forall.
  split; intros [Hl H]; (split; [assumption|]); intros x Hx;
    apply is_09_DIGITS; auto.
Qed.

Lemma forallb_09_digit ds : forallb is_09 ds = true -> forallb is_digit ds = true.
Proof. rewrite !forallb_forall; intros H c Hc; apply is_09_digit; auto. Qed.

Lemma decimal_digits_forallb n ds :
  decimal_digits n ds -> length ds = n /\ forallb is_digit ds = true.
Proof.
  intros H; apply decimal_digits_iff in H as [Hl H].
  split; [assumption|now apply forallb_09_digit].
Qed.

Lemma unicode_digits_iff n ds :
  unicode_digits n ds <-> length ds = n /\ forallb is_digit ds = true.
Proof.
  unfold unicode_digits; rewrite forallb_forall, Forall_forall.
  split; intros [Hl H]; (split; [assumption|]); intros x Hx;
    apply is_digit_unicode; auto.
Qed.

Lemma decimal_digits_unicode n ds : decimal_digits n ds -> unicode_digits n ds.
Proof. intros H; now apply unicode_digits_iff, decimal_digits_forallb. Qed.

(** A string of one of the shapes fits the classes of its pattern. *)
Lemma dni_shape_fits s : dni_shape s -> fits DNI_CLASSES s = true.
Proof.
  unfold dni_shape, DNI_CLASSES; rewrite fits_body.
  intros (ds & c & E & H & Hc); exists ds, c.
  apply decimal_digits_forallb in H as [Hl Hd]; apply is_AZ_UPPERCASE in Hc; auto.
Qed.

Lemma nie_shape_unicode_fits s :
  nie_shape_unicode s <-> fits NIE_CLASSES s = true.
Proof.
  unfold nie_shape_unicode, NIE_CLASSES; rewrite fits_headed.
  split; intros (l & ds & c & E & H).
  - destruct H as (Hx & H & Hc); exists l, ds, c.
    apply unicode_digits_iff in H as [Hl Hd]; apply is_AZ_UPPERCASE in Hc.
    apply is_XYZ_set in Hx; auto.
  - destruct H as (Hx & Hl & Hd & Hc); exists l, ds, c.
    split; [assumption|]; split; [now apply is_XYZ_set|]; split;
      [apply unicode_digits_iff; auto|now apply is_AZ_UPPERCASE].
Qed.

Lemma nif_shape_unicode_fits s :
  nif_shape_unicode s <-> fits NIF_CLASSES s = true.
Proof.
  unfold nif_shape_unicode, NIF_CLASSES; rewrite fits_headed.
  split; intros (l & ds & c & E & H).
  - destruct H as (Hx & H & Hc); exists l, ds, c.
    apply unicode_digits_iff in H as [Hl Hd]; apply is_09AZ_set in Hc.
    apply is_nif_letter_set in Hx; auto.
  - destruct H as (Hx & Hl & Hd & Hc); exists l, ds, c.
    split; [assumption|]; split; [now apply is_nif_letter_set|]; split;
      [apply unicode_digits_iff; auto|now apply is_09AZ_set].
Qed.

Lemma nie_shape_unicode_of s : nie_shape s -> nie_shape_unicode s.
Proof.
  intros (l & ds & c & E & Hx & H & Hc); exists l, ds, c.
  auto using decimal_digits_unicode.
Qed.

Lemma nif_shape_unicode_of s : nif_shape s -> nif_shape_unicode s.
Proof.
  intros (l & ds & c & E & Hx & H & Hc); exists l, ds, c.
  auto using decimal_digits_unicode.
Qed.

Lemma nie_shape_fits s : nie_shape s -> fits NIE_CLASSES s = true.
Proof. intros H; now apply nie_shape_unicode_fits, nie_shape_unicode_of. Qed.

Lemma nif_shape_fits s : nif_shape s -> fits NIF_CLASSES s = true.
Proof. intros H; now apply nif_shape_unicode_fits, nif_shape_unicode_of. Qed.

(** Decimal digits and the letters A to Z are among what cleaning leaves
    alone. *)
Lemma is_stable_spec c :
  is_stable c = true -> is_sep c = false /\ upper_char c = [c].
Proof.
  unfold is_stable; intros H; apply andb_true_iff in H as [Hs Hu].
  split; [now apply negb_true_iff|now apply unchanged_upper].
Qed.

Lemma is_stable_of_digit c : is_digit c = true -> is_stable c = true.
Proof. apply digit_class; vm_compute; reflexivity. Qed.

Lemma is_stable_of_09AZ c : is_09AZ c = true -> is_stable c = true.
Proof.
  apply (ascii_class is_09AZ); [apply is_09AZ_ascii|vm_compute; reflexivity].
Qed.

Lemma is_stable_of_AZ c : is_AZ c = true -> is_stable c = true.
Proof. intros H; now apply is_stable_of_09AZ, is_09AZ_of_AZ. Qed.

Lemma forallb_stable_clean s :
  forallb is_stable s = true -> clean_document s = s.
Proof.
  intros H; apply clean_document_fixed, Forall_forall; intros c Hc.
  apply is_stable_spec; rewrite forallb_forall in H; auto.
Qed.

Lemma forallb_digit_stable ds :
  forallb is_digit ds = true -> forallb is_stable ds = true.
Proof.
  rewrite !forallb_forall; intros H c Hc; apply is_stable_of_digit; auto.
Qed.

(** ** Zero-padded decimals *)

Lemma digit_char_09 d : 0 <= d < 10 -> is_09 (digit_char d) = true.
Proof.
  intros H; unfold digit_char, is_09; apply between_spec; char_values; lia.
Qed.

Lemma digit_char_spec d :
  0 <= d < 10 -> is_digit (digit_char d) = true /\ digit_value (digit_char d) = d.
Proof.
  intros H; pose proof (digit_char_09 d H) as H9.
  split; [now apply is_09_digit|].
  rewrite is_09_value by assumption; unfold digit_char; lia.
Qed.

Lemma zfill_length w n : length (zfill w n) = w.
Proof.
  revert n; induction w as [|w IH]; intros n; simpl; [reflexivity|].
  rewrite length_app, IH; simpl; lia.
Qed.

Lemma zfill_09 w n : forallb is_09 (zfill w n) = true.
Proof.
  revert n; induction w as [|w IH]; intros n; simpl; [reflexivity|].
  rewrite forallb_app, IH; simpl.
  rewrite digit_char_09; [reflexivity|apply Z.mod_pos_bound; lia].
Qed.

Lemma zfill_digits w n : forallb is_digit (zfill w n) = true.
Proof. apply forallb_09_digit, zfill_09. Qed.

Lemma decimal_snoc ds c : decimal (ds ++ [c]) = decimal ds * 10 + digit_value c.
Proof. unfold decimal; now rewrite fold_left_app. Qed.

Lemma decimal_zfill w n : 0 <= n -> decimal (zfill w n) = n mod 10 ^ Z.of_nat w.
Proof.
  revert n; induction w as [|w IH]; intros n Hn.
  - simpl; now rewrite Z.mod_1_r.
  - cbn [zfill]; rewrite decimal_snoc, IH by (apply Z.div_pos; lia).
    destruct (digit_char_spec (n mod 10)) as [_ ->];
      [apply Z.mod_pos_bound; lia|].
    rewrite Nat2Z.inj_succ, Z.pow_succ_r by lia.
    rewrite Z.rem_mul_r by lia. lia.
Qed.

Example zfill_ex : zfill 8 1234567 = lit "01234567" /\ zfill 8 0 = lit "00000000".
Proof. split; vm_compute; reflexivity. Qed.

Lemma LETRAS_upper c : In c LETRAS_VALIDACION -> is_AZ c = true.
Proof.
  assert (H : forallb is_AZ LETRAS_VALIDACION = true) by (vm_compute; reflexivity).
  rewrite forallb_forall in H; auto.
Qed.


(** ** The claims about the validators *)

(** C1. For every [n] from 0 to 99999999, [validate_dni] accepts the eight
    zero-padded digits of [n] followed by [LETRAS_VALIDACION[n % 23]], and
    rejects the same digits followed by any character of
    [LETRAS_VALIDACION] that differs from that letter. *)
Theorem C1_validate_dni_check_letter :
  forall n : Z,
    0 <= n <= 99999999 ->
    exists l,
      index LETRAS_VALIDACION (n mod 23) = Return l
      /\ validate_dni (zfill 8 n ++ [l]) = Return true
      /\ forall c, In c LETRAS_VALIDACION -> c <> l ->
                   validate_dni (zfill 8 n ++ [c]) = Return false.
Proof.
  intros n Hn.
  destruct (LETRAS_lookup n) as (l & Hl & Hin).
  assert (V : forall c, In c LETRAS_VALIDACION ->
                validate_dni (zfill 8 n ++ [c]) = Return (N.eqb c l)).
  { intros c Hc; apply LETRAS_upper in Hc.
    destruct (validate_dni_fit (zfill 8 n ++ [c]) (zfill 8 n) c)
      as (l' & Hl' & ->);
      [|apply zfill_length|apply zfill_digits|assumption|].
    - apply forallb_stable_clean; rewrite forallb_app; cbn [forallb].
      rewrite forallb_digit_stable by apply zfill_digits.
      now rewrite is_stable_of_AZ.
    - rewrite decimal_zfill in Hl' by lia.
      change (10 ^ Z.of_nat 8) with 100000000 in Hl'.
      rewrite (Z.mod_small n) in Hl' by lia.
      congruence. }
  exists l; split; [assumption|]; split.
  - now rewrite V, N.eqb_refl.
  - intros c Hc Hne; rewrite V by assumption.
    now apply f_equal, N.eqb_neq.
Qed.

Lemma C1_validate_dni_check_letter_witness :
  0 <= 12345678 <= 99999999
  /\ exists l,
       index LETRAS_VALIDACION (12345678 mod 23) = Return l
       /\ validate_dni (zfill 8 12345678 ++ [l]) = Return true
       /\ forall c, In c LETRAS_VALIDACION -> c <> l ->
                    validate_dni (zfill 8 12345678 ++ [c]) = Return false.
Proof.
  split; [lia|apply (C1_validate_dni_check_letter 12345678); lia].
Defined.








(** ** [re.finditer] *)

Lemma match_here_prefix re :
  forall prev s m, match_here re prev s = Some m -> firstn (length m) s = m.
Proof.
  induction re as [|a re IH]; intros prev s m; cbn [match_here classes_of].
  - now intros [= <-].
  - destruct a.
    + destruct prev; [discriminate|apply IH].
    + destruct s as [|c [|c' s]]; [apply IH| |discriminate].
      destruct (is_char (ch "010") c); [apply IH|discriminate].
    + destruct (xorb _ _); [apply IH|discriminate].
    + destruct s as [|c s]; [discriminate|].
      destruct (p c); [|discriminate].
      destruct (match_here re (Some c) s) as [m'|] eqn:E; [|discriminate].
      intros [= <-]; simpl; f_equal; eapply IH; eassumption.
Qed.

Lemma match_here_classes re :
  forall prev s m, match_here re prev s = Some m -> fits (classes_of re) m = true.
Proof.
  induction re as [|a re IH]; intros prev s m; cbn [match_here classes_of].
  - now intros [= <-].
  - destruct a.
    + destruct prev; [discriminate|apply IH].
    + destruct s as [|c [|c' s]]; [apply IH| |discriminate].
      destruct (is_char (ch "010") c); [apply IH|discriminate].
    + destruct (xorb _ _); [apply IH|discriminate].
    + destruct s as [|c s]; [discriminate|].
      destruct (p c) eqn:Hp; [|discriminate].
      destruct (match_here re (Some c) s) as [m'|] eqn:E; [|discriminate].
      intros [= <-]; simpl; rewrite Hp; simpl; eapply IH; eassumption.
Qed.

Lemma found_shift re pos c s m :
  (S pos <= start m)%nat -> found re (S pos) s m -> found re pos (c :: s) m.
Proof.
  intros Hle (_ & Hsub & Hfit); split; [lia|split; [|assumption]].
  replace (start m - pos)%nat with (S (start m - S pos)) by lia.
  exact Hsub.
Qed.

Lemma finditer_from_spec re s :
  forall prev pos skip,
    ascending (finditer_from re prev pos skip s)
    /\ Forall (fun m => (pos + skip <= start m)%nat /\ found re pos s m)
         (finditer_from re prev pos skip s).
Proof.
  induction s as [|c s IH]; intros prev pos skip.
  - simpl; destruct skip; [|split; constructor].
    destruct (match_here re prev []) as [m|] eqn:E; [|split; constructor].
    split; [repeat constructor|].
    constructor; [|constructor]; unfold found; cbn [start group].
    split; [lia|split; [lia|split]].
    + rewrite Nat.sub_diag; simpl. eapply match_here_prefix; eassumption.
    + eapply match_here_classes; eassumption.
  - assert (Shift : forall k,
      Forall (fun m => (pos + S k <= start m)%nat /\ found re pos (c :: s) m)
        (finditer_from re (Some c) (S pos) k s)).
    { intros k; destruct (IH (Some c) (S pos) k) as [_ H].
      eapply Forall_impl; [|exact H]; simpl.
      intros m [Hle Hf]; split; [lia|apply found_shift; [lia|assumption]]. }
    simpl; destruct skip as [|k].
    + destruct (match_here re prev (c :: s)) as [m|] eqn:E.
      * split.
        -- constructor; [apply IH|].
           eapply Forall_impl; [|apply (Shift (Nat.pred (length m)))].
           simpl; intros; lia.
        -- constructor.
           ++ unfold found; cbn [start group].
              split; [lia|split; [lia|split]].
              ** rewrite Nat.sub_diag. eapply match_here_prefix; eassumption.
              ** eapply match_here_classes; eassumption.
           ++ eapply Forall_impl; [|apply (Shift (Nat.pred (length m)))].
              simpl; intros a [? ?]; split; [lia|assumption].
      * split; [apply IH|].
        eapply Forall_impl; [|apply (Shift 0%nat)].
        simpl; intros a [? ?]; split; [lia|assumption].
    + split; [apply IH|apply Shift].
Qed.

Lemma finditer_ascending re texto : ascending (finditer re texto).
Proof. apply finditer_from_spec. Qed.

Lemma finditer_found re texto m :
  In m (finditer re texto) ->
  occurs_in texto m /\ fits (classes_of re) (group m) = true.
Proof.
  intros H; destruct (finditer_from_spec re texto None 0 0) as [_ F].
  rewrite Forall_forall in F; destruct (F m H) as (_ & _ & Hs & Hf).
  split; [|assumption]; unfold occurs_in; now rewrite Nat.sub_0_r in Hs.
Qed.

(** ** The pattern loop of [process_pdf] *)

Lemma count_app p a b : count p (a ++ b) = count p a + count p b.
Proof. unfold count; rewrite filter_app, length_app; lia. Qed.

Lemma count_nonneg p rs : 0 <= count p rs.
Proof. unfold count; lia. Qed.

Lemma tally_nil s : tally s [] = s.
Proof. destruct s; unfold tally, count; simpl; f_equal; lia. Qed.

Lemma tally_app s a b : tally (tally s a) b = tally s (a ++ b).
Proof. unfold tally; simpl; rewrite !count_app; f_equal; lia. Qed.

(** One iteration of [for match in coincidencias]: it never raises,
    appends one entry and counts it. *)
Lemma process_match_run t m e :
  In t [lit "DNI"; lit "NIE"; lit "NIF"] ->
  process_match t m e
  = (Return tt,
     {| stats := tally (stats e) [resultado_de t m];
        resultados := resultados e ++ [resultado_de t m] |}).
Proof.
  intros [<-|[<-|[<-|[]]]]; unfold process_match, resultado_de, es_valido.
  - change (str_eqb (lit "DNI") (lit "DNI")) with true; cbv iota.
    destruct (validate_dni_total (clean_document (group m))) as [b Hb].
    unfold mbind, lift; rewrite Hb.
    destruct b; unfold when, update_stats, mret, append, verdict, mbind;
      cbn [stats resultados negb]; do 2 f_equal;
      unfold tally, count, valid_of, invalid, incr_dni, incr_invalidos;
      simpl; f_equal; lia.
  - change (str_eqb (lit "NIE") (lit "DNI")) with false.
    change (str_eqb (lit "NIE") (lit "NIE")) with true; cbv iota.
    destruct (validate_nie_total (clean_document (group m))) as [b Hb].
    unfold mbind, lift; rewrite Hb.
    destruct b; unfold when, update_stats, mret, append, verdict, mbind;
      cbn [stats resultados negb]; do 2 f_equal;
      unfold tally, count, valid_of, invalid, incr_nie, incr_invalidos;
      simpl; f_equal; lia.
  - change (str_eqb (lit "NIF") (lit "DNI")) with false.
    change (str_eqb (lit "NIF") (lit "NIE")) with false.
    change (str_eqb (lit "NIF") (lit "NIF")) with true; cbv iota.
    rewrite validate_nif_fits.
    unfold mbind, lift.
    destruct (fits NIF_CLASSES _);
      unfold when, update_stats, mret, append, verdict, mbind;
      cbn [stats resultados negb]; do 2 f_equal;
      unfold tally, count, valid_of, invalid, incr_nif, incr_invalidos;
      simpl; f_equal; lia.
Qed.

Lemma for_each_matches t ms :
  In t [lit "DNI"; lit "NIE"; lit "NIF"] ->
  forall e,
    for_each ms (process_match t) e
    = (Return tt,
       {| stats := tally (stats e) (map (resultado_de t) ms);
          resultados := resultados e ++ map (resultado_de t) ms |}).
Proof.
  intros Ht; induction ms as [|m ms IH]; intros e.
  - simpl; unfold mret; rewrite tally_nil, app_nil_r; now destruct e.
  - cbn [for_each map]; unfold mbind at 1.
    rewrite process_match_run, IH by assumption; cbn [stats resultados].
    rewrite tally_app, <- app_assoc; reflexivity.
Qed.

(** [process_pdf] in one equation: the three blocks in order, each
    result counted, then one more file. *)
Lemma process_pdf_run self texto :
  let rs := (block (lit "DNI") PATRON_DNI texto
             ++ block (lit "NIE") PATRON_NIE texto
             ++ block (lit "NIF") PATRON_NIF texto)%list in
  process_pdf self texto = (rs, incr_archivos (tally self rs)).
Proof.
  unfold process_pdf, buscar_documentos, PATRONES, block.
  cbn [for_each fst snd]; unfold mbind.
  rewrite !for_each_matches by (simpl; tauto).
  cbn [stats resultados]; unfold mret, update_stats; cbn [stats resultados].
  rewrite !tally_app, !app_assoc; reflexivity.
Qed.

(** What the three patterns match is already clean. *)
Lemma pattern_match_clean patron m :
  In patron [PATRON_DNI; PATRON_NIE; PATRON_NIF] ->
  fits (classes_of patron) m = true -> clean_document m = m.
Proof.
  intros [<-|[<-|[<-|[]]]] H; apply forallb_stable_clean.
  - apply (fits_body is_digit is_AZ 8) in H as (ds & c & -> & _ & Hd & Hc).
    rewrite forallb_app; cbn [forallb].
    rewrite forallb_digit_stable by assumption. now rewrite is_stable_of_AZ.
  - apply (fits_headed is_XYZ is_digit is_AZ 7) in H
      as (l & ds & c & -> & Hx & _ & Hd & Hc).
    change (l :: ds ++ [c]) with ([l] ++ ds ++ [c])%list.
    rewrite !forallb_app; cbn [forallb].
    rewrite forallb_digit_stable by assumption.
    rewrite (is_stable_of_AZ l) by now apply is_XYZ_AZ.
    now rewrite (is_stable_of_AZ c).
  - apply (fits_headed is_nif_letter is_digit is_09AZ 7) in H
      as (l & ds & c & -> & Hx & _ & Hd & Hc).
    change (l :: ds ++ [c]) with ([l] ++ ds ++ [c])%list.
    rewrite !forallb_app; cbn [forallb].
    rewrite forallb_digit_stable by assumption.
    rewrite (is_stable_of_AZ l) by now apply is_nif_letter_AZ.
    now rewrite (is_stable_of_09AZ c).
Qed.

(** C10. Each validator gives the same answer on a string and on its
    cleaned form, so ["12.345.678-z"] is accepted as ["12345678Z"] is;
    the three patterns of the scan, for their part, match only text
    that cleaning leaves as it is. *)
Theorem C10_validators_invariant_under_clean :
  (forall s : str,
      validate_dni s = validate_dni (clean_document s)
      /\ validate_nie s = validate_nie (clean_document s)
      /\ validate_nif s = validate_nif (clean_document s))
  /\ clean_document (lit "12.345.678-z") = lit "12345678Z"
  /\ validate_dni (lit "12.345.678-z") = Return true
  /\ (forall (texto : str) (patron : regex) (m : Match),
        In patron [PATRON_DNI; PATRON_NIE; PATRON_NIF] ->
        In m (finditer patron texto) ->
        clean_document (group m) = group m).
Proof.
  split; [|split; [reflexivity|split; [reflexivity|]]].
  - intros s; unfold validate_dni, validate_nie, validate_nif.
    now rewrite clean_document_idem.
  - intros texto patron m Hp Hm.
    apply finditer_found in Hm as [_ Hm].
    eapply pattern_match_clean; eassumption.
Qed.

Lemma C10_validators_invariant_under_clean_witness :
  In PATRON_NIE [PATRON_DNI; PATRON_NIE; PATRON_NIF]
  /\ In {| start := 3; group := lit "X1234567L" |}
        (finditer PATRON_NIE (lit "el X1234567L, x1234567l"))
  /\ clean_document (lit "X1234567L") = lit "X1234567L".
Proof.
  assert (Hp : In PATRON_NIE [PATRON_DNI; PATRON_NIE; PATRON_NIF])
    by (right; left; reflexivity).
  assert (Hm : In {| start := 3; group := lit "X1234567L" |}
                 (finditer PATRON_NIE (lit "el X1234567L, x1234567l")))
    by (vm_compute; left; reflexivity).
  split; [exact Hp|split; [exact Hm|]].
  destruct C10_validators_invariant_under_clean as (_ & _ & _ & H).
  exact (H _ _ _ Hp Hm).
Defined.

(** ** The claims about the scan *)

(** C5. The results of one scan are the DNI matches, then the NIE
    matches, then the NIF matches; each block follows the matches of its
    pattern, which are found at strictly ascending offsets of the text.
    The passes are separate: a DNI that stands last in the text comes
    first in the results. *)
Theorem C5_result_order :
  forall (self : Stats) (texto : str),
    fst (process_pdf self texto)
    = (block (lit "DNI") PATRON_DNI texto
       ++ block (lit "NIE") PATRON_NIE texto
       ++ block (lit "NIF") PATRON_NIF texto)%list
    /\ (forall (t : str) (patron : regex),
          map documento (block t patron texto)
          = map group (finditer patron texto)
          /\ ascending (finditer patron texto)
          /\ Forall (occurs_in texto) (finditer patron texto))
    /\ map (fun r => (tipo r, documento r))
         (fst (process_pdf self (lit "A1234567B X1234567L 12345678Z")))
       = [(lit "DNI", lit "12345678Z"); (lit "NIE", lit "X1234567L");
          (lit "NIF", lit "A1234567B")].
Proof.
  intros self texto; split; [|split].
  - now rewrite process_pdf_run.
  - intros t patron; split; [|split].
    + unfold block; rewrite map_map; reflexivity.
    + apply finditer_ascending.
    + apply Forall_forall; intros m Hm; now apply finditer_found in Hm.
  - rewrite process_pdf_run; reflexivity.
Qed.

(** Each result of a block counts for exactly one of the four counters. *)
Lemma one_counter_each t rs :
  In t [lit "DNI"; lit "NIE"; lit "NIF"] ->
  Forall (fun r => tipo r = t) rs ->
  count (valid_of (lit "DNI")) rs + count (valid_of (lit "NIE")) rs
  + count (valid_of (lit "NIF")) rs + count invalid rs
  = Z.of_nat (length rs).
Proof.
  intros Ht H; induction H as [|r rs Hr _ IH]; [reflexivity|].
  change (r :: rs) with ([r] ++ rs)%list.
  rewrite !count_app, length_app, Nat2Z.inj_add, <- IH.
  cut (count (valid_of (lit "DNI")) [r] + count (valid_of (lit "NIE")) [r]
       + count (valid_of (lit "NIF")) [r] + count invalid [r] = 1);
    [simpl length; lia|].
  unfold count, valid_of, invalid; simpl filter; rewrite Hr.
  destruct Ht as [<-|[<-|[<-|[]]]]; destruct (valido r); reflexivity.
Qed.

Lemma one_counter_app a b :
  count (valid_of (lit "DNI")) a + count (valid_of (lit "NIE")) a
  + count (valid_of (lit "NIF")) a + count invalid a = Z.of_nat (length a) ->
  count (valid_of (lit "DNI")) b + count (valid_of (lit "NIE")) b
  + count (valid_of (lit "NIF")) b + count invalid b = Z.of_nat (length b) ->
  count (valid_of (lit "DNI")) (a ++ b) + count (valid_of (lit "NIE")) (a ++ b)
  + count (valid_of (lit "NIF")) (a ++ b) + count invalid (a ++ b)
  = Z.of_nat (length (a ++ b)).
Proof. rewrite !count_app, length_app; lia. Qed.

Lemma block_tipo t patron texto :
  Forall (fun r => tipo r = t) (block t patron texto).
Proof.
  unfold block; apply Forall_forall; intros r Hr.
  apply in_map_iff in Hr as (m & <- & _); reflexivity.
Qed.

(** C6. One scan adds to [dni_validos], [nie_validos] and [nif_validos]
    the number of valid results of the type, and to [docs_invalidos] the
    number of invalid results; every result is counted once, by one
    counter.  [archivos_procesados] is then raised by 1, after the three
    passes.  No counter goes down, in the scan or in a single
    increment. *)
Theorem C6_counters :
  forall (self : Stats) (texto : str),
    let rs := fst (process_pdf self texto) in
    let after := snd (process_pdf self texto) in
    dni_validos after = dni_validos self + count (valid_of (lit "DNI")) rs
    /\ nie_validos after = nie_validos self + count (valid_of (lit "NIE")) rs
    /\ nif_validos after = nif_validos self + count (valid_of (lit "NIF")) rs
    /\ docs_invalidos after = docs_invalidos self + count invalid rs
    /\ count (valid_of (lit "DNI")) rs + count (valid_of (lit "NIE")) rs
       + count (valid_of (lit "NIF")) rs + count invalid rs
       = Z.of_nat (length rs)
    /\ after = incr_archivos (tally self rs)
    /\ archivos_procesados after = archivos_procesados self + 1
    /\ stats_le self after
    /\ Forall (fun op => stats_le self (op self))
         [incr_archivos; incr_dni; incr_nie; incr_nif; incr_invalidos].
Proof.
  intros self texto; rewrite process_pdf_run; cbn [fst snd].
  repeat match goal with |- _ /\ _ => split end; try reflexivity.
  - repeat apply one_counter_app;
      (eapply one_counter_each; [|apply block_tipo]); simpl; tauto.
  - unfold stats_le, incr_archivos, tally; cbn.
    repeat match goal with
           | |- context [count ?p ?l] =>
               let H := fresh in
               pose proof (count_nonneg p l) as H; generalize dependent (count p l)
           end.
    intros; lia.
  - repeat constructor; simpl; lia.
Qed.

(** C9. A text in which none of the three patterns matches, the empty
    text among them, gives no result and leaves every counter as it was,
    except [archivos_procesados], which goes up by 1. *)
Theorem C9_no_matches :
  (forall (self : Stats) (texto : str),
      finditer PATRON_DNI texto = [] ->
      finditer PATRON_NIE texto = [] ->
      finditer PATRON_NIF texto = [] ->
      process_pdf self texto
      = ([], {| archivos_procesados := archivos_procesados self + 1;
                dni_validos := dni_validos self;
                nie_validos := nie_validos self;
                nif_validos := nif_validos self;
                docs_invalidos := docs_invalidos self |}))
  /\ (forall self : Stats,
        process_pdf self []
        = ([], {| archivos_procesados := archivos_procesados self + 1;
                  dni_validos := dni_validos self;
                  nie_validos := nie_validos self;
                  nif_validos := nif_validos self;
                  docs_invalidos := docs_invalidos self |})).
Proof.
  assert (H : forall self texto,
             finditer PATRON_DNI texto = [] ->
             finditer PATRON_NIE texto = [] ->
             finditer PATRON_NIF texto = [] ->
             process_pdf self texto
             = ([], {| archivos_procesados := archivos_procesados self + 1;
                       dni_validos := dni_validos self;
                       nie_validos := nie_validos self;
                       nif_validos := nif_validos self;
                       docs_invalidos := docs_invalidos self |})).
  { intros self texto H1 H2 H3; rewrite process_pdf_run; unfold block.
    rewrite H1, H2, H3; cbn [map app]; now rewrite tally_nil. }
  split; [exact H|intros self; apply H; reflexivity].
Qed.

Lemma C9_no_matches_witness :
  finditer PATRON_DNI (lit "sin documentos: 1234567Z, x1234567l") = []
  /\ finditer PATRON_NIE (lit "sin documentos: 1234567Z, x1234567l") = []
  /\ finditer PATRON_NIF (lit "sin documentos: 1234567Z, x1234567l") = []
  /\ process_pdf init_stats (lit "sin documentos: 1234567Z, x1234567l")
     = ([], {| archivos_procesados := 1; dni_validos := 0; nie_validos := 0;
               nif_validos := 0; docs_invalidos := 0 |}).
Proof.
  assert (H1 : finditer PATRON_DNI (lit "sin documentos: 1234567Z, x1234567l") = [])
    by (vm_compute; reflexivity).
  assert (H2 : finditer PATRON_NIE (lit "sin documentos: 1234567Z, x1234567l") = [])
    by (vm_compute; reflexivity).
  assert (H3 : finditer PATRON_NIF (lit "sin documentos: 1234567Z, x1234567l") = [])
    by (vm_compute; reflexivity).
  split; [exact H1|split; [exact H2|split; [exact H3|]]].
  exact (proj1 C9_no_matches init_stats _ H1 H2 H3).
Defined.

(** C3 as stated fails: the scan of ["X1234567L no coincide"] yields no
    NIE result whose flag is [false]. *)
Lemma C3_claimed_invalid_refuted :
  ~ (exists r,
        In r (fst (process_pdf init_stats (lit "X1234567L no coincide")))
        /\ tipo r = lit "NIE" /\ valido r = false).
Proof.
  intros (r & Hr & _ & Hv); vm_compute in Hr.
  destruct Hr as [<-|[]]; discriminate Hv.
Qed.

(** C3, amended. The scan of ["X1234567L no coincide"] yields one result,
    of type NIE, whose flag is [true]: X gives the prefix 0, 01234567 mod
    23 is 19, and [LETRAS_VALIDACION[19]] is the final letter L. *)
Theorem C3_scan_X1234567L :
  forall self : Stats,
    fst (process_pdf self (lit "X1234567L no coincide"))
    = [{| tipo := lit "NIE"; documento := lit "X1234567L";
          documento_limpio := lit "X1234567L"; valido := true |}]
    /\ prefix_digit (ch "X") :: lit "1234567" = lit "01234567"
    /\ decimal (lit "01234567") mod 23 = 19
    /\ index LETRAS_VALIDACION 19 = Return (ch "L")
    /\ index LETRAS_VALIDACION 3 = Return (ch "A").
Proof.
  intros self; rewrite process_pdf_run; repeat split.
Qed.

(** * Further properties of the validators *)

(** ** The check letter detects errors *)

Lemma fold_decimal (b : str) :
  forall acc,
    fold_left (fun a c => a * 10 + digit_value c) b acc
    = acc * 10 ^ Z.of_nat (length b) + decimal b.
Proof.
  unfold decimal; induction b as [|c b IH]; intros acc.
  - simpl; lia.
  - cbn [fold_left length]; rewrite IH, (IH (0 * 10 + digit_value c)).
    rewrite Nat2Z.inj_succ, Z.pow_succ_r by lia; ring.
Qed.

Lemma decimal_app (a b : str) :
  decimal (a ++ b) = decimal a * 10 ^ Z.of_nat (length b) + decimal b.
Proof. unfold decimal at 1; rewrite fold_left_app; apply fold_decimal. Qed.

Lemma digit_char_value c : is_09 c = true -> digit_char (digit_value c) = c.
Proof.
  intros H; rewrite is_09_value by assumption; unfold digit_char.
  rewrite N2Z.id; apply between_spec in H; char_values; lia.
Qed.

Lemma digit_value_inj x y :
  is_09 x = true -> is_09 y = true -> digit_value x = digit_value y -> x = y.
Proof.
  intros Hx Hy E.
  rewrite <- (digit_char_value x Hx), <- (digit_char_value y Hy); now f_equal.
Qed.

Lemma coprime_23_pow10 k : Z.gcd 23 (10 ^ Z.of_nat k) = 1.
Proof. apply Z.coprime_pow_r; [lia|reflexivity]. Qed.

(** 23 divides no [d * 10 ^ k] with [d] a nonzero difference of digits. *)
Lemma not_divide_23 d k : d <> 0 -> -9 <= d <= 9 -> ~ (23 | d * 10 ^ Z.of_nat k).
Proof.
  intros Hd Hb H.
  rewrite Z.mul_comm in H.
  apply Z.gauss in H; [|apply coprime_23_pow10].
  destruct H as [q Hq]; lia.
Qed.

Lemma mod_23_differ a b : ~ (23 | a - b) -> a mod 23 <> b mod 23.
Proof.
  intros H E; apply H, Z.mod_divide; [lia|].
  rewrite Zminus_mod, E, Z.sub_diag; reflexivity.
Qed.

(** The 23 letters that can be looked up are pairwise different. *)
Lemma LETRAS_injective i j x :
  0 <= i < 23 -> 0 <= j < 23 ->
  index LETRAS_VALIDACION i = Return x -> index LETRAS_VALIDACION j = Return x ->
  i = j.
Proof.
  intros Hi Hj Ei Ej.
  destruct (index_in_range LETRAS_VALIDACION i) as (a & Ea & Na);
    [change (len LETRAS_VALIDACION) with 24; lia|].
  destruct (index_in_range LETRAS_VALIDACION j) as (b & Eb & Nb);
    [change (len LETRAS_VALIDACION) with 24; lia|].
  assert (a = x) by congruence; assert (b = x) by congruence; subst a b.
  assert (ND : NoDup (firstn 23 LETRAS_VALIDACION)).
  { vm_compute.
    repeat (constructor; [simpl; intuition discriminate|]); constructor. }
  rewrite NoDup_nth_error in ND.
  apply Z2Nat.inj; try lia.
  apply ND; [simpl; lia|].
  rewrite !nth_error_firstn.
  replace (Z.to_nat i <? 23)%nat with true by (symmetry; apply Nat.ltb_lt; lia).
  replace (Z.to_nat j <? 23)%nat with true by (symmetry; apply Nat.ltb_lt; lia).
  congruence.
Qed.

(** Replacing one digit changes the letter looked up. *)
Lemma substitution_changes_letter (pre post : str) x y lx ly :
  is_09 x = true -> is_09 y = true -> x <> y ->
  index LETRAS_VALIDACION (decimal (pre ++ x :: post) mod 23) = Return lx ->
  index LETRAS_VALIDACION (decimal (pre ++ y :: post) mod 23) = Return ly ->
  lx <> ly.
Proof.
  intros Hx Hy Hne Ex Ey ->.
  eapply mod_23_differ; [|eapply LETRAS_injective; [| |exact Ex|exact Ey]];
    try (apply Z.mod_pos_bound; lia).
  change (x :: post) with ([x] ++ post)%list.
  change (y :: post) with ([y] ++ post)%list.
  rewrite !decimal_app.
  replace (_ - _) with
    ((digit_value x - digit_value y) * 10 ^ Z.of_nat (length post))
    by (unfold decimal; simpl; ring).
  pose proof (digit_value_bounds x (is_09_digit x Hx)).
  pose proof (digit_value_bounds y (is_09_digit y Hy)).
  apply not_divide_23; [|lia].
  intros E; apply Hne, digit_value_inj; trivial; lia.
Qed.

Lemma clean_document_app a b :
  clean_document (a ++ b) = (clean_document a ++ clean_document b)%list.
Proof.
  unfold clean_document, re_sub_empty, upper.
  now rewrite filter_app, flat_map_app.
Qed.

Lemma clean_document_single c :
  clean_document [c] = if is_sep c then [] else upper_char c.
Proof.
  unfold clean_document, re_sub_empty, upper; simpl.
  destruct (is_sep c); simpl; [reflexivity|apply app_nil_r].
Qed.

Lemma clean_document_digits ds :
  forallb is_digit ds = true -> clean_document ds = ds.
Proof. intros H; now apply forallb_stable_clean, forallb_digit_stable. Qed.

Lemma app_same_length {A} (a a' b b' : list A) :
  length a = length a' -> (a ++ b = a' ++ b')%list -> a = a' /\ b = b'.
Proof.
  revert a'; induction a as [|x a IH]; intros [|x' a']; simpl;
    try discriminate; [auto|].
  intros [= Hl] [= -> E]; destruct (IH a' Hl E) as [-> ->]; auto.
Qed.

(** What cleaning leaves of one character is a letter A to Z, the upper
    case of the character, or it is no such letter, and then the upper
    case of the character is none either. *)
Lemma last_char_cases c :
  (exists u, clean_document [c] = [u] /\ upper_char c = [u] /\ is_AZ u = true)
  \/ ((forall u, is_AZ u = true -> clean_document [c] <> [u])
      /\ (forall u, is_AZ u = true -> upper_char c <> [u])).
Proof.
  rewrite clean_document_single; destruct (is_sep c) eqn:Hs.
  - right; split; [discriminate|].
    intros u Hu E; rewrite <- (is_sep_upper_char c u) in Hs
      by (rewrite E; now left).
    rewrite (is_AZ_not_sep u Hu) in Hs; discriminate.
  - destruct (upper_char c) as [|u [|u' t]] eqn:E;
      [right; split; discriminate| |right; split; discriminate].
    destruct (is_AZ u) eqn:Hu; [left; now exists u|].
    right; split; intros x Hx [= <-]; congruence.
Qed.

(** Eight digits and any last character. *)
Lemma validate_dni_body ds c :
  length ds = 8%nat -> forallb is_digit ds = true ->
  exists l b,
    index LETRAS_VALIDACION (decimal ds mod 23) = Return l
    /\ validate_dni (ds ++ [c]) = Return b
    /\ (b = true <-> upper_char c = [l]).
Proof.
  intros Hl Hd.
  destruct (LETRAS_lookup (decimal ds)) as (l & Hi & Hin).
  apply LETRAS_upper in Hin.
  assert (Hc : clean_document (ds ++ [c]) = (ds ++ clean_document [c])%list)
    by now rewrite clean_document_app, (clean_document_digits ds).
  destruct (last_char_cases c) as [(u & Ec & Eu & Hu)|[Hn Hn']].
  - rewrite Ec in Hc.
    destruct (validate_dni_fit (ds ++ [c]) ds u) as (l' & Hi' & Hv); trivial.
    exists l, (N.eqb u l); split; [assumption|]; split; [congruence|].
    rewrite Eu, N.eqb_eq; split; [now intros ->|now intros [= ->]].
  - exists l, false; split; [assumption|]; split.
    + apply validate_dni_unfit; rewrite Hc.
      destruct (fits DNI_CLASSES _) eqn:E; [|reflexivity].
      apply fits_body in E as (ds' & c' & E & Hl' & _ & Hc').
      apply app_same_length in E as [_ E]; [|congruence].
      now apply Hn in E.
    + split; [discriminate|intros E; now apply Hn' in E].
Qed.

(** Seven digits after a first character whose upper case is X, Y or Z,
    and any last character. *)
Lemma validate_nie_body l0 L ds c :
  upper_char l0 = [L] -> is_XYZ L = true ->
  length ds = 7%nat -> forallb is_digit ds = true ->
  exists l b,
    index LETRAS_VALIDACION (decimal (prefix_digit L :: ds) mod 23) = Return l
    /\ validate_nie (l0 :: ds ++ [c]) = Return b
    /\ (b = true <-> upper_char c = [l]).
Proof.
  intros HL Hx Hl Hd.
  destruct (LETRAS_lookup (decimal (prefix_digit L :: ds))) as (l & Hi & Hin).
  apply LETRAS_upper in Hin.
  assert (Hs0 : is_sep l0 = false).
  { rewrite <- (is_sep_upper_char l0 L) by (rewrite HL; now left).
    now apply is_AZ_not_sep, is_XYZ_AZ. }
  assert (Hc : clean_document (l0 :: ds ++ [c])
               = (L :: ds ++ clean_document [c])%list).
  { change (l0 :: ds ++ [c]) with ([l0] ++ ds ++ [c])%list.
    rewrite !clean_document_app, (clean_document_digits ds) by assumption.
    now rewrite (clean_document_single l0), Hs0, HL. }
  destruct (last_char_cases c) as [(u & Ec & Eu & Hu)|[Hn Hn']].
  - rewrite Ec in Hc.
    destruct (validate_nie_fit (l0 :: ds ++ [c]) L ds u) as (l' & Hi' & Hv);
      trivial.
    exists l, (N.eqb u l); split; [assumption|]; split; [congruence|].
    rewrite Eu, N.eqb_eq; split; [now intros ->|now intros [= ->]].
  - exists l, false; split; [assumption|]; split.
    + apply validate_nie_unfit; rewrite Hc.
      destruct (fits NIE_CLASSES _) eqn:E; [|reflexivity].
      apply fits_headed in E as (l1 & ds' & c' & E & _ & Hl' & _ & Hc').
      injection E as _ E.
      apply app_same_length in E as [_ E]; [|congruence].
      now apply Hn in E.
    + split; [discriminate|intros E; now apply Hn' in E].
Qed.

Lemma forallb_at {A} (p : A -> bool) (pre post : list A) x :
  forallb p (pre ++ x :: post) = true ->
  forallb p pre = true /\ p x = true /\ forallb p post = true.
Proof.
  rewrite forallb_app; cbn [forallb]; rewrite !andb_true_iff; tauto.
Qed.

Lemma verdict_cases (b : bool) (P : Prop) :
  (b = true <-> P) -> (b = false <-> ~ P).
Proof. destruct b; intros [H1 H2]; split; intuition discriminate. Qed.

(** X1. After eight decimal digits, [validate_dni] accepts a last
    character exactly when its upper case is the check letter of the
    digits: the letter is accepted in lower case too, and no other
    character is. *)
Theorem X1_validate_dni_letter_either_case :
  forall (ds : str) (c : char),
    decimal_digits 8 ds ->
    exists l,
      index LETRAS_VALIDACION (decimal ds mod 23) = Return l
      /\ (validate_dni (ds ++ [c]) = Return true <-> upper_char c = [l])
      /\ (validate_dni (ds ++ [c]) = Return false <-> upper_char c <> [l]).
Proof.
  intros ds c H; apply decimal_digits_forallb in H as [Hl Hd].
  destruct (validate_dni_body ds c Hl Hd) as (l & b & Hi & -> & Hb).
  exists l; split; [assumption|]; rewrite !Return_inj; split;
    [assumption|now apply verdict_cases].
Qed.

Lemma X1_validate_dni_letter_either_case_witness :
  decimal_digits 8 (lit "12345678")
  /\ validate_dni (lit "12345678" ++ [ch "z"]) = Return true.
Proof.
  assert (H : decimal_digits 8 (lit "12345678"))
    by (apply decimal_digits_iff; split; vm_compute; reflexivity).
  split; [exact H|].
  destruct (X1_validate_dni_letter_either_case (lit "12345678") (ch "z") H)
    as (l & Hl & Ht & _).
  apply Ht; vm_compute in Hl; injection Hl as <-; vm_compute; reflexivity.
Defined.

(** X2. A DNI that [validate_dni] accepts is rejected once any one of its
    eight digits is replaced by a different digit. *)
Theorem X2_validate_dni_detects_substitution :
  forall (pre post : str) (x y c : char),
    decimal_digits 8 (pre ++ x :: post) ->
    In y DIGITS -> x <> y ->
    validate_dni ((pre ++ x :: post) ++ [c]) = Return true ->
    validate_dni ((pre ++ y :: post) ++ [c]) = Return false.
Proof.
  intros pre post x y c H Hy Hne Hv.
  apply decimal_digits_iff in H as [Hl H9]; apply is_09_DIGITS in Hy.
  destruct (forallb_at _ _ _ _ H9) as (Hpre & Hx & Hpost).
  pose proof (forallb_09_digit _ H9) as Hd.
  assert (Hl' : length (pre ++ y :: post) = 8%nat)
    by (rewrite length_app in *; simpl in *; lia).
  assert (Hd' : forallb is_digit (pre ++ y :: post) = true)
    by (apply forallb_09_digit; rewrite forallb_app; cbn [forallb];
        now rewrite Hpre, Hy, Hpost).
  destruct (validate_dni_body _ c Hl Hd) as (lx & bx & Ex & Vx & Bx).
  destruct (validate_dni_body _ c Hl' Hd') as (ly & b & Ey & -> & Hb).
  rewrite Vx in Hv; apply Return_inj, Bx in Hv.
  f_equal; apply (verdict_cases _ _ Hb); rewrite Hv; intros [= E].
  exact (substitution_changes_letter pre post x y lx ly Hx Hy Hne Ex Ey E).
Qed.

Lemma X2_validate_dni_detects_substitution_witness :
  validate_dni (lit "12345678Z") = Return true
  /\ validate_dni (lit "12395678Z") = Return false.
Proof.
  assert (Hv : validate_dni ((lit "123" ++ ch "4" :: lit "5678") ++ [ch "Z"])
               = Return true) by (vm_compute; reflexivity).
  split; [exact Hv|].
  apply (X2_validate_dni_detects_substitution
           (lit "123") (lit "5678") (ch "4") (ch "9") (ch "Z")).
  - apply decimal_digits_iff; split; vm_compute; reflexivity.
  - apply In_existsb; vm_compute; reflexivity.
  - discriminate.
  - exact Hv.
Defined.

Lemma coprime_23_repunit j : 1 <= j <= 7 -> Z.gcd 23 (10 ^ j - 1) = 1.
Proof.
  intros H.
  assert (E : j = 1 \/ j = 2 \/ j = 3 \/ j = 4 \/ j = 5 \/ j = 6 \/ j = 7)
    by lia.
  repeat destruct E as [E|E]; subst j; reflexivity.
Qed.

(** Exchanging two different digits changes the letter looked up. *)
Lemma transposition_changes_letter (pre mid post : str) x y lx ly :
  is_09 x = true -> is_09 y = true -> x <> y ->
  (length mid <= 6)%nat ->
  index LETRAS_VALIDACION (decimal (pre ++ x :: mid ++ y :: post) mod 23)
  = Return lx ->
  index LETRAS_VALIDACION (decimal (pre ++ y :: mid ++ x :: post) mod 23)
  = Return ly ->
  lx <> ly.
Proof.
  intros Hx Hy Hne Hm Ex Ey ->.
  eapply mod_23_differ; [|eapply LETRAS_injective; [| |exact Ex|exact Ey]];
    try (apply Z.mod_pos_bound; lia).
  change (x :: mid ++ y :: post) with ([x] ++ mid ++ [y] ++ post)%list.
  change (y :: mid ++ x :: post) with ([y] ++ mid ++ [x] ++ post)%list.
  rewrite !decimal_app, !length_app; cbn [length].
  change (decimal [x]) with (0 * 10 + digit_value x).
  change (decimal [y]) with (0 * 10 + digit_value y).
  rewrite !Nat2Z.inj_add, !Z.pow_add_r by lia.
  change (10 ^ Z.of_nat 1) with 10.
  set (P := 10 ^ Z.of_nat (length post)).
  set (M := 10 ^ Z.of_nat (length mid)).
  replace (_ - _) with
    (P * ((10 * M - 1) * (digit_value x - digit_value y))) by ring.
  intros H.
  apply Z.gauss in H; [|apply coprime_23_pow10].
  apply Z.gauss in H.
  - pose proof (digit_value_bounds x (is_09_digit x Hx)).
    pose proof (digit_value_bounds y (is_09_digit y Hy)).
    assert (digit_value x <> digit_value y)
      by (intros E; now apply Hne, digit_value_inj).
    destruct H as [q Hq]; lia.
  - subst M; rewrite <- (Z.pow_1_r 10) at 1.
    rewrite <- Z.pow_add_r by lia.
    apply coprime_23_repunit; lia.
Qed.

(** X3. A DNI that [validate_dni] accepts is rejected once two of its
    eight digits that differ have changed places. *)
Theorem X3_validate_dni_detects_transposition :
  forall (pre mid post : str) (x y c : char),
    decimal_digits 8 (pre ++ x :: mid ++ y :: post) ->
    x <> y ->
    validate_dni ((pre ++ x :: mid ++ y :: post) ++ [c]) = Return true ->
    validate_dni ((pre ++ y :: mid ++ x :: post) ++ [c]) = Return false.
Proof.
  intros pre mid post x y c H Hne Hv.
  apply decimal_digits_iff in H as [Hl H9].
  destruct (forallb_at _ _ _ _ H9) as (Hpre & Hx & Hrest).
  destruct (forallb_at _ _ _ _ Hrest) as (Hmid & Hy & Hpost).
  pose proof (forallb_09_digit _ H9) as Hd.
  assert (Hl' : length (pre ++ y :: mid ++ x :: post) = 8%nat)
    by (rewrite !length_app in *; simpl in *; rewrite !length_app in *;
        simpl in *; lia).
  assert (Hm : (length mid <= 6)%nat)
    by (rewrite !length_app in Hl; simpl in Hl; rewrite !length_app in Hl;
        simpl in Hl; lia).
  assert (Hd' : forallb is_digit (pre ++ y :: mid ++ x :: post) = true).
  { apply forallb_09_digit.
    rewrite forallb_app; cbn [forallb]; rewrite forallb_app; cbn [forallb].
    now rewrite Hpre, Hy, Hmid, Hx, Hpost. }
  destruct (validate_dni_body _ c Hl Hd) as (lx & bx & Ex & Vx & Bx).
  destruct (validate_dni_body _ c Hl' Hd') as (ly & b & Ey & -> & Hb).
  rewrite Vx in Hv; apply Return_inj, Bx in Hv.
  f_equal; apply (verdict_cases _ _ Hb); rewrite Hv; intros [= E].
  exact (transposition_changes_letter pre mid post x y lx ly
           Hx Hy Hne Hm Ex Ey E).
Qed.

Lemma X3_validate_dni_detects_transposition_witness :
  validate_dni (lit "12345678Z") = Return true
  /\ validate_dni (lit "12645378Z") = Return false.
Proof.
  assert (Hv : validate_dni
                 ((lit "12" ++ ch "3" :: lit "45" ++ ch "6" :: lit "78")
                  ++ [ch "Z"]) = Return true) by (vm_compute; reflexivity).
  split; [exact Hv|].
  apply (X3_validate_dni_detects_transposition
           (lit "12") (lit "45") (lit "78") (ch "3") (ch "6") (ch "Z")).
  - apply decimal_digits_iff; split; vm_compute; reflexivity.
  - discriminate.
  - exact Hv.
Defined.

Lemma XYZ_upper l :
  In l (lit "XYZ") -> is_XYZ l = true /\ upper_char l = [l].
Proof.
  intros H; apply is_XYZ_set in H.
  split; [assumption|now apply is_AZ_upper, is_XYZ_AZ].
Qed.

Lemma prefix_digit_09 l : is_09 (prefix_digit l) = true.
Proof.
  unfold prefix_digit; destruct (is_char _ l); [vm_compute; reflexivity|].
  destruct (is_char _ l); vm_compute; reflexivity.
Qed.

Lemma prefix_digit_inj a b :
  In a (lit "XYZ") -> In b (lit "XYZ") -> prefix_digit a = prefix_digit b -> a = b.
Proof.
  intros Ha Hb; apply is_XYZ_set, is_XYZ_cases in Ha, Hb.
  destruct Ha as [ -> | [ -> | -> ] ], Hb as [ -> | [ -> | -> ] ]; vm_compute;
    congruence.
Qed.

(** X4. A NIE that [validate_nie] accepts is rejected once its first
    letter is replaced by another of X, Y, Z, or one of its seven digits
    by a different digit. *)
Theorem X4_validate_nie_detects_substitution :
  (forall (l0 l1 : char) (ds : str) (c : char),
      In l0 (lit "XYZ") -> In l1 (lit "XYZ") -> l0 <> l1 ->
      decimal_digits 7 ds ->
      validate_nie (l0 :: ds ++ [c]) = Return true ->
      validate_nie (l1 :: ds ++ [c]) = Return false)
  /\ (forall (l0 : char) (pre post : str) (x y c : char),
        In l0 (lit "XYZ") ->
        decimal_digits 7 (pre ++ x :: post) ->
        In y DIGITS -> x <> y ->
        validate_nie (l0 :: (pre ++ x :: post) ++ [c]) = Return true ->
        validate_nie (l0 :: (pre ++ y :: post) ++ [c]) = Return false).
Proof.
  split.
  - intros l0 l1 ds c H0 H1 Hne H Hv.
    apply decimal_digits_forallb in H as [Hl Hd].
    destruct (XYZ_upper l0 H0) as [X0 U0], (XYZ_upper l1 H1) as [X1 U1].
    destruct (validate_nie_body l0 l0 ds c U0 X0 Hl Hd)
      as (a & ba & Ea & Va & Ba).
    destruct (validate_nie_body l1 l1 ds c U1 X1 Hl Hd)
      as (b & bb & Eb & -> & Bb).
    rewrite Va in Hv; apply Return_inj, Ba in Hv.
    f_equal; apply (verdict_cases _ _ Bb); rewrite Hv; intros [= E].
    apply (substitution_changes_letter [] ds
             (prefix_digit l0) (prefix_digit l1) a b); trivial;
      try apply prefix_digit_09.
    intros E'; now apply Hne, prefix_digit_inj.
  - intros l0 pre post x y c H0 H Hy Hne Hv.
    apply decimal_digits_iff in H as [Hl H9]; apply is_09_DIGITS in Hy.
    destruct (forallb_at _ _ _ _ H9) as (Hpre & Hx & Hpost).
    pose proof (forallb_09_digit _ H9) as Hd.
    destruct (XYZ_upper l0 H0) as [X0 U0].
    assert (Hl' : length (pre ++ y :: post) = 7%nat)
      by (rewrite length_app in *; simpl in *; lia).
    assert (Hd' : forallb is_digit (pre ++ y :: post) = true)
      by (apply forallb_09_digit; rewrite forallb_app; cbn [forallb];
          now rewrite Hpre, Hy, Hpost).
    destruct (validate_nie_body l0 l0 _ c U0 X0 Hl Hd)
      as (a & ba & Ea & Va & Ba).
    destruct (validate_nie_body l0 l0 _ c U0 X0 Hl' Hd')
      as (b & bb & Eb & -> & Bb).
    rewrite Va in Hv; apply Return_inj, Ba in Hv.
    f_equal; apply (verdict_cases _ _ Bb); rewrite Hv; intros [= E].
    exact (substitution_changes_letter (prefix_digit l0 :: pre)
             post x y a b Hx Hy Hne Ea Eb E).
Qed.

Lemma X4_validate_nie_detects_substitution_witness :
  validate_nie (lit "X1234567L") = Return true
  /\ validate_nie (lit "Y1234567L") = Return false
  /\ validate_nie (lit "X1204567L") = Return false.
Proof.
  destruct X4_validate_nie_detects_substitution as [H1 H2].
  assert (Hv : validate_nie (lit "X1234567L") = Return true)
    by (vm_compute; reflexivity).
  split; [exact Hv|split].
  - apply (H1 (ch "X") (ch "Y") (lit "1234567") (ch "L")).
    + apply In_existsb; vm_compute; reflexivity.
    + apply In_existsb; vm_compute; reflexivity.
    + discriminate.
    + apply decimal_digits_iff; split; vm_compute; reflexivity.
    + exact Hv.
  - apply (H2 (ch "X") (lit "12") (lit "4567") (ch "3") (ch "0") (ch "L")).
    + apply In_existsb; vm_compute; reflexivity.
    + apply decimal_digits_iff; split; vm_compute; reflexivity.
    + apply In_existsb; vm_compute; reflexivity.
    + discriminate.
    + exact Hv.
Defined.

(** * Further properties of the scan *)

Lemma block_In t patron texto r :
  In r (block t patron texto) ->
  exists m, In m (finditer patron texto) /\ r = resultado_de t m.
Proof.
  unfold block; rewrite in_map_iff; intros (m & <- & Hm); eauto.
Qed.

(** A result of a scan comes from a match of the pattern of its type. *)
Lemma process_pdf_In self texto r :
  In r (fst (process_pdf self texto)) ->
  exists t patron m,
    In (patron, t) PATRONES
    /\ In m (finditer patron texto) /\ r = resultado_de t m.
Proof.
  rewrite process_pdf_run; cbn [fst]; rewrite !in_app_iff.
  intros [H|[H|H]]; apply block_In in H as (m & Hm & ->);
    eexists _, _, m; (split; [|split; [exact Hm|reflexivity]]);
    simpl; tauto.
Qed.

(** X5. In a scan every result of type NIF is valid: what [PATRON_NIF]
    matches is what [validate_nif] accepts. *)
Theorem X5_scan_nif_always_valid :
  forall (self : Stats) (texto : str) (r : Resultado),
    In r (fst (process_pdf self texto)) ->
    tipo r = lit "NIF" ->
    valido r = true.
Proof.
  intros self texto r Hr Ht.
  apply process_pdf_In in Hr as (t & patron & m & Hp & Hm & ->).
  cbn [tipo resultado_de] in Ht; subst t.
  simpl in Hp; destruct Hp as [[= _ E]|[[= _ E]|[[= <-]|[]]]];
    try discriminate E.
  apply finditer_found in Hm as [_ Hf].
  cbn [valido resultado_de]; unfold es_valido.
  change (str_eqb (lit "NIF") (lit "DNI")) with false.
  change (str_eqb (lit "NIF") (lit "NIE")) with false.
  change (str_eqb (lit "NIF") (lit "NIF")) with true; cbv iota.
  rewrite validate_nif_fits, clean_document_idem.
  rewrite (pattern_match_clean PATRON_NIF) by (simpl; tauto).
  exact Hf.
Qed.

Lemma X5_scan_nif_always_valid_witness :
  valido {| tipo := lit "NIF"; documento := lit "B1234567L";
            documento_limpio := lit "B1234567L"; valido := true |} = true.
Proof.
  apply (X5_scan_nif_always_valid init_stats (lit "CIF B1234567L")).
  - vm_compute; left; reflexivity.
  - reflexivity.
Defined.

Lemma first_classes_exclusive c :
  (is_digit c = true -> is_XYZ c = false /\ is_nif_letter c = false)
  /\ (is_XYZ c = true -> is_nif_letter c = false).
Proof.
  split.
  - intros H; apply is_digit_not_AZ in H; split.
    + destruct (is_XYZ c) eqn:E; [|reflexivity].
      apply is_XYZ_AZ in E; congruence.
    + destruct (is_nif_letter c) eqn:E; [|reflexivity].
      apply is_nif_letter_AZ in E; congruence.
  - intros H; apply is_XYZ_cases in H as [ -> | [ -> | -> ] ];
      vm_compute; reflexivity.
Qed.

Lemma fits_first p ps s :
  fits (p :: ps) s = true -> exists c s', s = c :: s' /\ p c = true.
Proof.
  destruct s as [|c s]; simpl; [discriminate|].
  intros H; apply andb_true_iff in H as [H _]; eauto.
Qed.

(** X6. The three patterns exclude one another, so a scan never reports
    one and the same text under two types. *)
Theorem X6_scan_types_exclusive :
  forall (self : Stats) (texto : str) (r1 r2 : Resultado),
    In r1 (fst (process_pdf self texto)) ->
    In r2 (fst (process_pdf self texto)) ->
    documento r1 = documento r2 ->
    tipo r1 = tipo r2.
Proof.
  intros self texto r1 r2 H1 H2 E.
  apply process_pdf_In in H1 as (t1 & p1 & m1 & Hp1 & Hm1 & ->).
  apply process_pdf_In in H2 as (t2 & p2 & m2 & Hp2 & Hm2 & ->).
  cbn [documento tipo resultado_de] in *.
  apply finditer_found in Hm1 as [_ F1]; apply finditer_found in Hm2 as [_ F2].
  rewrite E in F1; clear E.
  simpl in Hp1, Hp2.
  destruct Hp1 as [[= <- <-]|[[= <- <-]|[[= <- <-]|[]]]];
    destruct Hp2 as [[= <- <-]|[[= <- <-]|[[= <- <-]|[]]]];
    try reflexivity; exfalso;
    apply fits_first in F1 as (c & s' & Ec & Hc1);
    apply fits_first in F2 as (c' & s'' & Ec' & Hc2);
    rewrite Ec in Ec'; injection Ec' as <- _;
    destruct (first_classes_exclusive c) as [Hd Hx];
    try (destruct (Hd Hc1) as [? ?]; congruence);
    try (destruct (Hd Hc2) as [? ?]; congruence);
    try (specialize (Hx Hc1); congruence);
    try (specialize (Hx Hc2); congruence).
Qed.

Lemma X6_scan_types_exclusive_witness :
  tipo {| tipo := lit "NIE"; documento := lit "X1234567L";
          documento_limpio := lit "X1234567L"; valido := true |}
  = tipo {| tipo := lit "NIE"; documento := lit "X1234567L";
            documento_limpio := lit "X1234567L"; valido := true |}.
Proof.
  apply (X6_scan_types_exclusive init_stats
           (lit "X1234567L, 12345678Z y X1234567L")).
  - vm_compute; right; right; left; reflexivity.
  - vm_compute; right; left; reflexivity.
  - reflexivity.
Defined.

(** ** Where the matches lie *)

(** Each match of [finditer_from] is a match of the pattern at its own
    offset, with the character before it as context. *)
Lemma finditer_from_matches re s :
  forall prev pos skip,
    Forall (fun m =>
              (pos <= start m)%nat
              /\ match_here re (prev_at prev s (start m - pos))
                   (skipn (start m - pos) s) = Some (group m))
      (finditer_from re prev pos skip s).
Proof.
  induction s as [|c s IH]; intros prev pos skip.
  - simpl; destruct skip; [|constructor].
    destruct (match_here re prev []) as [m|] eqn:E; constructor;
      [|constructor].
    cbn [start group]; rewrite Nat.sub_diag; split; [lia|exact E].
  - assert (Shift : forall k,
      Forall (fun m =>
                (pos <= start m)%nat
                /\ match_here re (prev_at prev (c :: s) (start m - pos))
                     (skipn (start m - pos) (c :: s)) = Some (group m))
        (finditer_from re (Some c) (S pos) k s)).
    { intros k; eapply Forall_impl; [|apply (IH (Some c) (S pos) k)].
      cbv beta; intros m [Hle Hm]; split; [lia|].
      replace (start m - pos)%nat with (S (start m - S pos)) by lia.
      cbn [prev_at skipn].
      destruct (start m - S pos)%nat; exact Hm. }
    simpl; destruct skip as [|k]; [|apply Shift].
    destruct (match_here re prev (c :: s)) as [m|] eqn:E; [|apply Shift].
    constructor; [|apply Shift].
    cbn [start group]; rewrite Nat.sub_diag; split; [lia|exact E].
Qed.

Lemma finditer_matches re texto m :
  In m (finditer re texto) ->
  match_here re (char_before texto (start m)) (skipn (start m) texto)
  = Some (group m).
Proof.
  intros H; pose proof (finditer_from_matches re texto None 0 0) as F.
  rewrite Forall_forall in F; destruct (F m H) as [_ Hm].
  rewrite Nat.sub_0_r in Hm.
  unfold char_before; unfold prev_at in Hm; exact Hm.
Qed.

(** Classes closed by [\b]: the text read, and a word boundary after it. *)
Lemma match_here_classes_wordb ps :
  forall prev s m,
    match_here (map Cls ps ++ [WordB]) prev s = Some m ->
    fits ps m = true
    /\ xorb (word_opt (last_prev prev m))
            (word_opt (hd_error (skipn (length m) s))) = true.
Proof.
  induction ps as [|p ps IH]; intros prev s m; cbn [map app match_here].
  - destruct (xorb _ _) eqn:E; [|discriminate].
    intros [= <-]; split; [reflexivity|exact E].
  - destruct s as [|c s]; [discriminate|].
    destruct (p c) eqn:Hp; [|discriminate].
    destruct (match_here _ (Some c) s) as [m'|] eqn:E; [|discriminate].
    intros [= <-]; destruct (IH _ _ _ E) as [Hf Hx].
    cbn [fits last_prev length skipn]; now rewrite Hp, Hf.
Qed.

Lemma last_prev_word ps :
  Forall (fun p : char -> bool => forall c, p c = true -> is_word c = true) ps ->
  forall m prev,
    fits ps m = true -> m <> [] -> word_opt (last_prev prev m) = true.
Proof.
  induction 1 as [|p ps Hp _ IH]; intros [|c m] prev; simpl; try discriminate;
    [congruence|].
  intros H _; apply andb_true_iff in H as [Hc Hf].
  destruct m as [|c' m]; [simpl; auto|].
  apply IH; [assumption|discriminate].
Qed.

Lemma pattern_classes_word patron :
  In patron [PATRON_DNI; PATRON_NIE; PATRON_NIF] ->
  exists p ps,
    patron = WordB :: map Cls (p :: ps) ++ [WordB]
    /\ Forall (fun q : char -> bool => forall c, q c = true -> is_word c = true)
         (p :: ps).
Proof.
  assert (D : forall c, is_digit c = true -> is_word c = true)
    by exact is_digit_word.
  assert (A : forall c, is_AZ c = true -> is_word c = true)
    by (intros; now apply is_09AZ_word, is_09AZ_of_AZ).
  intros [<-|[<-|[<-|[]]]].
  - exists is_digit, (repeat is_digit 7 ++ [is_AZ]); split; [reflexivity|].
    repeat (constructor; [assumption|]); constructor.
  - exists is_XYZ, (repeat is_digit 7 ++ [is_AZ]); split; [reflexivity|].
    constructor; [intros; now apply A, is_XYZ_AZ|].
    repeat (constructor; [assumption|]); constructor.
  - exists is_nif_letter, (repeat is_digit 7 ++ [is_09AZ]); split; [reflexivity|].
    constructor; [intros; now apply A, is_nif_letter_AZ|].
    repeat (constructor; [first [assumption|exact is_09AZ_word]|]); constructor.
Qed.

Lemma hd_error_skipn {A} (l : list A) n : hd_error (skipn n l) = nth_error l n.
Proof.
  revert l; induction n as [|n IH]; intros [|x l]; simpl; trivial.
Qed.

(** X7. A match of one of the three patterns is a whole word of the text:
    the character before it, if there is one, and the character after it,
    if there is one, are no letters, digits or underscores.  A number
    inside a longer alphanumeric token is not found. *)
Theorem X7_matches_are_whole_words :
  forall (texto : str) (patron : regex) (m : Match),
    In patron [PATRON_DNI; PATRON_NIE; PATRON_NIF] ->
    In m (finditer patron texto) ->
    word_opt (char_before texto (start m)) = false
    /\ word_opt (nth_error texto (start m + length (group m))) = false.
Proof.
  intros texto patron m Hp Hm.
  apply finditer_matches in Hm.
  destruct (pattern_classes_word patron Hp) as (p & ps & -> & Hw).
  cbn [match_here app] in Hm.
  destruct (xorb _ _) eqn:Hb; [|discriminate].
  pose proof (match_here_classes_wordb (p :: ps) _ _ _ Hm) as [Hf Hx].
  assert (Hne : group m <> []) by (destruct (group m); discriminate).
  rewrite (last_prev_word _ Hw _ _ Hf Hne) in Hx.
  rewrite hd_error_skipn, nth_error_skipn in Hx.
  split; [|now destruct (word_opt (nth_error _ _))].
  apply fits_first in Hf as (c & s' & Ec & Hc).
  pose proof (match_here_prefix _ _ _ _ Hm) as Hpre.
  rewrite Ec in Hpre; simpl in Hpre.
  destruct (skipn (start m) texto) as [|c0 rest]; [discriminate|].
  injection Hpre as -> _.
  simpl in Hb; inversion Hw as [|? ? Hpw _]; subst.
  rewrite (Hpw _ Hc) in Hb; now destruct (word_opt (char_before _ _)).
Qed.

Lemma X7_matches_are_whole_words_witness :
  In {| start := 4; group := lit "12345678Z" |}
     (finditer PATRON_DNI (lit "DNI:12345678Z. A12345678Z 12345678Z9"))
  /\ word_opt (char_before (lit "DNI:12345678Z. A12345678Z 12345678Z9") 4)
     = false.
Proof.
  assert (Hm : In {| start := 4; group := lit "12345678Z" |}
                 (finditer PATRON_DNI
                    (lit "DNI:12345678Z. A12345678Z 12345678Z9")))
    by (vm_compute; left; reflexivity).
  split; [exact Hm|].
  apply (X7_matches_are_whole_words _ PATRON_DNI _
           (or_introl eq_refl) Hm).
Defined.

Lemma finditer_from_apart re s :
  forall prev pos skip,
    StronglySorted apart (finditer_from re prev pos skip s)
    /\ Forall (fun m => (pos + skip <= start m)%nat)
         (finditer_from re prev pos skip s).
Proof.
  induction s as [|c s IH]; intros prev pos skip.
  - simpl; destruct skip; [|split; constructor].
    destruct (match_here re prev []); split; repeat constructor.
    simpl; lia.
  - simpl; destruct skip as [|k].
    + destruct (match_here re prev (c :: s)) as [m|] eqn:E.
      * destruct (IH (Some c) (S pos) (Nat.pred (length m))) as [Hs Hf].
        split; constructor; trivial.
        -- eapply Forall_impl; [|exact Hf].
           unfold apart; cbn [start group]; intros; lia.
        -- simpl; lia.
        -- eapply Forall_impl; [|exact Hf]. cbv beta; intros; lia.
      * destruct (IH (Some c) (S pos) 0%nat) as [Hs Hf]; split; trivial.
        eapply Forall_impl; [|exact Hf]. cbv beta; intros; lia.
    + destruct (IH (Some c) (S pos) k) as [Hs Hf]; split; trivial.
      eapply Forall_impl; [|exact Hf]. cbv beta; intros; lia.
Qed.

(** X8. The matches that [re.finditer] yields for one pattern do not
    overlap: each one ends at or before the start of every later one. *)
Theorem X8_finditer_matches_apart :
  forall (patron : regex) (texto : str),
    StronglySorted apart (finditer patron texto).
Proof. intros; apply finditer_from_apart. Qed.

(** * The rest of the program: properties *)

(** ** [process_pdf] and its callers *)

Lemma process_pdf_counted self texto :
  counted self (fst (process_pdf self texto)) (snd (process_pdf self texto))
  /\ archivos_procesados (snd (process_pdf self texto))
     = archivos_procesados self + 1.
Proof.
  rewrite process_pdf_run; cbn [fst snd]; unfold counted; cbn.
  repeat split.
Qed.

(** The two ways [process_pdf] ends: nothing read, nothing changed; or
    the text of one of the readers scanned. *)
Lemma process_pdf_source_cases w self source is_url :
  process_pdf_source w self source is_url = ([], self)
  \/ exists texto,
       process_pdf_source w self source is_url = process_pdf self texto.
Proof.
  unfold process_pdf_source.
  destruct (if is_url then _ else _) as [pdf|]; [|now left].
  destruct (read_with (pdfplumber pdf)) as [t|]; [right; eauto|].
  destruct (read_with (PyPDF2 pdf)) as [t|]; [right; eauto|now left].
Qed.

Lemma counted_nil self : counted self [] self.
Proof. unfold counted, count; simpl; repeat split; lia. Qed.

Lemma counted_app a rs b rs' c :
  counted a rs b -> counted b rs' c -> counted a (rs ++ rs') c.
Proof.
  unfold counted; rewrite !count_app; intros (? & ? & ? & ?) (? & ? & ? & ?).
  repeat split; lia.
Qed.

(** X9. Whatever the download and the readers do, [process_pdf] leaves
    the counters in step with the list it returns.  The file is counted
    as processed exactly when a text was read; otherwise (download
    failed, or both readers raised) the list is empty and no counter has
    changed. *)
Theorem X9_process_pdf_counts_what_it_returns :
  forall (w : World) (self : Stats) (source : str) (is_url : bool),
    let rs := fst (process_pdf_source w self source is_url) in
    let after := snd (process_pdf_source w self source is_url) in
    counted self rs after
    /\ (archivos_procesados after = archivos_procesados self + 1
        \/ (after = self /\ rs = []))
    /\ ((if is_url then download w source else Some (file w source)) = None ->
        after = self /\ rs = [])
    /\ (forall pdf,
          (if is_url then download w source else Some (file w source))
          = Some pdf ->
          read_with (pdfplumber pdf) = None ->
          read_with (PyPDF2 pdf) = None ->
          after = self /\ rs = []).
Proof.
  intros w self source is_url; cbv zeta.
  split; [|split; [|split]].
  - destruct (process_pdf_source_cases w self source is_url) as [->|[t ->]].
    + apply counted_nil.
    + apply process_pdf_counted.
  - destruct (process_pdf_source_cases w self source is_url) as [->|[t ->]].
    + right; split; reflexivity.
    + left; apply process_pdf_counted.
  - unfold process_pdf_source; intros ->; split; reflexivity.
  - unfold process_pdf_source; intros pdf -> -> ->; split; reflexivity.
Qed.

Lemma X9_process_pdf_counts_what_it_returns_witness :
  let w := {| download := fun _ => None;
              file := fun _ => {| pdfplumber := Some [PageError];
                                  PyPDF2 := None |};
              is_file := fun _ => true;
              suffix_lower := fun _ => lit ".pdf";
              expanduser := fun p => p;
              abspath := fun p => p |} in
  process_pdf_source w init_stats (lit "http://x/a.pdf") true = ([], init_stats)
  /\ process_pdf_source w init_stats (lit "a.pdf") false = ([], init_stats).
Proof.
  intros w.
  pose proof (X9_process_pdf_counts_what_it_returns
                w init_stats (lit "http://x/a.pdf") true) as (_ & _ & H1 & _).
  pose proof (X9_process_pdf_counts_what_it_returns
                w init_stats (lit "a.pdf") false) as (_ & _ & _ & H2).
  specialize (H1 eq_refl).
  specialize (H2 _ eq_refl eq_refl eq_refl).
  split; apply injective_projections; cbn [fst snd];
    first [apply H1|apply H2].
Defined.

(** The loop of [analizar_multiples_archivos] keeps list and counters in
    step. *)
Lemma analizar_ruta_counted w self0 totales self ruta :
  counted self0 totales self ->
  archivos_procesados self0 <= archivos_procesados self ->
  let out := analizar_ruta w (totales, self) ruta in
  counted self0 (fst out) (snd out)
  /\ archivos_procesados self <= archivos_procesados (snd out)
     <= archivos_procesados self + 1.
Proof.
  intros Hc Hle; cbv zeta; unfold analizar_ruta.
  destruct (negb (is_file w ruta)); [cbn [fst snd]; split; [assumption|lia]|].
  destruct (str_eqb _ _); [|cbn [fst snd]; split; [assumption|lia]].
  destruct (process_pdf_source_cases w self ruta false) as [->|[t ->]].
  - cbn [nonempty fst snd]; split; [assumption|lia].
  - pose proof (process_pdf_counted self t) as [Hc' Ha].
    destruct (process_pdf self t) as [rs st]; cbn [fst snd] in *.
    destruct rs as [|r rs]; cbn [nonempty fst snd].
    + split; [|lia]. rewrite <- (app_nil_r totales).
      eapply counted_app; eassumption.
    + split; [|lia]. eapply counted_app; eassumption.
Qed.

Lemma analizar_fold_counted w self0 rutas :
  forall totales self,
    counted self0 totales self ->
    archivos_procesados self0 <= archivos_procesados self ->
    let out := fold_left (analizar_ruta w) rutas (totales, self) in
    counted self0 (fst out) (snd out)
    /\ archivos_procesados self <= archivos_procesados (snd out)
       <= archivos_procesados self + Z.of_nat (length rutas).
Proof.
  induction rutas as [|ruta rutas IH]; intros totales self Hc Hle; cbv zeta.
  - cbn [fold_left fst snd length]; split; [assumption|lia].
  - cbn [fold_left length].
    pose proof (analizar_ruta_counted w self0 totales self ruta Hc Hle)
      as [Hc1 Ha1]; cbv zeta in Hc1, Ha1.
    destruct (analizar_ruta w (totales, self) ruta) as [t1 s1];
      cbn [fst snd] in *.
    destruct (IH t1 s1 Hc1 ltac:(lia)) as [Hc2 Ha2]; cbv zeta in Hc2, Ha2.
    split; [assumption|lia].
Qed.

(** X10. After [analizar_multiples_archivos] has gone through its paths,
    the list it returns and the counters agree: each counter has grown
    by the number of results of its kind in the list, over all the files
    together, and [archivos_procesados] by at most the number of paths.
    For a new validator the counters are the counts of the list. *)
Theorem X10_analizar_multiples_counts :
  forall (w : World) (self : Stats) (rutas : list str),
    let totales := fst (analizar_rutas w self rutas) in
    let after := snd (analizar_rutas w self rutas) in
    let totales0 := fst (analizar_rutas w init_stats rutas) in
    let after0 := snd (analizar_rutas w init_stats rutas) in
    counted self totales after
    /\ archivos_procesados self <= archivos_procesados after
       <= archivos_procesados self + Z.of_nat (length rutas)
    /\ dni_validos after0 = count (valid_of (lit "DNI")) totales0
    /\ nie_validos after0 = count (valid_of (lit "NIE")) totales0
    /\ nif_validos after0 = count (valid_of (lit "NIF")) totales0
    /\ docs_invalidos after0 = count invalid totales0.
Proof.
  intros w self rutas; cbv zeta; unfold analizar_rutas.
  pose proof (analizar_fold_counted w self rutas [] self
                (counted_nil self) ltac:(lia)) as [Hc Ha]; cbv zeta in Hc, Ha.
  pose proof (analizar_fold_counted w init_stats rutas [] init_stats
                (counted_nil init_stats) ltac:(lia)) as [Hc0 _];
    cbv zeta in Hc0.
  split; [assumption|split; [assumption|]].
  destruct Hc0 as (? & ? & ? & ?); cbn in *; repeat split; lia.
Qed.

(** ** [save_results] *)

Lemma writerows_app fn a b ra rb :
  writerows fn a = Return ra -> writerows fn b = Return rb ->
  writerows fn (a ++ b) = Return (ra ++ rb)%list.
Proof.
  revert ra; induction a as [|d a IH]; intros ra; simpl.
  - now intros [= <-].
  - destruct (dict_to_list fn d) as [row|]; [|discriminate]; simpl.
    destruct (writerows fn a) as [rows|]; [|discriminate]; simpl.
    intros [= <-] Hb; now rewrite (IH rows eq_refl Hb).
Qed.

Lemma writerows_resultados C W rs :
  writerows fieldnames (map (resultado_row C W) rs)
  = Return (map (data_row C W) rs).
Proof.
  induction rs as [|r rs IH]; [reflexivity|].
  cbn [map writerows]; rewrite IH.
  reflexivity.
Qed.

(** The rows that [save_results] writes. *)
Lemma save_results_rows C W self rs :
  save_results C W self rs
  = Return (header_row :: map (data_row C W) rs
            ++ summary_rows (dni_validos self) (nie_validos self)
                 (nif_validos self) (Z.of_nat (length rs))).
Proof.
  unfold save_results.
  apply (writerows_app fieldnames [_] _ [header_row]); [reflexivity|].
  apply writerows_app; [apply writerows_resultados|reflexivity].
Qed.

(** X11. [save_results] hands the CSV writer no key that is not a field,
    so [DictWriter] raises no [ValueError]: it writes the header, one
    row for each result in the order of the list, with type, document
    and cleaned document as they are, and six closing rows.  Every row
    has the four cells of the header, and the cell for a valid result
    differs from the cell for an invalid one. *)
Theorem X11_save_results_rows :
  forall (CHECK_MARK WARNING_SIGN : char) (self : Stats)
         (resultados : list Resultado),
    exists resumen,
      save_results CHECK_MARK WARNING_SIGN self resultados
      = Return (header_row
                :: map (data_row CHECK_MARK WARNING_SIGN) resultados
                ++ resumen)
      /\ length resumen = 6%nat
      /\ Forall (fun row => length row = length fieldnames)
           (header_row
            :: map (data_row CHECK_MARK WARNING_SIGN) resultados ++ resumen)
      /\ valido_cell CHECK_MARK WARNING_SIGN true
         <> valido_cell CHECK_MARK WARNING_SIGN false.
Proof.
  intros C W self rs; eexists; split; [apply save_results_rows|].
  split; [reflexivity|split].
  - constructor; [reflexivity|].
    apply Forall_app; split.
    + apply Forall_forall; intros row Hr.
      apply in_map_iff in Hr as (r & <- & _); reflexivity.
    + repeat constructor.
  - discriminate.
Qed.

Lemma counted_tipos rs :
  Forall (fun r => In (tipo r) [lit "DNI"; lit "NIE"; lit "NIF"]) rs ->
  count (valid_of (lit "DNI")) rs + count (valid_of (lit "NIE")) rs
  + count (valid_of (lit "NIF")) rs + count invalid rs
  = Z.of_nat (length rs).
Proof.
  induction 1 as [|r rs Hr _ IH]; [reflexivity|].
  change (r :: rs) with ([r] ++ rs)%list.
  apply one_counter_app; [|exact IH].
  destruct Hr as [Hr|[Hr|[Hr|[]]]];
    (eapply one_counter_each; [|constructor; [symmetry; exact Hr|constructor]]);
    simpl; tauto.
Qed.

Lemma process_pdf_tipos self texto :
  Forall (fun r => In (tipo r) [lit "DNI"; lit "NIE"; lit "NIF"])
    (fst (process_pdf self texto)).
Proof.
  apply Forall_forall; intros r Hr.
  apply process_pdf_In in Hr as (t & patron & m & Hp & _ & ->).
  cbn [tipo resultado_de]; simpl in Hp.
  destruct Hp as [[= _ <-]|[[= _ <-]|[[= _ <-]|[]]]]; simpl; tauto.
Qed.

Lemma analizar_fold_tipos w rutas :
  forall totales self,
    Forall (fun r => In (tipo r) [lit "DNI"; lit "NIE"; lit "NIF"]) totales ->
    Forall (fun r => In (tipo r) [lit "DNI"; lit "NIE"; lit "NIF"])
      (fst (fold_left (analizar_ruta w) rutas (totales, self))).
Proof.
  induction rutas as [|ruta rutas IH]; intros totales self H; [exact H|].
  cbn [fold_left].
  destruct (analizar_ruta w (totales, self) ruta) as [t1 s1] eqn:E.
  apply IH. unfold analizar_ruta in E.
  destruct (negb _); [now injection E as <- _|].
  destruct (str_eqb _ _); [|now injection E as <- _].
  destruct (process_pdf_source_cases w self ruta false) as [Hp|[t Hp]];
    rewrite Hp in E.
  - now injection E as <- _.
  - pose proof (process_pdf_tipos self t) as Ht.
    destruct (process_pdf self t) as [rs st]; cbn [fst] in Ht.
    destruct rs; cbn [nonempty] in E; injection E as <- _; [exact H|].
    apply Forall_app; now split.
Qed.

(** X12. When the list that [analizar_multiples_archivos] returns is
    saved with the same validator, the closing rows give, as Total DNI,
    Total NIE and Total NIF, the counters before the analysis plus the
    valid results of the type in the list, and as Total Documentos the
    length of the list.  For a new validator the three totals and the
    number of invalid results add up to Total Documentos. *)
Theorem X12_saved_summary_matches_rows :
  forall (CHECK_MARK WARNING_SIGN : char) (w : World) (self : Stats)
         (rutas : list str),
    let totales := fst (analizar_rutas w self rutas) in
    let after := snd (analizar_rutas w self rutas) in
    let totales0 := fst (analizar_rutas w init_stats rutas) in
    save_results CHECK_MARK WARNING_SIGN after totales
    = Return (header_row
              :: map (data_row CHECK_MARK WARNING_SIGN) totales
              ++ summary_rows
                   (dni_validos self + count (valid_of (lit "DNI")) totales)
                   (nie_validos self + count (valid_of (lit "NIE")) totales)
                   (nif_validos self + count (valid_of (lit "NIF")) totales)
                   (Z.of_nat (length totales)))
    /\ count (valid_of (lit "DNI")) totales0
       + count (valid_of (lit "NIE")) totales0
       + count (valid_of (lit "NIF")) totales0
       + count invalid totales0
       = Z.of_nat (length totales0).
Proof.
  intros C W w self rutas; cbv zeta; split.
  - rewrite save_results_rows.
    destruct (analizar_fold_counted w self rutas [] self
                (counted_nil self) ltac:(lia)) as [(Hd & Hn & Hf & _) _].
    unfold analizar_rutas; cbv zeta in Hd, Hn, Hf.
    now rewrite Hd, Hn, Hf.
  - apply counted_tipos, analizar_fold_tipos; constructor.
Qed.

(** ** [sanitize_path] *)

Lemma filter_lstrip (f p : char -> bool) s :
  (forall c, p c = true -> f c = false) ->
  filter f (lstrip p s) = filter f s.
Proof.
  intros H; induction s as [|c s IH]; [reflexivity|].
  cbn [lstrip]; destruct (p c) eqn:E; [|reflexivity].
  cbn [filter]; now rewrite (H c E).
Qed.

Lemma filter_strip_by (f p : char -> bool) s :
  (forall c, p c = true -> f c = false) ->
  filter f (strip_by p s) = filter f s.
Proof.
  intros H; unfold strip_by, rstrip.
  rewrite filter_rev, filter_lstrip, <- filter_rev, rev_involutive by assumption.
  now apply filter_lstrip.
Qed.

Lemma quote_no_path_char c :
  existsb (N.eqb c) [ch "'"; 34%N] = true -> is_path_char c = false.
Proof.
  cbn [existsb]; rewrite !orb_true_iff, !N.eqb_eq.
  intros [->|[->|[=]]]; vm_compute; reflexivity.
Qed.

Lemma lstrip_fixed p c s : p c = false -> lstrip p (c :: s) = c :: s.
Proof. intros H; simpl; now rewrite H. Qed.

(** Stripping changes nothing when the first and the last character
    stay. *)
Lemma strip_by_fixed (p : char -> bool) s :
  (forall c rest, s = c :: rest -> p c = false) ->
  (forall front c, s = front ++ [c] -> p c = false) ->
  strip_by p s = s.
Proof.
  intros Hfirst Hlast; unfold strip_by, rstrip.
  destruct s as [|c s]; [reflexivity|].
  rewrite (lstrip_fixed p c s) by (eapply Hfirst; reflexivity).
  destruct (rev (c :: s)) as [|z l] eqn:E.
  - apply (f_equal (@length _)) in E; rewrite length_rev in E; discriminate.
  - rewrite lstrip_fixed, <- E; [apply rev_involutive|].
    apply (Hlast (rev l)).
    rewrite <- (rev_involutive (c :: s)), E; reflexivity.
Qed.

(** X13. [sanitize_path] hands [expanduser] and [abspath] the path
    without the whitespace around it and without any character outside
    the permitted class; quotes go with them wherever they stand, so
    stripping them from the ends first changes nothing.  A path of
    permitted characters that neither begins nor ends with whitespace
    reaches [expanduser] as it is. *)
Theorem X13_sanitize_path_keeps_permitted :
  forall (w : World) (path : str),
    sanitize_path w path
    = abspath w (expanduser w (filter is_path_char (strip path)))
    /\ Forall (fun c => is_path_char c = true)
         (filter is_path_char (strip path))
    /\ (Forall (fun c => is_path_char c = true) path ->
        (forall c rest, path = c :: rest -> is_space c = false) ->
        (forall front c, path = front ++ [c] -> is_space c = false) ->
        sanitize_path w path = abspath w (expanduser w path)).
Proof.
  intros w path.
  assert (E : sanitize_path w path
              = abspath w (expanduser w (filter is_path_char (strip path)))).
  { unfold sanitize_path, re_sub_empty, strip_chars; cbv zeta.
    rewrite (filter_ext (fun c => negb (negb (is_path_char c))) is_path_char)
      by (intros; apply negb_involutive).
    rewrite filter_strip_by by apply quote_no_path_char.
    reflexivity. }
  split; [exact E|split].
  - apply Forall_forall; intros c Hc; now apply filter_In in Hc.
  - intros Hall Hfirst Hlast; rewrite E.
    unfold strip; rewrite strip_by_fixed by assumption.
    do 2 f_equal; apply forallb_filter_id.
    apply forallb_forall; rewrite Forall_forall in Hall; exact Hall.
Qed.

Lemma X13_sanitize_path_keeps_permitted_witness :
  let w := {| download := fun _ => None;
              file := fun _ => {| pdfplumber := None; PyPDF2 := None |};
              is_file := fun _ => false;
              suffix_lower := fun _ => [];
              expanduser := fun p => p;
              abspath := fun p => (lit "/cwd/" ++ p)%list |} in
  sanitize_path w (lit "docs/a" ++ [N_TILDE] ++ lit "o (1).pdf")
  = (lit "/cwd/docs/a" ++ [N_TILDE] ++ lit "o (1).pdf")%list.
Proof.
  intros w.
  destruct (X13_sanitize_path_keeps_permitted w
              (lit "docs/a" ++ [N_TILDE] ++ lit "o (1).pdf")) as (_ & _ & H).
  apply H.
  - apply Forall_forall, forallb_forall; vm_compute; reflexivity.
  - intros c rest E; vm_compute in E; injection E as <- _.
    vm_compute; reflexivity.
  - intros front c Hc.
    apply (f_equal (@rev _)) in Hc; rewrite (rev_app_distr front) in Hc.
    vm_compute in Hc; injection Hc as <- _; vm_compute; reflexivity.
Defined.

Example sanitize_path_ex :
  let w := {| download := fun _ => None;
              file := fun _ => {| pdfplumber := None; PyPDF2 := None |};
              is_file := fun _ => false;
              suffix_lower := fun _ => [];
              expanduser := fun p => p;
              abspath := fun p => p |} in
  sanitize_path w (lit "  'a;rm -rf $HOME|b*.pdf'  ") = lit "arm -rf HOMEb.pdf".
Proof. vm_compute; reflexivity. Qed.

(** ** Reading the pages *)

Lemma extract_pages_joined pages :
  forall texto,
    extract_pages pages texto
    = if forallb page_ok pages
      then Some (texto ++ concat (map page_text pages))%list
      else None.
Proof.
  induction pages as [|p pages IH]; intros texto; simpl.
  - now rewrite app_nil_r.
  - destruct p; simpl; trivial; rewrite IH;
      destruct (forallb page_ok pages); trivial; now rewrite <- app_assoc.
Qed.

Lemma read_with_joined r : read_with r = joined_text r.
Proof. destruct r as [pages|]; [apply extract_pages_joined|reflexivity]. Qed.

(** X14. [process_pdf] scans the texts of the pages joined with nothing
    between them, pages without text counting as empty.  The text comes
    from pdfplumber when it reads every page; when it raises on any
    page, what it had read is dropped and the text comes from PyPDF2
    alone. *)
Theorem X14_process_pdf_scans_joined_pages :
  forall (w : World) (self : Stats) (source : str) (is_url : bool) (pdf : Pdf),
    (if is_url then download w source else Some (file w source)) = Some pdf ->
    (forall texto,
        joined_text (pdfplumber pdf) = Some texto ->
        process_pdf_source w self source is_url = process_pdf self texto)
    /\ (forall texto,
          joined_text (pdfplumber pdf) = None ->
          joined_text (PyPDF2 pdf) = Some texto ->
          process_pdf_source w self source is_url = process_pdf self texto).
Proof.
  intros w self source is_url pdf H; unfold process_pdf_source.
  rewrite H, !read_with_joined; split.
  - now intros texto ->.
  - now intros texto -> ->.
Qed.

Lemma X14_process_pdf_scans_joined_pages_witness :
  let w := {| download := fun _ => None;
              file := fun _ =>
                {| pdfplumber := Some [Text (lit "DNI 1234"); NoText;
                                       Text (lit "5678Z")];
                   PyPDF2 := None |};
              is_file := fun _ => true;
              suffix_lower := fun _ => lit ".pdf";
              expanduser := fun p => p;
              abspath := fun p => p |} in
  process_pdf_source w init_stats (lit "a.pdf") false
  = process_pdf init_stats (lit "DNI 12345678Z").
Proof.
  intros w.
  destruct (X14_process_pdf_scans_joined_pages w init_stats (lit "a.pdf") false
              (file w (lit "a.pdf")) eq_refl) as [H _].
  apply H; reflexivity.
Defined.

(** X15. After X, Y or Z in either case and seven decimal digits,
    [validate_nie] accepts a last character exactly when its upper case
    is the check letter of the number that the prefix digit and the
    digits make. *)
Theorem X15_validate_nie_letter_either_case :
  forall (l0 L : char) (ds : str) (c : char),
    upper_char l0 = [L] -> In L (lit "XYZ") ->
    decimal_digits 7 ds ->
    exists l,
      index LETRAS_VALIDACION (decimal (prefix_digit L :: ds) mod 23)
      = Return l
      /\ (validate_nie (l0 :: ds ++ [c]) = Return true <-> upper_char c = [l])
      /\ (validate_nie (l0 :: ds ++ [c]) = Return false
          <-> upper_char c <> [l]).
Proof.
  intros l0 L ds c HL Hx H.
  apply is_XYZ_set in Hx; apply decimal_digits_forallb in H as [Hl Hd].
  destruct (validate_nie_body l0 L ds c HL Hx Hl Hd) as (l & b & Hi & -> & Hb).
  exists l; split; [assumption|]; rewrite !Return_inj; split;
    [assumption|now apply verdict_cases].
Qed.

Lemma X15_validate_nie_letter_either_case_witness :
  validate_nie (lit "y7654321g") = Return true.
Proof.
  destruct (X15_validate_nie_letter_either_case
              (ch "y") (ch "Y") (lit "7654321") (ch "g"))
    as (l & Hl & Ht & _).
  - vm_compute; reflexivity.
  - apply In_existsb; vm_compute; reflexivity.
  - apply decimal_digits_iff; split; vm_compute; reflexivity.
  - apply Ht; vm_compute in Hl; injection Hl as <-; vm_compute; reflexivity.
Defined.

(** ** No document is missed *)

Section Complete.

Variable re : regex.
(** A match starts after no word character and reads word characters
    only, as the three patterns do. *)
Hypothesis Hprev :
  forall prev s m, match_here re prev s = Some m -> word_opt prev = false.
Hypothesis Hword :
  forall prev s m, match_here re prev s = Some m -> forallb is_word m = true.

Lemma prev_at_cons prev c s k :
  prev_at prev (c :: s) (S k) = prev_at (Some c) s k.
Proof. now destruct k. Qed.

(** Where the pattern matches, [finditer_from] yields the match: the
    positions it skips lie inside the last match, after a word
    character, where nothing can start. *)
Lemma finditer_from_complete s :
  forall prev pos skip,
    (skip <> 0%nat -> word_opt prev = true) ->
    forallb is_word (firstn skip s) = true ->
    forall k m,
      (k <= length s)%nat ->
      match_here re (prev_at prev s k) (skipn k s) = Some m ->
      In {| start := pos + k; group := m |} (finditer_from re prev pos skip s).
Proof.
  induction s as [|c s IH]; intros prev pos skip Hp Hs k m Hk Hm.
  - assert (k = 0%nat) by (simpl in Hk; lia); subst k.
    cbn [prev_at skipn] in Hm; cbn [finditer_from].
    destruct skip as [|j].
    + rewrite Hm, Nat.add_0_r; now left.
    + rewrite (Hprev _ _ _ Hm) in Hp; discriminate Hp; discriminate.
  - cbn [finditer_from]; destruct skip as [|j].
    + destruct (match_here re prev (c :: s)) as [m0|] eqn:E.
      * destruct k as [|k].
        -- cbn [prev_at skipn] in Hm; rewrite Nat.add_0_r.
           left; congruence.
        -- right; rewrite Nat.add_succ_r, <- Nat.add_succ_l.
           pose proof (match_here_prefix _ _ _ _ E) as Hpre.
           pose proof (Hword _ _ _ E) as Hw.
           rewrite prev_at_cons in Hm; cbn [skipn] in Hm.
           destruct m0 as [|c0 m0]; cbn [length Nat.pred].
           ++ apply IH; trivial; [congruence|simpl in Hk; lia].
           ++ cbn [firstn length] in Hpre; injection Hpre as <- Hpre.
              cbn [forallb] in Hw; apply andb_true_iff in Hw as [Hc Hw].
              apply IH; trivial; [now rewrite Hpre|simpl in Hk; lia].
      * destruct k as [|k]; [cbn [prev_at skipn] in Hm; congruence|].
        rewrite Nat.add_succ_r, <- Nat.add_succ_l.
        rewrite prev_at_cons in Hm; cbn [skipn] in Hm.
        apply IH; trivial; [congruence|simpl in Hk; lia].
    + cbn [firstn forallb] in Hs; apply andb_true_iff in Hs as [Hc Hs].
      destruct k as [|k].
      * cbn [prev_at skipn] in Hm.
        rewrite (Hprev _ _ _ Hm) in Hp; discriminate Hp; discriminate.
      * rewrite Nat.add_succ_r, <- Nat.add_succ_l.
        rewrite prev_at_cons in Hm; cbn [skipn] in Hm.
        apply IH; trivial; simpl in Hk; lia.
Qed.

End Complete.

Lemma fits_word ps :
  Forall (fun p : char -> bool => forall c, p c = true -> is_word c = true) ps ->
  forall m, fits ps m = true -> forallb is_word m = true.
Proof.
  induction 1 as [|p ps Hp _ IH]; intros [|c m]; simpl; try discriminate;
    trivial.
  intros H; apply andb_true_iff in H as [Hc Hf].
  now rewrite (Hp c Hc), IH.
Qed.

(** What a match of one of the three patterns tells. *)
Lemma pattern_match_word patron prev s m :
  In patron [PATRON_DNI; PATRON_NIE; PATRON_NIF] ->
  match_here patron prev s = Some m ->
  word_opt prev = false /\ forallb is_word m = true.
Proof.
  intros Hp Hm.
  destruct (pattern_classes_word patron Hp) as (p & ps & -> & Hw).
  cbn [match_here app] in Hm.
  destruct (xorb _ _) eqn:Hb; [|discriminate].
  pose proof (match_here_classes_wordb (p :: ps) _ _ _ Hm) as [Hf _].
  split; [|now apply (fits_word _ Hw)].
  pose proof (match_here_prefix _ _ _ _ Hm) as Hpre.
  apply fits_first in Hf as (c & m' & -> & Hc).
  destruct s as [|c0 s]; [discriminate|].
  cbn [firstn length] in Hpre; injection Hpre as -> _.
  inversion Hw as [|? ? Hpw _]; subst.
  simpl in Hb; rewrite (Hpw _ Hc) in Hb.
  now destruct (word_opt prev).
Qed.

Lemma finditer_complete patron texto i m :
  In patron [PATRON_DNI; PATRON_NIE; PATRON_NIF] ->
  (i <= length texto)%nat ->
  match_here patron (char_before texto i) (skipn i texto) = Some m ->
  In {| start := i; group := m |} (finditer patron texto).
Proof.
  intros Hp Hi Hm.
  apply (finditer_from_complete patron
           (fun prev s m H => proj1 (pattern_match_word patron prev s m Hp H))
           (fun prev s m H => proj2 (pattern_match_word patron prev s m Hp H))
           texto None 0 0); trivial.
  congruence.
Qed.

(** Classes closed by [\b] match a text that fits them and ends at a
    word boundary. *)
Lemma match_here_classes_fit ps :
  forall prev token rest,
    fits ps token = true ->
    xorb (word_opt (last_prev prev token)) (word_opt (hd_error rest)) = true ->
    match_here (map Cls ps ++ [WordB]) prev (token ++ rest) = Some token.
Proof.
  induction ps as [|p ps IH]; intros prev [|c token] rest; simpl;
    try discriminate.
  - now intros _ ->.
  - intros H Hx; apply andb_true_iff in H as [-> H].
    now rewrite (IH (Some c) token rest H Hx).
Qed.

Lemma last_prev_snoc prev m z : last_prev prev (m ++ [z]) = Some z.
Proof. revert prev; induction m as [|c m IH]; intros prev; simpl; auto. Qed.

Lemma char_before_app before rest :
  char_before (before ++ rest) (length before) = last_prev None before.
Proof.
  destruct before as [|c b] using rev_ind; [reflexivity|].
  rewrite last_prev_snoc, length_app, Nat.add_comm; cbn [length Nat.add].
  unfold char_before.
  rewrite <- app_assoc, nth_error_app2, Nat.sub_diag by lia; reflexivity.
Qed.

Lemma shape_of_fits t token :
  shape_of t token ->
  exists patron,
    In (patron, t) PATRONES /\ fits (classes_of patron) token = true.
Proof.
  intros [[-> H]|[[-> H]|[-> H]]].
  - exists PATRON_DNI; split; [simpl; tauto|now apply dni_shape_fits].
  - exists PATRON_NIE; split; [simpl; tauto|now apply nie_shape_fits].
  - exists PATRON_NIF; split; [simpl; tauto|now apply nif_shape_fits].
Qed.

(** X16. The scan misses no document: a token of the shape of a DNI, a
    NIE or a NIF that stands in the text as a whole word (no letter,
    digit or underscore right before or right after it) is in the list
    that [process_pdf] returns, under its type, at its offset. *)
Theorem X16_scan_finds_every_whole_word :
  forall (self : Stats) (t before token after : str),
    shape_of t token ->
    word_opt (last_prev None before) = false ->
    word_opt (hd_error after) = false ->
    In (resultado_de t {| start := length before; group := token |})
       (fst (process_pdf self (before ++ token ++ after)))
    /\ In {| start := length before; group := token |}
          (finditer
             (if str_eqb t (lit "DNI") then PATRON_DNI
              else if str_eqb t (lit "NIE") then PATRON_NIE else PATRON_NIF)
             (before ++ token ++ after)).
Proof.
  intros self t before token after Hs Hb Ha.
  destruct (shape_of_fits t token Hs) as (patron & Hp & Hf).
  assert (Hin : In patron [PATRON_DNI; PATRON_NIE; PATRON_NIF])
    by (simpl in Hp; simpl; destruct Hp as [[= <- _]|[[= <- _]|[[= <- _]|[]]]];
        tauto).
  assert (Hm : In {| start := length before; group := token |}
                 (finditer patron (before ++ token ++ after))).
  { apply finditer_complete; trivial; [rewrite length_app; lia|].
    rewrite char_before_app, skipn_app, Nat.sub_diag, skipn_all.
    cbn [skipn app].
    destruct (pattern_classes_word patron Hin) as (p & ps & -> & Hw).
    change (classes_of (WordB :: map Cls (p :: ps) ++ [WordB]))
      with (classes_of (map Cls (p :: ps) ++ [WordB])) in Hf.
    assert (Hc : classes_of (map Cls (p :: ps) ++ [WordB]) = p :: ps).
    { clear; generalize (p :: ps); intros l; induction l as [|q l IH];
        [reflexivity|]. cbn [map app classes_of]; now rewrite IH. }
    rewrite Hc in Hf.
    cbn [app match_here].
    pose proof (fits_first _ _ _ Hf) as (c & m' & Ec & Hpc).
    inversion Hw as [|? ? Hpw _]; subst.
    cbn [app hd_error word_opt]; rewrite Hb, (Hpw _ Hpc); cbn [xorb].
    change (Cls p :: map Cls ps ++ [WordB]) with (map Cls (p :: ps) ++ [WordB]).
    change (c :: m' ++ after) with ((c :: m') ++ after)%list.
    apply match_here_classes_fit; [assumption|].
    rewrite (last_prev_word _ Hw) by (trivial; discriminate).
    now rewrite Ha. }
  split.
  - rewrite process_pdf_run; cbn [fst]; unfold block.
    simpl in Hp; destruct Hp as [[= <- <-]|[[= <- <-]|[[= <- <-]|[]]]];
      rewrite !in_app_iff;
      [left|right; left|right; right]; now apply in_map.
  - simpl in Hp; destruct Hp as [[= <- <-]|[[= <- <-]|[[= <- <-]|[]]]];
      exact Hm.
Qed.

Lemma X16_scan_finds_every_whole_word_witness :
  In {| tipo := lit "DNI"; documento := lit "12345678Z";
        documento_limpio := lit "12345678Z"; valido := true |}
     (fst (process_pdf init_stats (lit "Cliente: 12345678Z, alta"))).
Proof.
  destruct (X16_scan_finds_every_whole_word init_stats (lit "DNI")
              (lit "Cliente: ") (lit "12345678Z") (lit ", alta")) as [H _].
  - left; split; [reflexivity|].
    exists (lit "12345678"), (ch "Z"); split; [reflexivity|split].
    + apply decimal_digits_iff; split; vm_compute; reflexivity.
    + apply In_existsb; vm_compute; reflexivity.
  - vm_compute; reflexivity.
  - vm_compute; reflexivity.
  - vm_compute in H; vm_compute; exact H.
Defined.
